(** * SmartBudgetAIChatbot: the conversation engine of ChatBot/chatbot.py
      and the web service of ChatBot/app.py

    A shallow embedding of the chatbot class, of the view that serves it and
    of the Python primitives they rely on (str methods, the [re] module on
    the patterns the class uses, binary64 floats, insertion-ordered dicts,
    [str.format]), followed by the properties of the engine.

    Conventions of the embedding.
    - A Python [str] is a [string]: the UTF-8 bytes of the text.  The
      character tests ([\s], [\d], [\w], [str.lower], ...) are the ASCII
      ones, so the embedding is exact on ASCII utterances and on them only:
      on other characters Python's tests accept more.  Where a property
      is stated for ASCII utterances, [isascii] is its hypothesis.  The
      rupee sign of the patterns and the emoji of the templates are their
      UTF-8 bytes.
    - [self] is a [State] record, threaded explicitly: a method is a function
      from the state to the new state and the returned value; a method that
      only reads [self] returns its value alone.
    - [random.choice] takes its draw as an argument; [datetime.now()] is an
      argument too; the remote model's answer is an argument of
      [get_ai_response], the parsed body of the request an argument of
      [chat].
    - A raised exception is the [Raise] result.
    - Left out: the text of the prompt sent to the remote model, the texts
      that [get_bank_information] answers with (the search query it picks
      is modelled) and [get_greeting], which draws one of four fixed
      texts; none of them writes [self]. *)

From Stdlib Require Import ZArith QArith Qabs Qround List String Ascii Bool Arith Lia.
From Stdlib Require Import DecimalString.
From Stdlib Require DecimalPos DecimalN.
Import ListNotations.

Close Scope Q_scope.

Set Implicit Arguments.
Open Scope string_scope.

(* ================================================================== *)
(** * Python [str] *)
(* ================================================================== *)

Definition code (c : ascii) : nat := nat_of_ascii c.

Definition between (lo hi : nat) (c : ascii) : bool :=
  (lo <=? code c)%nat && (code c <=? hi)%nat.

Definition is_upper (c : ascii) : bool := between 65 90 c.
Definition is_lower (c : ascii) : bool := between 97 122 c.
Definition is_alpha (c : ascii) : bool := is_upper c || is_lower c.
Definition is_digit (c : ascii) : bool := between 48 57 c.

(** [str.isspace] on one ASCII character, which is also what [\s] accepts:
    tab, newline, vertical tab, form feed, carriage return, the four
    separators 0x1c-0x1f and the space. *)
Definition is_space (c : ascii) : bool := between 9 13 c || between 28 32 c.

(** [\w] *)
Definition is_word (c : ascii) : bool :=
  is_alpha c || is_digit c || (code c =? 95)%nat.

Definition lower_char (c : ascii) : ascii :=
  if is_upper c then ascii_of_nat (code c + 32) else c.

Definition upper_char (c : ascii) : ascii :=
  if is_lower c then ascii_of_nat (code c - 32) else c.

(** [s.lower()] *)
Fixpoint lower (s : string) : string :=
  match s with
  | "" => ""
  | String c s' => String (lower_char c) (lower s')
  end.

(** [s.lstrip()], [s.rstrip()], [s.strip()] *)
Fixpoint lstrip (s : string) : string :=
  match s with
  | String c s' => if is_space c then lstrip s' else s
  | "" => ""
  end.

Fixpoint rstrip (s : string) : string :=
  match s with
  | "" => ""
  | String c s' =>
      match rstrip s' with
      | "" => if is_space c then "" else String c ""
      | t => String c t
      end
  end.

Definition strip (s : string) : string := lstrip (rstrip s).

(** [s.capitalize()]: first character upper-cased, the rest lower-cased. *)
Definition capitalize (s : string) : string :=
  match s with
  | "" => ""
  | String c s' => String (upper_char c) (lower s')
  end.

(** [s.title()]: a letter is upper-cased when the character before it is not
    a letter (or there is none), lower-cased otherwise. *)
Fixpoint title_from (prev_cased : bool) (s : string) : string :=
  match s with
  | "" => ""
  | String c s' =>
      String (if prev_cased then lower_char c else upper_char c)
             (title_from (is_alpha c) s')
  end.

Definition title (s : string) : string := title_from false s.

(** [t.startswith(p)], giving what follows the prefix. *)
Fixpoint drop_prefix (p t : string) : option string :=
  match p, t with
  | "", _ => Some t
  | String a p', String b t' =>
      if Ascii.eqb a b then drop_prefix p' t' else None
  | String _ _, "" => None
  end.

(** [needle in hay] *)
Fixpoint contains (needle hay : string) : bool :=
  match drop_prefix needle hay with
  | Some _ => true
  | None =>
      match hay with
      | "" => false
      | String _ hay' => contains needle hay'
      end
  end.

(** [s.replace(c, "")] for a one-character [c]. *)
Fixpoint remove_char (c : ascii) (s : string) : string :=
  match s with
  | "" => ""
  | String a s' =>
      if Ascii.eqb a c then remove_char c s' else String a (remove_char c s')
  end.

(** [s[:n]] for [n <= len(s)]. *)
Fixpoint take (n : nat) (s : string) : string :=
  match n, s with
  | S n', String c s' => String c (take n' s')
  | _, _ => ""
  end.

(** Truthiness of an optional string: [None] and the empty string are
    falsy. *)
Definition truthy (o : option string) : bool :=
  match o with
  | Some (String _ _) => true
  | _ => false
  end.

Definition nl : string := String (ascii_of_nat 10) "".

(* ================================================================== *)
(** * Python [float] (IEEE 754 binary64, round to nearest even) *)
(* ================================================================== *)

Open Scope Q_scope.

(** A finite float is the rational it denotes, in lowest terms; the
    chatbot's arithmetic never produces a negative zero (amounts are parsed
    from unsigned literals), so zero needs no sign. *)
Inductive float : Type :=
| Fin (q : Q)
| Inf (negative : bool)
| NaN.

Inductive exn : Type :=
| ZeroDivisionError
| KeyError (key : string)
| ValueError.

Inductive result (A : Type) : Type :=
| Ok (a : A)
| Raise (e : exn).

Arguments Ok {A} a.
Arguments Raise {A} e.

(** Nearest integer, ties to even. *)
Definition round_half_even (q : Q) : Z :=
  let n := Qnum q in
  let d := Zpos (Qden q) in
  let f := (n / d)%Z in
  let r := (n mod d)%Z in
  match (2 * r ?= d)%Z with
  | Lt => f
  | Gt => (f + 1)%Z
  | Eq => if Z.even f then f else (f + 1)%Z
  end.

Definition pow2 (e : Z) : Q :=
  if (0 <=? e)%Z then inject_Z (2 ^ e) else / inject_Z (2 ^ (- e)).

(** Rounding of a positive rational: 53 significant bits, exponent no lower
    than that of the subnormals, overflow to infinity. *)
Definition b64_pos (q : Q) : float :=
  let k0 := (Z.log2 (Qnum q) - Z.log2 (Zpos (Qden q)))%Z in
  let k := if Qle_bool (pow2 k0) q then k0 else (k0 - 1)%Z in
  let e := Z.max (k - 52) (-1074) in
  let m := round_half_even (q / pow2 e) in
  let v := inject_Z m * pow2 e in
  if Qle_bool (pow2 1024) v then Inf false else Fin (Qred v).

Definition fneg (x : float) : float :=
  match x with
  | Fin q => Fin (Qred (- q))
  | Inf s => Inf (negb s)
  | NaN => NaN
  end.

Definition b64 (q : Q) : float :=
  match Qcompare q 0 with
  | Eq => Fin 0
  | Gt => b64_pos q
  | Lt => fneg (b64_pos (- q))
  end.

Definition fadd (x y : float) : float :=
  match x, y with
  | NaN, _ | _, NaN => NaN
  | Inf a, Inf b => if Bool.eqb a b then Inf a else NaN
  | Inf a, Fin _ | Fin _, Inf a => Inf a
  | Fin a, Fin b => b64 (a + b)
  end.

Definition fsub (x y : float) : float := fadd x (fneg y).

Definition fsign (x : float) : bool :=
  match x with
  | Fin q => match Qcompare q 0 with Lt => true | _ => false end
  | Inf s => s
  | NaN => false
  end.

Definition fmul (x y : float) : float :=
  match x, y with
  | NaN, _ | _, NaN => NaN
  | Fin a, Fin b => b64 (a * b)
  | Inf s, Fin b =>
      match Qcompare b 0 with Eq => NaN | _ => Inf (xorb s (fsign y)) end
  | Fin a, Inf s =>
      match Qcompare a 0 with Eq => NaN | _ => Inf (xorb s (fsign x)) end
  | Inf a, Inf b => Inf (xorb a b)
  end.

(** [x / y]: Python raises on a zero divisor. *)
Definition fdiv (x y : float) : result float :=
  match x, y with
  | _, Fin b =>
      match Qcompare b 0 with
      | Eq => Raise ZeroDivisionError
      | _ =>
          match x with
          | Fin a => Ok (b64 (a / b))
          | Inf s => Ok (Inf (xorb s (fsign y)))
          | NaN => Ok NaN
          end
      end
  | NaN, _ | _, NaN => Ok NaN
  | Inf _, Inf _ => Ok NaN
  | Fin _, Inf _ => Ok (Fin 0)
  end.

(** [x < y] and [x > y]; every comparison with a NaN is false. *)
Definition fltb (x y : float) : bool :=
  match x, y with
  | NaN, _ | _, NaN => false
  | Fin a, Fin b => match Qcompare a b with Lt => true | _ => false end
  | Inf a, Inf b => a && negb b
  | Inf a, Fin _ => a
  | Fin _, Inf b => negb b
  end.

Definition fgtb (x y : float) : bool := fltb y x.

Definition float_of_Z (n : Z) : float := b64 (inject_Z n).

(** ** [float(s)] on an unsigned decimal literal

    [float_of_string] accepts [digits], [digits.digits], [digits.] and
    [.digits] and rounds the denoted rational; every other text is the
    [ValueError] of Python ([None]).  The amount group of the chatbot's
    patterns only captures texts of the first two shapes. *)

Definition digit_value (c : ascii) : Z := Z.of_nat (code c - 48).

(** Value of a string of digits read in base ten after [acc]; [None] when a
    character is not a digit. *)
Fixpoint digits_value (acc : Z) (s : string) : option Z :=
  match s with
  | "" => Some acc
  | String c s' =>
      if is_digit c then digits_value (10 * acc + digit_value c) s' else None
  end.

(** The text before the first [.] and, when there is one, the text after. *)
Fixpoint split_dot (s : string) : string * option string :=
  match s with
  | "" => ("", None)
  | String c s' =>
      if Ascii.eqb c "." then ("", Some s')
      else let (a, b) := split_dot s' in (String c a, b)
  end.

Definition float_of_string (s : string) : option float :=
  let (ip, fp) := split_dot s in
  let fs := match fp with Some f => f | None => "" end in
  match (String.length ip + String.length fs)%nat with
  | O => None
  | _ =>
      match digits_value 0 ip, digits_value 0 fs with
      | Some i, Some f =>
          Some (b64 (inject_Z i
                     + inject_Z f / inject_Z (10 ^ Z.of_nat (String.length fs))))
      | _, _ => None
      end
  end.

(** ** Formatting: [f"{x:,.0f}"], [f"{x:.1f}"] *)

Definition string_of_Z (n : Z) : string :=
  NilZero.string_of_uint (N.to_uint (Z.to_N n)).

(** Thousands separators, on the reversed digits. *)
Fixpoint group3_rev (s : string) : string :=
  match s with
  | String a (String b (String c ((String _ _) as rest))) =>
      String a (String b (String c (String "," (group3_rev rest))))
  | _ => s
  end.

Fixpoint rev_string (acc s : string) : string :=
  match s with
  | "" => acc
  | String c s' => rev_string (String c acc) s'
  end.

Definition with_commas (digits : string) : string :=
  rev_string "" (group3_rev (rev_string "" digits)).

Fixpoint zero_pad (width : nat) (s : string) : string :=
  match (width - String.length s)%nat with
  | O => s
  | S _ =>
      match width with
      | O => s
      | S w => zero_pad w ("0" ++ s)
      end
  end.

(** [format(x, ",.<prec>f")] when [comma], [format(x, ".<prec>f")] otherwise:
    the exact value of the float rounded half-even to [prec] decimals. *)
Definition format_f (comma : bool) (prec : nat) (x : float) : string :=
  match x with
  | NaN => "nan"
  | Inf s => if s then "-inf" else "inf"
  | Fin q =>
      let scale := (10 ^ Z.of_nat prec)%Z in
      let n := round_half_even (Qabs q * inject_Z scale) in
      let ip := string_of_Z (n / scale) in
      let ip := if comma then with_commas ip else ip in
      let frac :=
        match prec with
        | O => ""
        | _ => "." ++ zero_pad prec (string_of_Z (n mod scale))
        end in
      ((if fsign x then "-" else "") ++ ip ++ frac)
  end.

Close Scope Q_scope.

(* ================================================================== *)
(** * Python [re]: a backtracking matcher *)
(* ================================================================== *)

(** An item of a bracketed character set, or an escape used on its own. *)
Inductive citem : Type :=
| Range (lo hi : ascii)   (* a-z *)
| EscD                    (* \d *)
| EscS                    (* \s *)
| EscW.                   (* \w *)

Inductive regex : Type :=
| Eps
| Lit (s : string)            (* literal text *)
| Cls (items : list citem)    (* [...] or a lone escape *)
| Cat (r1 r2 : regex)         (* r1r2 *)
| Alt (r1 r2 : regex)         (* r1|r2, left first *)
| Star (r : regex)            (* r*, greedy *)
| Grp (n : nat) (r : regex)   (* capturing group number n *)
| Bol.                        (* ^ *)

(** [r?] and [r+], both greedy. *)
Definition Opt (r : regex) : regex := Alt r Eps.
Definition Plus (r : regex) : regex := Cat r (Star r).

Fixpoint seq (rs : list regex) : regex :=
  match rs with
  | [] => Eps
  | [r] => r
  | r :: rs' => Cat r (seq rs')
  end.

(** [(?:a|b|c)] over literal alternatives. *)
Fixpoint alts (ls : list string) : regex :=
  match ls with
  | [] => Lit ""
  | [l] => Lit l
  | l :: ls' => Alt (Lit l) (alts ls')
  end.

Definition Digit : regex := Cls [EscD].
Definition Space : regex := Cls [EscS].
Definition WordChar : regex := Cls [EscW].

(** Captured texts, most recent first. *)
Definition caps : Type := list (nat * string).

Fixpoint cap_get (n : nat) (g : caps) : option string :=
  match g with
  | [] => None
  | (m, t) :: g' => if (m =? n)%nat then Some t else cap_get n g'
  end.

Section Matcher.

(** [re.IGNORECASE], the [(?i)] the patterns start with. *)
Variable ic : bool.

(** Length of the whole subject, to recognise its start. *)
Variable subject_len : nat.

Definition char_eq (a b : ascii) : bool :=
  if ic then Ascii.eqb (lower_char a) (lower_char b) else Ascii.eqb a b.

(** Membership of a character in an item of a set, as Python decides it
    for an ASCII character.  (On other characters [\d], [\s] and [\w]
    also accept the digits, white space and letters of every script, and
    a range of letters under [re.IGNORECASE] also accepts the long s, the
    dotted and dotless i and the Kelvin sign.) *)
Definition in_item (c : ascii) (i : citem) : bool :=
  match i with
  | Range lo hi =>
      between (code lo) (code hi) c
      || (ic && (between (code lo) (code hi) (lower_char c)
                 || between (code lo) (code hi) (upper_char c)))
  | EscD => is_digit c
  | EscS => is_space c
  | EscW => is_word c
  end.

Definition in_class (items : list citem) (c : ascii) : bool :=
  existsb (in_item c) items.

(** What is left of [t] after the literal [l], if [t] starts with it. *)
Fixpoint lit_rest (l t : string) : option string :=
  match l, t with
  | "", _ => Some t
  | String a l', String b t' => if char_eq a b then lit_rest l' t' else None
  | String _ _, "" => None
  end.

(** The iterations of [r*], longest first: [step] matches one [r] and hands
    what is left to its continuation; an iteration has to consume a
    character, so [String.length t] iterations are enough for [t]. *)
Fixpoint star_loop
         (step : string -> caps ->
                 (string -> caps -> option (string * caps)) ->
                 option (string * caps))
         (k : string -> caps -> option (string * caps))
         (fuel : nat) (t : string) (g : caps) {struct fuel}
  : option (string * caps) :=
  match fuel with
  | O => k t g
  | S fuel' =>
      match step t g
                 (fun t1 g1 =>
                    if (String.length t1 <? String.length t)%nat
                    then star_loop step k fuel' t1 g1 else None) with
      | Some res => Some res
      | None => k t g
      end
  end.

(** [rmatch r t g k]: match [r] at the head of [t] with the groups [g]
    captured so far, then continue with [k] on the rest; the first
    success in priority order (left alternative first, longest
    repetition first) is the result.  An iteration of [r*] has to consume
    a character, so [String.length t] iterations are enough. *)
Fixpoint rmatch (r : regex) (t : string) (g : caps)
         (k : string -> caps -> option (string * caps)) {struct r}
  : option (string * caps) :=
  match r with
  | Eps => k t g
  | Lit l =>
      match lit_rest l t with
      | Some t' => k t' g
      | None => None
      end
  | Cls items =>
      match t with
      | String c t' => if in_class items c then k t' g else None
      | "" => None
      end
  | Cat r1 r2 => rmatch r1 t g (fun t1 g1 => rmatch r2 t1 g1 k)
  | Alt r1 r2 =>
      match rmatch r1 t g k with
      | Some res => Some res
      | None => rmatch r2 t g k
      end
  | Star r1 => star_loop (rmatch r1) k (String.length t) t g
  | Grp n r1 =>
      rmatch r1 t g
        (fun t1 g1 =>
           k t1 ((n, take (String.length t - String.length t1) t) :: g1))
  | Bol => if (String.length t =? subject_len)%nat then k t g else None
  end.

(** A match object: where it starts, the matched text, the rest of the
    subject after it, and the groups. *)
Record Match : Type := {
  m_start : nat;
  m_text : string;
  m_rest : string;
  m_groups : caps
}.

(** [match.group(n)] for a group that took part in the match. *)
Definition group (m : Match) (n : nat) : string :=
  match cap_get n (m_groups m) with
  | Some t => t
  | None => ""
  end.

(** Leftmost match at or after the head of [t], which is at offset [pos]
    of the subject. *)
Fixpoint search_from (r : regex) (pos : nat) (t : string) : option Match :=
  match rmatch r t [] (fun t' g => Some (t', g)) with
  | Some (t', g) =>
      Some {| m_start := pos;
              m_text := take (String.length t - String.length t') t;
              m_rest := t';
              m_groups := g |}
  | None =>
      match t with
      | "" => None
      | String _ t' => search_from r (S pos) t'
      end
  end.

(** Successive non-overlapping matches, left to right; after an empty
    match the scan moves one character on. *)
Fixpoint finditer_from (fuel : nat) (r : regex) (pos : nat) (t : string)
  : list Match :=
  match fuel with
  | O => []
  | S fuel' =>
      match search_from r pos t with
      | None => []
      | Some m =>
          m :: match m_text m, m_rest m with
               | "", "" => []
               | "", String _ t' =>
                   finditer_from fuel' r (S (m_start m)) t'
               | _, t' =>
                   finditer_from fuel' r
                     (m_start m + String.length (m_text m)) t'
               end
      end
  end.

End Matcher.

(** [re.search(pattern, text)] *)
Definition re_search (ic : bool) (r : regex) (text : string) : option Match :=
  search_from ic (String.length text) r 0 text.

(** [re.finditer(pattern, text)], as the list it yields. *)
Definition re_finditer (ic : bool) (r : regex) (text : string) : list Match :=
  finditer_from ic (String.length text) (S (String.length text)) r 0 text.

(* ================================================================== *)
(** * Python [dict] (insertion-ordered) and [str.format] *)
(* ================================================================== *)

Definition dict (V : Type) : Type := list (string * V).

(** [d[k]] / [k in d] *)
Fixpoint dict_get {V : Type} (k : string) (d : dict V) : option V :=
  match d with
  | [] => None
  | (k', v) :: d' => if String.eqb k' k then Some v else dict_get k d'
  end.

(** [d[k] = v]: an existing key keeps its place, a new key goes last. *)
Fixpoint dict_set {V : Type} (k : string) (v : V) (d : dict V) : dict V :=
  match d with
  | [] => [(k, v)]
  | (k', v') :: d' =>
      if String.eqb k' k then (k', v) :: d' else (k', v') :: dict_set k v d'
  end.

(** [k in d] *)
Definition dict_mem {V : Type} (k : string) (d : dict V) : bool :=
  match dict_get k d with
  | Some _ => true
  | None => false
  end.

(** [d[k]], which raises [KeyError] on a missing key. *)
Definition dict_item {V : Type} (k : string) (d : dict V) : result V :=
  match dict_get k d with
  | Some v => Ok v
  | None => Raise (KeyError k)
  end.

Definition dict_values {V : Type} (d : dict V) : list V := map snd d.

(** [sum(xs)]: left-to-right addition from the integer 0, as Python up to
    3.11 computes it; the compensated summation of 3.12 gives the same
    float whenever the partial sums are exact, as they are for whole
    amounts below 2^53. *)
Definition sum (xs : list float) : float := fold_left fadd xs (Fin 0).

(** [max(items, key=lambda x: x[1])] on a non-empty list: the first item
    whose value no later item exceeds. *)
Definition max_by_value (first : string * float) (rest : list (string * float))
  : string * float :=
  fold_left (fun best it => if fgtb (snd it) (snd best) then it else best)
            rest first.

(** [random.choice(seq)] with the drawn number [r]. *)
Definition choice (r : nat) (seq : list string) : string :=
  nth (r mod List.length seq) seq "".

(** [template.format(...)] with the keywords [kw]: a [{name}] field is
    replaced by [kw[name]]; keywords the template does not use are ignored,
    a field without a keyword raises [KeyError], a doubled brace stands for
    one brace, and a lone closing brace or an unfinished field raises
    [ValueError].  [field] is the name being read, most recent character
    first, once an opening brace has been seen.  (Conversions and format
    specifications inside a field are not modelled: the templates of the
    chatbot have plain names.) *)
Fixpoint format_from (field : option string) (kw : dict string) (t : string)
  : result string :=
  let literal (c : ascii) (rest : result string) : result string :=
    match rest with
    | Ok r => Ok (String c r)
    | Raise e => Raise e
    end in
  match t, field with
  | "", None => Ok ""
  | "", Some _ => Raise ValueError
  | String c t', None =>
      if Ascii.eqb c "{" then
        match t' with
        | String c' t'' =>
            if Ascii.eqb c' "{" then literal c (format_from None kw t'')
            else format_from (Some "") kw t'
        | "" => format_from (Some "") kw t'
        end
      else if Ascii.eqb c "}" then
        match t' with
        | String c' t'' =>
            if Ascii.eqb c' "}" then literal c (format_from None kw t'')
            else Raise ValueError
        | "" => Raise ValueError
        end
      else literal c (format_from None kw t')
  | String c t', Some f =>
      if Ascii.eqb c "}" then
        match dict_get (rev_string "" f) kw with
        | Some v =>
            match format_from None kw t' with
            | Ok r => Ok (v ++ r)
            | Raise e => Raise e
            end
        | None => Raise (KeyError (rev_string "" f))
        end
      else format_from (Some (String c f)) kw t'
  end.

Definition format (template : string) (kw : dict string) : result string :=
  format_from None kw template.

(* ================================================================== *)
(** * class SmartBudgetAIChatbot *)
(* ================================================================== *)

Inductive role : Type := user | assistant.

Record turn : Type := { turn_role : role; content : string }.

(** The attributes of [self] the engine reads or writes.  [model] stands for
    [self.model and self.chat], fixed by [__init__]; [last_greeting_time] is
    a naive datetime counted in microseconds. *)
Record State : Type := {
  model : bool;
  user_data : dict float;
  expenses : dict float;
  conversation_history : list turn;
  user_name : option string;
  last_greeting_time : option Z
}.

(** [__init__] *)
Definition init (model_available : bool) : State :=
  {| model := model_available;
     user_data := [];
     expenses := [];
     conversation_history := [];
     user_name := None;
     last_greeting_time := None |}.

Definition set_user_data (v : dict float) (st : State) : State :=
  {| model := model st; user_data := v; expenses := expenses st;
     conversation_history := conversation_history st;
     user_name := user_name st;
     last_greeting_time := last_greeting_time st |}.

Definition set_expenses (v : dict float) (st : State) : State :=
  {| model := model st; user_data := user_data st; expenses := v;
     conversation_history := conversation_history st;
     user_name := user_name st;
     last_greeting_time := last_greeting_time st |}.

Definition set_conversation_history (v : list turn) (st : State) : State :=
  {| model := model st; user_data := user_data st; expenses := expenses st;
     conversation_history := v;
     user_name := user_name st;
     last_greeting_time := last_greeting_time st |}.

Definition set_user_name (v : option string) (st : State) : State :=
  {| model := model st; user_data := user_data st; expenses := expenses st;
     conversation_history := conversation_history st;
     user_name := v;
     last_greeting_time := last_greeting_time st |}.

Definition set_last_greeting_time (v : option Z) (st : State) : State :=
  {| model := model st; user_data := user_data st; expenses := expenses st;
     conversation_history := conversation_history st;
     user_name := user_name st;
     last_greeting_time := v |}.

(** [self.conversation_history.append({"role": r, "content": c})] *)
Definition append_turn (r : role) (c : string) (st : State) : State :=
  set_conversation_history
    (conversation_history st ++ [{| turn_role := r; content := c |}]) st.

(** ** The templates *)

Definition advice_templates : list string := [
  "Based on your expenses, you might want to consider reducing your {category} spending by {percent}% to save more money.";
  "I notice that you're spending {amount} on {category}. That's about {percent}% of your income. The recommended percentage is around {recommended}%.";
  "Looking at your financial data, I suggest focusing on saving more in the {category} category. Try to aim for {goal} per month.";
  "Your {category} expenses seem {status}. Most financial experts recommend keeping it under {recommended}% of your income.";
  "To reach your savings goal of {savings_goal}, consider cutting back on {category} by about {amount} per month.";
  "Great job on managing your {category}! You're spending less than the recommended amount.";
  "To improve your financial health, try the 50/30/20 rule: 50% for needs, 30% for wants, and 20% for savings.";
  "Looking at your spending, I recommend creating an emergency fund of at least 3-6 months of expenses.";
  "Consider automating your savings by setting up automatic transfers to your savings account each month."
].

Definition income_added : list string := [
  "✅ Great! I've recorded your monthly income as ₹{income}.";
  "Thanks! I've noted your income as ₹{income} per month."
].

Definition expense_added : list string := [
  "📝 Got it! I've added ₹{amount} for {category} to your expenses.";
  "Added: ₹{amount} for {category}. Your total expenses are now ₹{total_expenses}."
].

Definition savings_goal_added : list string := [
  "🎯 Excellent! Your savings goal is set to ₹{goal} per month.";
  "I've set your monthly savings goal to ₹{goal}. Let's work towards achieving it!"
].

Definition budget_analysis : list string := [
  "📊 Based on your information:" ++ nl ++ "• Income: ₹{income}" ++ nl
    ++ "• Total Expenses: ₹{total_expenses}" ++ nl
    ++ "• Remaining: ₹{remaining}" ++ nl ++ nl ++ "{advice}";
  "💰 Here's your financial snapshot:" ++ nl ++ "• Monthly Income: ₹{income}"
    ++ nl ++ "• Total Expenses: ₹{total_expenses}" ++ nl
    ++ "• Available for Savings: ₹{remaining}" ++ nl ++ nl ++ "{advice}"
].

Definition general : list string := [
  "I'm here to help with your budget! You can tell me about your income, expenses, or savings goals.";
  "Need help with something specific? You can ask me about budget analysis, expense tracking, or savings advice.";
  "Feel free to share more details about your financial situation so I can provide better advice.";
  "Is there anything specific about your finances you'd like to discuss today?"
].

Definition track_advice : string :=
  "Consider tracking your expenses by category to get more specific advice.".

Definition rename_deflection : string :=
  "I appreciate the nickname suggestion, but I prefer to go by Ankit Kumar 12312618 - that's my name! 😊 I'm your Budgeting & Expense Estimation Planner here to help with your finances. What can I assist you with today?".

Definition self_introduction : string :=
  "I'm Ankit Kumar 12312618 - your Budgeting & Expense Estimation Planner! 🤖 I'm here to help with your finances and travel planning. What can I help you with today?".

Definition rename_deflection_remote : string :=
  "I appreciate the nickname suggestion, but I prefer to go by FIN - that's my name! 😊 I'm your Budgeting & Expense Estimation Planner here to help with your finances. What can I assist you with today?".

Definition self_introduction_remote : string :=
  "I'm FIN - your Budgeting & Expense Estimation Planner! 🤖 I'm here to help with your finances and travel planning. What can I help you with today?".

Definition greeting_responses : list string := [
  "👋 Hi there! I'm your AI financial buddy. Want to know what I can do? Just ask 'what can you do?' Or we can start budgeting - what's your name?";
  "Hello! I'm here to help with your finances. Ask me 'what can you do?' to learn more, or we can get started - what's your name?";
  "Hey! 😊 I'm your personal finance assistant. Want to see my capabilities? Ask 'what can you do?' Or let's begin - what's your name?";
  "Hi! Ready to manage your finances better? Ask me 'what can you do?' to learn more, or we can start right away - what's your name?"
].

Definition greeting_filler : string :=
  "I'm here to help! Just let me know what you need.".

(** ** The patterns (all but [process_name_pattern] carry [(?i)]) *)

Definition letters : regex := Cls [Range "a" "z"; Range "A" "Z"].

(** [(?:rs\.?|₹)?\s*(\d+(?:,\d+)*(?:\.\d+)?)] with the amount as group 1 *)
Definition amount_digits : regex :=
  seq [Plus Digit; Star (Cat (Lit ",") (Plus Digit));
       Opt (Cat (Lit ".") (Plus Digit))].

Definition currency_amount : regex :=
  seq [Opt (Alt (Cat (Lit "rs") (Opt (Lit "."))) (Lit "₹"));
       Star Space; Grp 1 amount_digits].

(** [(?:call you|name you|rename you|your name is|you are|you\'re) ([a-zA-Z]+)] *)
Definition rename_pattern : regex :=
  seq [alts ["call you"; "name you"; "rename you"; "your name is";
             "you are"; "you're"];
       Lit " "; Grp 1 (Plus letters)].

(** The bot-name questions of [generate_contextual_response].
    [what(?:\'s|\s+is)\s+your\s+name], [who\s+are\s+you],
    [introduce\s+yourself], [your\s+name], [call\s+you] *)
Definition bot_name_patterns : list regex := [
  seq [Lit "what"; Alt (Lit "'s") (Cat (Plus Space) (Lit "is"));
       Plus Space; Lit "your"; Plus Space; Lit "name"];
  seq [Lit "who"; Plus Space; Lit "are"; Plus Space; Lit "you"];
  seq [Lit "introduce"; Plus Space; Lit "yourself"];
  seq [Lit "your"; Plus Space; Lit "name"];
  seq [Lit "call"; Plus Space; Lit "you"]
].

(** [(?:save|saving|savings|goal)\s+AMOUNT] and
    [(?:want to|wanna|going to|plan to)\s+save\s+AMOUNT] *)
Definition savings_patterns : list regex := [
  seq [alts ["save"; "saving"; "savings"; "goal"]; Plus Space;
       currency_amount];
  seq [alts ["want to"; "wanna"; "going to"; "plan to"]; Plus Space;
       Lit "save"; Plus Space; currency_amount]
].

(** [(?:income|earn|salary|make|making)(?:\s+is|\s+of)?\s+AMOUNT] *)
Definition income_pattern : regex :=
  seq [alts ["income"; "earn"; "salary"; "make"; "making"];
       Opt (Alt (Cat (Plus Space) (Lit "is")) (Cat (Plus Space) (Lit "of")));
       Plus Space; currency_amount].

Definition spend_verbs : list string :=
  ["spend"; "spent"; "spending"; "pay"; "paying"; "paid"; "expense";
   "expenses"; "cost"; "costs"].

Definition expense_prepositions : list string := ["on"; "for"; "in"].

(** [(?:spend|spent|spending|pay|paying|paid|expense|expenses|cost|costs)\s+AMOUNT\s+(?:on|for|in)\s+([a-zA-Z\s]+)] *)
Definition expense_pattern : regex :=
  seq [alts spend_verbs; Plus Space; currency_amount; Plus Space;
       alts expense_prepositions; Plus Space;
       Grp 2 (Plus (Cls [Range "a" "z"; Range "A" "Z"; EscS]))].

(** [(?:my name is|I am|I\'m) ([A-Za-z]+)] *)
Definition my_name_is_pattern : regex :=
  seq [alts ["my name is"; "I am"; "I'm"]; Lit " ";
       Grp 1 (Plus (Cls [Range "A" "Z"; Range "a" "z"]))].

(** [(?:call me) ([A-Za-z]+)] *)
Definition call_me_pattern : regex :=
  seq [Lit "call me"; Lit " ";
       Grp 1 (Plus (Cls [Range "A" "Z"; Range "a" "z"]))].

(** [^(?:I\'m|I am) ([A-Za-z]+)] *)
Definition leading_i_am_pattern : regex :=
  seq [Bol; alts ["I'm"; "I am"]; Lit " ";
       Grp 1 (Plus (Cls [Range "A" "Z"; Range "a" "z"]))].

Definition user_name_patterns : list regex :=
  [my_name_is_pattern; call_me_pattern; leading_i_am_pattern].

(** [my name is (\w+)], without flags *)
Definition process_name_pattern : regex :=
  seq [Lit "my name is "; Grp 1 (Plus WordChar)].

Definition analysis_keywords : list string :=
  ["analyze"; "analysis"; "how am i doing"; "budget"; "review"; "overview";
   "summary"; "status"].

Definition greetings : list string := ["hi"; "hello"; "hey"; "hola"; "greetings"].

Definition bot_aliases : list string :=
  ["ankit"; "kumar"; "chatbot"; "bot"; "assistant"].

Definition bot_aliases_remote : list string :=
  ["fin"; "chatbot"; "bot"; "assistant"].

(** ** Helpers shared by the methods *)

Definition matches (r : regex) (text : string) : bool :=
  match re_search true r text with
  | Some _ => true
  | None => false
  end.

(** [float(m.group(1).replace(",", ""))] *)
Definition amount_of (m : Match) : option float :=
  float_of_string (remove_char "," (group m 1)).

(** [m.group(2).strip().lower()] *)
Definition category_of (m : Match) : string := lower (strip (group m 2)).

(** The loop over [savings_patterns], in both methods that have it: the
    first pattern that matches and whose amount converts gives the goal; a
    [ValueError] of the conversion is passed over and the next pattern is
    tried.  (In [generate_contextual_response] the guarded block also
    formats the reply; the savings templates render whatever the goal, so
    [float] is all that can raise there.) *)
Fixpoint first_goal (patterns : list regex) (text : string) : option float :=
  match patterns with
  | [] => None
  | p :: ps =>
      match re_search true p text with
      | Some m =>
          match amount_of m with
          | Some goal => Some goal
          | None => first_goal ps text
          end
      | None => first_goal ps text
      end
  end.

(** The loop over the name patterns of [extract_financial_info]: the group
    of the first pattern that matches. *)
Fixpoint first_name (patterns : list regex) (text : string) : option string :=
  match patterns with
  | [] => None
  | p :: ps =>
      match re_search true p text with
      | Some m => Some (group m 1)
      | None => first_name ps text
      end
  end.

(** The [rename_match and rename_match.group(1).lower() not in aliases]
    test. *)
Definition rename_attempt (aliases : list string) (text : string) : bool :=
  match re_search true rename_pattern text with
  | Some m => negb (existsb (String.eqb (lower (group m 1))) aliases)
  | None => false
  end.

Definition asks_bot_name (text : string) : bool :=
  existsb (fun p => matches p text) bot_name_patterns.

Definition has_keyword (keywords : list string) (text : string) : bool :=
  existsb (fun k => contains k (lower text)) keywords.

(** ** [extract_financial_info] *)

Definition extract_income (text : string) (st : State) : State :=
  match re_search true income_pattern text with
  | Some m =>
      match amount_of m with
      | Some v => set_user_data (dict_set "income" v (user_data st)) st
      | None => st
      end
  | None => st
  end.

(** One turn of the loop over the expense matches. *)
Definition record_expense (ledger : dict float) (m : Match) : dict float :=
  match amount_of m with
  | Some amount => dict_set (category_of m) amount ledger
  | None => ledger
  end.

Definition extract_expenses (text : string) (st : State) : State :=
  set_expenses
    (fold_left record_expense (re_finditer true expense_pattern text)
               (expenses st)) st.

Definition extract_savings (text : string) (st : State) : State :=
  match first_goal savings_patterns text with
  | Some v => set_user_data (dict_set "savings_goal" v (user_data st)) st
  | None => st
  end.

Definition extract_name (text : string) (st : State) : State :=
  if truthy (user_name st) then st
  else
    match first_name user_name_patterns text with
    | Some g => set_user_name (Some (capitalize g)) st
    | None => st
    end.

Definition extract_financial_info (text : string) (st : State) : State :=
  extract_name text
    (extract_savings text (extract_expenses text (extract_income text st))).

(** ** [generate_contextual_response]

    [rnd 0], [rnd 1] are the numbers drawn by the first and the second
    [random.choice] of the call.  The method returns the reply and, like
    every method here, the state it leaves. *)

Definition total_expenses (st : State) : float :=
  match expenses st with
  | [] => Fin 0
  | _ => sum (dict_values (expenses st))
  end.

(** The advice of a budget analysis over a non-empty ledger.  The block is
    guarded against [ValueError] and [TypeError], which nothing in it
    raises; a zero income raises [ZeroDivisionError], which is not
    caught. *)
Definition ledger_advice (r : nat) (income : float) (st : State)
           (first : string * float) (rest : dict float) : result string :=
  let highest_category := max_by_value first rest in
  match fdiv (snd highest_category) income with
  | Raise e => Raise e
  | Ok ratio =>
      let highest_percent := fmul ratio (float_of_Z 100) in
      let default_goal := fmul income (b64 (2 # 10)) in
      format (choice r advice_templates)
        [("category", fst highest_category);
         ("amount", format_f true 0 (snd highest_category));
         ("percent", format_f false 1 highest_percent);
         ("recommended", "15-20");
         ("status", if fgtb highest_percent (float_of_Z 30)
                    then "high" else "reasonable");
         ("goal", format_f true 0 default_goal);
         ("savings_goal",
          format_f true 0
            match dict_get "savings_goal" (user_data st) with
            | Some g => g
            | None => default_goal
            end)]
  end.

Definition budget_analysis_reply (rnd : nat -> nat) (income : float)
           (st : State) : result string :=
  let total := total_expenses st in
  let remaining := fsub income total in
  let bind (advice : string) (r : nat) :=
    format (choice r budget_analysis)
      [("income", format_f true 0 income);
       ("total_expenses", format_f true 0 total);
       ("remaining", format_f true 0 remaining);
       ("advice", advice)] in
  match expenses st with
  | [] => bind track_advice (rnd 0)
  | first :: rest =>
      match ledger_advice (rnd 0) income st first rest with
      | Ok advice => bind advice (rnd 1)
      | Raise e => Raise e
      end
  end.

Definition expense_reply (rnd : nat -> nat) (m : Match) (st : State)
  : result string :=
  match amount_of m with
  | None => Raise ValueError
  | Some amount =>
      format (choice (rnd 0) expense_added)
        [("amount", format_f true 0 amount);
         ("category", category_of m);
         ("total_expenses", format_f true 0 (total_expenses st))]
  end.

Definition general_reply (rnd : nat -> nat) (st : State) : string :=
  match user_name st with
  | Some (String c n) =>
      ("Hi " ++ String c n ++ "! ") ++ choice (rnd 0) general
  | _ => choice (rnd 0) general
  end.

Definition income_reply (rnd : nat -> nat) (st : State) : result string :=
  match dict_item "income" (user_data st) with
  | Ok income =>
      format (choice (rnd 0) income_added) [("income", format_f true 0 income)]
  | Raise e => Raise e
  end.

Definition analysis_reply (rnd : nat -> nat) (st : State) : result string :=
  match dict_item "income" (user_data st) with
  | Ok income => budget_analysis_reply rnd income st
  | Raise e => Raise e
  end.

Definition generate_contextual_response (rnd : nat -> nat)
           (user_input : string) (st : State) : State * result string :=
  if rename_attempt bot_aliases user_input then (st, Ok rename_deflection)
  else if asks_bot_name user_input then (st, Ok self_introduction)
  else
    match first_goal savings_patterns user_input with
    | Some goal =>
        (set_user_data (dict_set "savings_goal" goal (user_data st)) st,
         format (choice (rnd 0) savings_goal_added)
                [("goal", format_f true 0 goal)])
    | None =>
        if dict_mem "income" (user_data st)
           && (List.length (conversation_history st) <? 3)%nat
        then (st, income_reply rnd st)
        else
          match re_search true expense_pattern user_input with
          | Some m => (st, expense_reply rnd m st)
          | None =>
              if has_keyword analysis_keywords user_input
                 && dict_mem "income" (user_data st)
              then (st, analysis_reply rnd st)
              else (st, Ok (general_reply rnd st))
          end
    end.

(** ** [get_ai_response]

    The remote branch builds a prompt, sends it and stores the answer.  The
    prompt only travels to the remote model, so of that branch the embedding
    keeps the early returns, the updates of [self] and the answer:
    [remote = Some text] when [send_message] answers [text], [None] when it
    raises and the [except] clause takes over. *)

(** [len(h) > 10] then [h = h[-5:]] *)
Definition prune (history : list turn) : list turn :=
  if (10 <? List.length history)%nat
  then skipn (List.length history - 5) history
  else history.

(** The fallback both of the [except] clause and of the [else] branch:
    [generate_contextual_response], then the assistant turn, then the
    reply. *)
Definition fallback (rnd : nat -> nat) (user_input : string) (st : State)
  : State * result string :=
  match generate_contextual_response rnd user_input st with
  | (st', Ok fallback_response) =>
      (append_turn assistant fallback_response st', Ok fallback_response)
  | (st', Raise e) => (st', Raise e)
  end.

Definition get_ai_response (rnd : nat -> nat) (remote : option string)
           (user_input : string) (st : State) : State * result string :=
  if model st then
    if rename_attempt bot_aliases_remote user_input
    then (st, Ok rename_deflection_remote)
    else if asks_bot_name user_input then (st, Ok self_introduction_remote)
    else
      let st1 := append_turn user user_input st in
      let st2 := set_conversation_history (prune (conversation_history st1)) st1 in
      match remote with
      | Some text =>
          let st3 := append_turn assistant text st2 in
          (extract_financial_info user_input st3, Ok text)
      | None => fallback rnd user_input st2
      end
  else fallback rnd user_input st.

(** ** [handle_greeting]

    [now] is [datetime.now()].  [seconds_of] is the [.seconds] attribute of
    the difference of two datetimes: the seconds of the normalised
    [timedelta], days and microseconds apart. *)

Definition seconds_of (delta_us : Z) : Z :=
  ((delta_us mod 86400000000) / 1000000)%Z.

Definition handle_greeting (now : Z) (rnd : nat -> nat) (user_input : string)
           (st : State) : State * option string :=
  if has_keyword greetings user_input then
    match last_greeting_time st with
    | None =>
        (set_last_greeting_time (Some now) st,
         Some (choice (rnd 0) greeting_responses))
    | Some last =>
        if (300 <? seconds_of (now - last))%Z
        then (set_last_greeting_time (Some now) st,
              Some (choice (rnd 0) greeting_responses))
        else (st, Some greeting_filler)
    end
  else (st, None).

(** ** [process_input]

    The name of [process_input]: the word after "my name is " in the
    lower-cased utterance, title-cased.  (As with every pattern here, the
    word is the one Python captures when the utterance is ASCII text; in
    "my name is josé" Python captures the whole of "josé".) *)

Definition process_name (user_input : string) (st : State) : State :=
  if truthy (user_name st) then st
  else
    match re_search false process_name_pattern (lower user_input) with
    | Some m => set_user_name (Some (title (group m 1))) st
    | None => st
    end.

Definition process_input (rnd : nat -> nat) (remote : option string)
           (user_input : string) (st : State) : State * result string :=
  get_ai_response rnd remote user_input (process_name user_input st).

(** ** Sessions

    The calls a session can make on one chatbot object, each with the draws
    of its [random.choice]s and, where the method has them, the outcome of
    the remote model and the clock.  A call that raises leaves [self] as the
    call left it. *)
Inductive op : Type :=
| Extract (text : string)
| Respond (rnd : nat -> nat) (text : string)
| Ask (rnd : nat -> nat) (remote : option string) (text : string)
| Process (rnd : nat -> nat) (remote : option string) (text : string)
| Greet (now : Z) (rnd : nat -> nat) (text : string).

Definition step (st : State) (o : op) : State :=
  match o with
  | Extract text => extract_financial_info text st
  | Respond rnd text => fst (generate_contextual_response rnd text st)
  | Ask rnd remote text => fst (get_ai_response rnd remote text st)
  | Process rnd remote text => fst (process_input rnd remote text st)
  | Greet now rnd text => fst (handle_greeting now rnd text st)
  end.

Definition session (st : State) (ops : list op) : State :=
  fold_left step ops st.

(** ** The dialog policy in the words of the specification

    The intent categories in their priority order, the test that makes a
    category apply, and the replies that count as rendered from the
    templates of a category. *)
Inductive intent : Type :=
| RenameAttempt
| IdentityQuery
| SavingsGoal
| IncomeAck
| ExpenseStatement
| BudgetAnalysis
| Default.

Definition priority : list intent :=
  [RenameAttempt; IdentityQuery; SavingsGoal; IncomeAck; ExpenseStatement;
   BudgetAnalysis; Default].

Definition applies (text : string) (st : State) (i : intent) : bool :=
  match i with
  | RenameAttempt => rename_attempt bot_aliases text
  | IdentityQuery => asks_bot_name text
  | SavingsGoal => existsb (fun p => matches p text) savings_patterns
  | IncomeAck =>
      dict_mem "income" (user_data st)
      && (List.length (conversation_history st) <? 3)%nat
  | ExpenseStatement => matches expense_pattern text
  | BudgetAnalysis =>
      has_keyword analysis_keywords text && dict_mem "income" (user_data st)
  | Default => true
  end.

(** First match wins. *)
Definition classify (text : string) (st : State) : intent :=
  match find (applies text st) priority with
  | Some i => i
  | None => Default
  end.

Definition rendered_from (i : intent) (text : string) (st : State)
           (reply : result string) : Prop :=
  match i with
  | RenameAttempt => reply = Ok rename_deflection
  | IdentityQuery => reply = Ok self_introduction
  | SavingsGoal =>
      exists template goal,
        In template savings_goal_added
        /\ reply = format template [("goal", format_f true 0 goal)]
  | IncomeAck =>
      exists template income,
        In template income_added
        /\ dict_get "income" (user_data st) = Some income
        /\ reply = format template [("income", format_f true 0 income)]
  | ExpenseStatement =>
      exists template m amount,
        In template expense_added
        /\ re_search true expense_pattern text = Some m
        /\ amount_of m = Some amount
        /\ reply = format template
                     [("amount", format_f true 0 amount);
                      ("category", category_of m);
                      ("total_expenses",
                       format_f true 0 (sum (dict_values (expenses st))))]
  | BudgetAnalysis =>
      exists rnd income,
        dict_get "income" (user_data st) = Some income
        /\ reply = budget_analysis_reply rnd income st
  | Default =>
      exists template,
        In template general
        /\ (reply = Ok template
            \/ exists c n,
                 user_name st = Some (String c n)
                 /\ reply = Ok (("Hi " ++ String c n ++ "! ") ++ template))
  end.

(* ================================================================== *)
(** * Declarative reading of a pattern *)
(* ================================================================== *)

(** [sem ic r w g g']: the text [w] is in the language of [r], and reading
    it turns the captures [g] into [g'].  [Bol] is not constrained here. *)
Inductive sem (ic : bool) : regex -> string -> caps -> caps -> Prop :=
| sem_eps g : sem ic Eps "" g g
| sem_lit l w g : lit_rest ic l w = Some "" -> sem ic (Lit l) w g g
| sem_cls items c g :
    in_class ic items c = true -> sem ic (Cls items) (String c "") g g
| sem_cat r1 r2 w1 w2 g g1 g2 :
    sem ic r1 w1 g g1 -> sem ic r2 w2 g1 g2 ->
    sem ic (Cat r1 r2) (w1 ++ w2) g g2
| sem_alt_l r1 r2 w g g' : sem ic r1 w g g' -> sem ic (Alt r1 r2) w g g'
| sem_alt_r r1 r2 w g g' : sem ic r2 w g g' -> sem ic (Alt r1 r2) w g g'
| sem_star_nil r g : sem ic (Star r) "" g g
| sem_star_cons r w1 w2 g g1 g2 :
    sem ic r w1 g g1 -> sem ic (Star r) w2 g1 g2 ->
    sem ic (Star r) (w1 ++ w2) g g2
| sem_grp n r w g g' : sem ic r w g g' -> sem ic (Grp n r) w g ((n, w) :: g')
| sem_bol g : sem ic Bol "" g g.

(** A pattern without capturing groups. *)
Fixpoint nogrp (r : regex) : bool :=
  match r with
  | Eps | Lit _ | Cls _ | Bol => true
  | Cat r1 r2 | Alt r1 r2 => nogrp r1 && nogrp r2
  | Star r1 => nogrp r1
  | Grp _ _ => false
  end.

(** The capturing groups of a pattern, with their numbers. *)
Fixpoint grps (r : regex) : list (nat * regex) :=
  match r with
  | Eps | Lit _ | Cls _ | Bol => []
  | Cat r1 r2 | Alt r1 r2 => grps r1 ++ grps r2
  | Star r1 => grps r1
  | Grp n r1 => (n, r1) :: grps r1
  end.

(** Group [n] takes part in every match of the pattern. *)
Fixpoint must_grp (n : nat) (r : regex) : bool :=
  match r with
  | Eps | Lit _ | Cls _ | Bol | Star _ => false
  | Cat r1 r2 => must_grp n r1 || must_grp n r2
  | Alt r1 r2 => must_grp n r1 && must_grp n r2
  | Grp m r1 => (m =? n)%nat || must_grp n r1
  end.

(** The amount is the mandatory group 1 of the pattern. *)
Definition amount_in_group_1 (r : regex) : Prop :=
  must_grp 1 r = true /\ forall r1, In (1%nat, r1) (grps r) -> r1 = amount_digits.

(** The name is the mandatory group 1 of the pattern, one or more
    characters of a set. *)
Definition name_in_group_1 (r : regex) : Prop :=
  must_grp 1 r = true
  /\ forall r1, In (1%nat, r1) (grps r) -> exists items, r1 = Plus (Cls items).

(** Every character of the string passes the test. *)
Fixpoint all_chars (p : ascii -> bool) (s : string) : bool :=
  match s with
  | "" => true
  | String c s' => p c && all_chars p s'
  end.

Definition is_comma (c : ascii) : bool := Ascii.eqb c ",".
Definition is_dot (c : ascii) : bool := Ascii.eqb c ".".

(** The amount of the last match of [ms] stated for the category [k]. *)
Fixpoint last_amount (k : string) (ms : list Match) : option float :=
  match ms with
  | [] => None
  | m :: ms' =>
      match last_amount k ms' with
      | Some a => Some a
      | None => if String.eqb (category_of m) k then amount_of m else None
      end
  end.

(** Keys of a dict, in iteration order. *)
Definition dict_keys {V : Type} (d : dict V) : list string := map fst d.

(** ** The effect of [extract_financial_info], attribute by attribute *)

Definition income_update (text : string) (ud : dict float) : dict float :=
  match re_search true income_pattern text with
  | Some m =>
      match amount_of m with
      | Some v => dict_set "income" v ud
      | None => ud
      end
  | None => ud
  end.

Definition savings_update (text : string) (ud : dict float) : dict float :=
  match first_goal savings_patterns text with
  | Some v => dict_set "savings_goal" v ud
  | None => ud
  end.

Definition ledger_update (text : string) (ledger : dict float) : dict float :=
  fold_left record_expense (re_finditer true expense_pattern text) ledger.

Definition name_update (text : string) (name : option string) : option string :=
  if truthy name then name
  else
    match first_name user_name_patterns text with
    | Some g => Some (capitalize g)
    | None => name
    end.

(** The invariant of a local-only session that only chats. *)
Definition idle (st : State) : Prop :=
  model st = false /\ user_data st = [] /\ expenses st = []
  /\ user_name st = None.

(** ** The example of the budget analysis *)

(** The keywords bound into the advice template for an income of 10000 and
    the ledger rent 4000, food 1000. *)
Definition rent_food_bindings (savings_goal : string) : dict string :=
  [("category", "rent"); ("amount", "4,000"); ("percent", "40.0");
   ("recommended", "15-20"); ("status", "high"); ("goal", "2,000");
   ("savings_goal", savings_goal)].

Definition shown_savings_goal (st : State) : string :=
  format_f true 0
    match dict_get "savings_goal" (user_data st) with
    | Some g => g
    | None => Fin 2000
    end.

(** The two renderings of the analysis for income 10000 and expenses 5000,
    up to the advice. *)
Definition rent_food_headers : list string := [
  "📊 Based on your information:" ++ nl ++ "• Income: ₹10,000" ++ nl
    ++ "• Total Expenses: ₹5,000" ++ nl
    ++ "• Remaining: ₹5,000" ++ nl ++ nl;
  "💰 Here's your financial snapshot:" ++ nl ++ "• Monthly Income: ₹10,000"
    ++ nl ++ "• Total Expenses: ₹5,000" ++ nl
    ++ "• Available for Savings: ₹5,000" ++ nl ++ nl
].

(** A session that reaches an income of 10000 and the ledger rent 4000,
    food 1000, the remote model answering each time. *)
Definition rent_food_session : State :=
  session (init true)
    [Ask (fun _ => 0%nat) (Some "Noted!") "My income is 10000";
     Ask (fun _ => 0%nat) (Some "Got it") "I spend 4000 on rent";
     Ask (fun _ => 0%nat) (Some "Got it") "I paid 1000 for food"].

(* ================================================================== *)
(** * The rest of the class and the web service *)
(* ================================================================== *)

(** ** More of Python's [str] and [re] *)

(** [new] before every character of [t], the way [t.replace("", new)]
    spreads it. *)
Fixpoint interleave (new t : string) : string :=
  match t with
  | "" => ""
  | String c t' => String c (new ++ interleave new t')
  end.

(** The scan of [t.replace(old, new)] for a non-empty [old]: occurrences
    are taken left to right and do not overlap; [skip] counts the
    characters of the occurrence just replaced that are still ahead. *)
Fixpoint replace_from (skip : nat) (old new t : string) : string :=
  match t with
  | "" => ""
  | String c t' =>
      match skip with
      | S n => replace_from n old new t'
      | O =>
          match drop_prefix old t with
          | Some _ => new ++ replace_from (String.length old - 1) old new t'
          | None => String c (replace_from 0 old new t')
          end
      end
  end.

(** [t.replace(old, new)] *)
Definition replace (old new t : string) : string :=
  match old with
  | "" => new ++ interleave new t
  | String _ _ => replace_from 0 old new t
  end.

(** [s.split()]: the maximal runs of characters that are not white space.
    [word] is the run being read, most recent character first. *)
Fixpoint split_from (word s : string) : list string :=
  match s with
  | "" =>
      match word with
      | "" => []
      | String _ _ => [rev_string "" word]
      end
  | String c s' =>
      if is_space c then
        match word with
        | "" => split_from "" s'
        | String _ _ => rev_string "" word :: split_from "" s'
        end
      else split_from (String c word) s'
  end.

Definition split (s : string) : list string := split_from "" s.

(** [sep.join(parts)] *)
Fixpoint join (sep : string) (parts : list string) : string :=
  match parts with
  | [] => ""
  | [p] => p
  | p :: ps => p ++ sep ++ join sep ps
  end.

(** [l[-n:]] for a positive [n] *)
Definition last_n {A : Type} (n : nat) (l : list A) : list A :=
  skipn (List.length l - n) l.

(** [re.findall(pattern, text)] for a pattern without groups: the matched
    texts. *)
Definition re_findall (ic : bool) (r : regex) (text : string) : list string :=
  map m_text (re_finditer ic r text).

(** [re.sub(pattern, repl, text)] for a [repl] without group references:
    the text between the matches is kept, every match gives way to [repl].
    [pos] is the end of the previous match. *)
Fixpoint sub_from (repl text : string) (pos : nat) (ms : list Match) : string :=
  match ms with
  | [] => substring pos (String.length text - pos) text
  | m :: ms' =>
      substring pos (m_start m - pos) text ++ repl
      ++ sub_from repl text (m_start m + String.length (m_text m)) ms'
  end.

Definition re_sub (ic : bool) (r : regex) (repl text : string) : string :=
  sub_from repl text 0 (re_finditer ic r text).

(** A continuation of the matcher that always succeeds. *)
Definition always (k : string -> caps -> option (string * caps)) : Prop :=
  forall t g, exists res, k t g = Some res.


(** ** [extract_number] and [extract_category] *)

(** [\d+(?:,\d+)*(?:\.\d+)?], the pattern of both methods, is
    [amount_digits]; it carries no flag.  (Its digits are the ASCII ones:
    in a text with decimal digits of another script Python finds a number
    where the embedding finds none.) *)
Definition extract_number (text : string) : result (option float) :=
  match re_findall false amount_digits text with
  | [] => Ok None
  | first :: _ =>
      match float_of_string (remove_char "," first) with
      | Some x => Ok (Some x)
      | None => Raise ValueError
      end
  end.

Definition words_to_remove : list string :=
  ["spend"; "spent"; "spending"; "pay"; "paid"; "paying"; "cost"; "costs";
   "costing"; "rupees"; "rs"; "inr"; "₹"; "on"; "for"; "in"; "my"; "i";
   "around"; "about"].

(** The loop [for word in words_to_remove: text = text.replace(word, '')] *)
Definition remove_words (words : list string) (text : string) : string :=
  fold_left (fun t word => replace word "" t) words text.

Definition extract_category (text : string) : option string :=
  let text := re_sub false amount_digits "" text in
  let text := lower text in
  let text := remove_words words_to_remove text in
  let category := strip text in
  match category with
  | "" => None
  | String _ _ =>
      let category_parts :=
        filter (fun part => (1 <? String.length part)%nat) (split category) in
      match category_parts with
      | [] => None
      | _ :: _ => Some (join " " category_parts)
      end
  end.

(** A character that can be left in a category by [extract_category]:
    no digit, no upper-case letter, not the letter [i]; inside a word, no
    white space either. *)
Definition kept_char (c : ascii) : bool :=
  negb (is_digit c) && negb (is_upper c) && negb (Ascii.eqb c "i").

Definition word_char (c : ascii) : bool := kept_char c && negb (is_space c).

(** ** The context handed to the remote model *)

Definition role_name (r : role) : string :=
  match r with
  | user => "user"
  | assistant => "assistant"
  end.

(** [f"{entry['role']}: {entry['content']}"] *)
Definition history_line (entry : turn) : string :=
  role_name (turn_role entry) ++ ": " ++ content entry.

Definition format_conversation_history (st : State) : string :=
  match conversation_history st with
  | [] => "This is the start of the conversation."
  | _ :: _ =>
      join nl (map history_line (last_n 5 (conversation_history st)))
  end.

(** One turn of the loop over [self.user_data.items()]. *)
Definition data_line (context : string) (item : string * float) : string :=
  let (key, value) := item in
  if String.eqb key "income"
  then context ++ "Monthly Income: ₹" ++ format_f true 2 value ++ nl
  else if String.eqb key "savings_goal"
  then context ++ "Savings Goal: ₹" ++ format_f true 2 value ++ nl
  else context.

(** One turn of the loop over [self.expenses.items()]. *)
Definition expense_line (context : string) (item : string * float) : string :=
  let (category, amount) := item in
  context ++ "- " ++ title category ++ ": ₹" ++ format_f true 2 amount ++ nl.

Definition format_financial_context (st : State) : string :=
  let context := "User financial information:" ++ nl in
  let context :=
    match user_name st with
    | Some (String c n) => context ++ "Name: " ++ String c n ++ nl
    | _ => context
    end in
  let context := fold_left data_line (user_data st) context in
  match expenses st with
  | [] => context
  | _ :: _ => fold_left expense_line (expenses st) (context ++ "Expenses:" ++ nl)
  end.

(** ** [handle_capabilities] *)






(** ** The questions of the guided dialogue *)

(** [f"{self.user_name}"]: the name, or the text [None] of a name that is
    not set. *)
Definition shown_name (name : option string) : string :=
  match name with
  | Some n => n
  | None => "None"
  end.

Definition income_questions (name : string) : list string := [
  "Thanks " ++ name ++ "! Let's start with your monthly income - how much do you earn?";
  "Great to meet you, " ++ name ++ "! To help you better, could you tell me your monthly income?";
  "Alright " ++ name ++ "! What's your monthly income? This will help me understand your financial situation.";
  "Perfect, " ++ name ++ "! How much money do you make each month?"
].

Definition get_income_question (rnd : nat -> nat) (st : State) : string :=
  choice (rnd 0) (income_questions (shown_name (user_name st))).

Definition expense_prompts (name : string) : list string := [
  "Now " ++ name ++ ", tell me about your expenses. You can add any category you want! For example, say something like 'I spend 5000 on groceries' or '3000 for gaming'.";
  "Let's talk about where your money goes, " ++ name ++ ". Just tell me naturally about any expense category - could be anything from 'coffee' to 'pet care'!";
  "What kind of things do you spend money on, " ++ name ++ "? You can tell me about any category - like '2000 on movies' or '6000 for hobbies'.";
  "Time to track your spending, " ++ name ++ "! Share your expenses in any categories you like - maybe start with your biggest expense?"
].

Definition get_expense_prompt (rnd : nat -> nat) (st : State) : string :=
  choice (rnd 0) (expense_prompts (shown_name (user_name st))).

Definition expense_acknowledgments (category amount : string) : list string := [
  "Got it! ₹" ++ amount ++ " for " ++ category ++ ". What other expenses would you like to add?";
  "Added ₹" ++ amount ++ " for " ++ category ++ ". Tell me about another expense, or say 'done' when you're finished!";
  "Noted ₹" ++ amount ++ " for " ++ category ++ ". What else do you spend money on?";
  "I've recorded ₹" ++ amount ++ " for " ++ category ++ ". Keep going! Or say 'done' if that's all."
].

Definition get_expense_acknowledgment (rnd : nat -> nat) (category : string)
           (amount : float) : string :=
  choice (rnd 0) (expense_acknowledgments category (format_f true 2 amount)).

Definition savings_questions (name : string) : list string := [
  "Great job listing your expenses, " ++ name ++ "! How much would you like to save each month?";
  "Now let's set a savings target, " ++ name ++ ". How much would you like to set aside monthly?";
  "Time to think about savings, " ++ name ++ "! What's your monthly savings goal?";
  "Let's plan your savings, " ++ name ++ ". How much do you want to save each month?"
].

Definition get_savings_question (rnd : nat -> nat) (st : State) : string :=
  choice (rnd 0) (savings_questions (shown_name (user_name st))).

(** ** The banking keywords and the query of [get_bank_information] *)

(** The query [get_bank_information] hands to the web search for a
    keyword. *)
Definition search_query (query_type : string) : string :=
  let q := lower query_type in
  if contains "fd" q || contains "fixed deposit" q
  then "latest FD interest rates comparison major banks India"
  else if contains "saving" q
  then "best savings account interest rates India comparison"
  else if contains "loan" q
  then "current loan interest rates comparison banks India"
  else if contains "credit card" q
  then "best credit card offers India comparison"
  else "latest " ++ query_type ++ " banking products India comparison".

(** The banking keywords of the remote branch of [get_ai_response]. *)
Definition bank_keywords : list string :=
  ["fd"; "fixed deposit"; "interest rate"; "bank rate"; "rd";
   "recurring deposit"; "savings account"; "loan rate"; "credit card"; "emi";
   "banking product"].

(** The loop over [bank_keywords]: the first keyword the utterance
    contains, the only one that is looked up. *)
Definition bank_keyword (user_input : string) : option string :=
  find (fun keyword => contains (lower keyword) (lower user_input))
       bank_keywords.

(** ** The web service of app.py *)

(** A parsed JSON value; an object is the [dict] the parser builds. *)
#[warnings="-register-all"] Inductive json : Type :=
| JNull
| JBool (b : bool)
| JInt (n : Z)
| JFloat (x : float)
| JString (s : string)
| JArray (items : list json)
| JObject (members : list (string * json)).

(** Truth value of a parsed JSON value, for [if not user_input]. *)
Definition json_truthy (v : json) : bool :=
  match v with
  | JNull => false
  | JBool b => b
  | JInt n => negb (n =? 0)%Z
  | JFloat (Fin q) => negb (Qeq_bool q 0%Q)
  | JFloat _ => true
  | JString "" => false
  | JString (String _ _) => true
  | JArray [] => false
  | JArray (_ :: _) => true
  | JObject [] => false
  | JObject (_ :: _) => true
  end.

(** What the view returns: the [response] member of the JSON body and the
    status code. *)
Record reply : Type := { response : string; status : nat }.

Definition missing_input : reply :=
  {| response := "Please provide some input."; status := 400 |}.

Definition request_error : reply :=
  {| response := "Sorry, there was an error processing your request.";
     status := 500 |}.

(** [chat()] on the module's chatbot object [st].  [body] is
    [request.json]: [None] when reading it raises (the body is not JSON).
    A value without [get], and an input that is not a text (on which
    [re.search] raises [TypeError] before anything is written), end in the
    [except] clause like every exception of [get_ai_response]. *)
Definition chat (rnd : nat -> nat) (remote : option string)
           (body : option json) (st : State) : State * reply :=
  match body with
  | Some (JObject members) =>
      let user_input :=
        match dict_get "input" members with
        | Some v => v
        | None => JString ""
        end in
      if negb (json_truthy user_input) then (st, missing_input)
      else
        match user_input with
        | JString text =>
            match get_ai_response rnd remote text st with
            | (st', Ok answer) => (st', {| response := answer; status := 200 |})
            | (st', Raise _) => (st', request_error)
            end
        | _ => (st, request_error)
        end
  | _ => (st, request_error)
  end.

(** A request with what the world decides for it: the draws, the outcome
    of the remote model, the body. *)
Record request : Type := {
  draws : nat -> nat;
  remote_answer : option string;
  json_body : option json
}.

(** The requests served one after the other by the same chatbot object,
    with the replies they get. *)
Fixpoint serve (st : State) (requests : list request) : State * list reply :=
  match requests with
  | [] => (st, [])
  | r :: rs =>
      let (st1, a) := chat (draws r) (remote_answer r) (json_body r) st in
      let (st2, answers) := serve st1 rs in
      (st2, a :: answers)
  end.

(** The text of a request that carries one: the body is an object whose
    [input] is a non-empty text. *)
Definition input_text (body : option json) : option string :=
  match body with
  | Some (JObject members) =>
      match dict_get "input" members with
      | Some (JString (String c t)) => Some (String c t)
      | _ => None
      end
  | _ => None
  end.

(** ** What a session keeps true *)

(** The financial data hold nothing but an income and a savings goal. *)
Definition known_keys (data : dict float) : Prop :=
  forall k, In k (dict_keys data) -> k = "income" \/ k = "savings_goal".

(** A recorded amount: zero or more, possibly infinite, never a NaN. *)
Definition is_amount (x : float) : bool :=
  match x with
  | Fin q => Qle_bool 0%Q q
  | Inf negative => negb negative
  | NaN => false
  end.

(** A recorded category: lower-case letters and white space, with no white
    space at either end. *)
Definition is_category (k : string) : bool :=
  all_chars (fun c => is_lower c || is_space c) k && String.eqb (strip k) k.

(** A recorded name: one word. *)
Definition is_name (name : option string) : bool :=
  match name with
  | None => true
  | Some "" => false
  | Some (String c n) => all_chars is_word (String c n)
  end.

(** Financial data and a ledger in which every entry is as above. *)
Definition sound_data (data : dict float) : Prop :=
  known_keys data /\ Forall (fun item => is_amount (snd item) = true) data.

Definition sound_ledger (ledger : dict float) : Prop :=
  Forall (fun item => is_category (fst item) = true
                      /\ is_amount (snd item) = true) ledger.

Definition sound (st : State) : Prop :=
  sound_data (user_data st) /\ sound_ledger (expenses st)
  /\ is_name (user_name st) = true.

(** The income on record is zero. *)
Definition zero_income (st : State) : Prop :=
  exists q, dict_get "income" (user_data st) = Some (Fin q) /\ Qeq q 0.

(** A service without a model has recorded no income, no expense and no
    name. *)
Definition unrecorded (st : State) : Prop :=
  model st = false /\ dict_mem "income" (user_data st) = false
  /\ expenses st = [] /\ user_name st = None.

(** Groups of digits with a comma between them, the shape of an amount
    shown with thousands separators. *)
Inductive grouped : string -> Prop :=
| grouped_one (c : ascii) (d : string) :
    all_chars is_digit (String c d) = true -> grouped (String c d)
| grouped_more (c : ascii) (d s : string) :
    all_chars is_digit (String c d) = true -> grouped s ->
    grouped (String c d ++ String "," s).

(** [,\d+], the repeated part of the amount pattern. *)
Definition comma_group : regex := Cat (Lit ",") (Plus Digit).

(** What can follow an amount: neither a digit nor a comma. *)
Definition amount_end (t : string) : Prop :=
  match t with
  | String c _ => is_digit c = false /\ is_comma c = false
  | "" => True
  end.

(** The text holds no digit. *)
Definition no_digit (s : string) : bool :=
  all_chars (fun c => negb (is_digit c)) s.

(** The history is made of exchanges: a user turn, then the assistant
    turn that answers it. *)
Fixpoint exchanges (history : list turn) : bool :=
  match history with
  | [] => true
  | u :: a :: rest =>
      match turn_role u, turn_role a with
      | user, assistant => exchanges rest
      | _, _ => false
      end
  | _ :: [] => false
  end.

(** Whole exchanges, ten turns at most. *)
Definition whole_exchanges (h : list turn) : Prop :=
  exchanges h = true /\ (List.length h <= 10)%nat.

(** A call of [get_ai_response] that the remote model answers. *)
Definition answered (o : op) : bool :=
  match o with
  | Ask _ (Some _) _ => true
  | _ => false
  end.

(* ================================================================== *)
(** * ASCII utterances and well-formed expense phrases *)
(* ================================================================== *)

(** ** ASCII text

    The character tests of the embedding ([is_digit], [is_space],
    [is_word], the ranges of [in_item], [lower_char], [upper_char]) are
    those of Python on ASCII characters.  On other characters Python's
    [\d], [\s], [\w] and the letter ranges under [re.IGNORECASE] accept
    more (the decimal digits and the white space of other scripts, every
    letter, the long s, the dotted and dotless i, the Kelvin sign), and
    [str.lower], [str.title], [str.strip] and [float] follow them.  A
    property that holds of ASCII utterances only has [isascii] as a
    hypothesis. *)

(** [s.isascii()] *)
Definition isascii (s : string) : bool :=
  all_chars (fun c => (code c <? 128)%nat) s.

(** The utterance a call of a session hands over. *)
Definition utterance (o : op) : string :=
  match o with
  | Extract text => text
  | Respond _ text => text
  | Ask _ _ text => text
  | Process _ _ text => text
  | Greet _ _ text => text
  end.

(** Every utterance of the session is ASCII text. *)
Definition ascii_session (ops : list op) : bool :=
  forallb (fun o => isascii (utterance o)) ops.

(** ** Patterns without [^], and trimmed texts *)

Fixpoint bol_free (r : regex) : bool :=
  match r with
  | Eps | Lit _ | Cls _ => true
  | Cat r1 r2 | Alt r1 r2 => bol_free r1 && bol_free r2
  | Star r1 | Grp _ r1 => bol_free r1
  | Bol => false
  end.

(** The text neither starts nor ends with white space. *)
Definition trimmed (k : string) : Prop :=
  forall c k',
    (k = String c k' -> is_space c = false)
    /\ (k = k' ++ String c "" -> is_space c = false).

(** ** Well-formed expense phrases

    An utterance made of expense phrases "<verb> <amount> <on|for|in>
    <category>", each after a lead such as "I " or ". Then I also " and
    followed by white space. *)

(** An amount as it is typed: groups of digits with commas between them,
    and possibly a decimal part. *)
Definition amount_text (a : string) : Prop :=
  grouped a
  \/ exists s f,
       grouped s /\ f <> "" /\ all_chars is_digit f = true
       /\ a = s ++ "." ++ f.

(** A category as it is typed: letters and white space, with a letter at
    either end. *)
Definition category_text (c : string) : bool :=
  match c with
  | "" => false
  | String _ _ =>
      all_chars (fun x => is_alpha x || is_space x) c && String.eqb (strip c) c
  end.

(** What stands before, between and after the phrases: ASCII text without
    a digit. *)
Definition plain_lead (s : string) : bool := isascii s && no_digit s.

Record phrase : Type := {
  ph_lead : string;
  ph_verb : string;
  ph_amount : string;
  ph_prep : string;
  ph_category : string;
  ph_padding : string
}.

Definition phrase_text (p : phrase) : string :=
  ph_lead p ++ ph_verb p ++ " " ++ ph_amount p ++ " " ++ ph_prep p ++ " "
          ++ ph_category p ++ ph_padding p.

(** The phrases one after the other, then [tail]. *)
Fixpoint phrases_text (ps : list phrase) (tail : string) : string :=
  match ps with
  | [] => tail
  | p :: ps' => phrase_text p ++ phrases_text ps' tail
  end.

Definition well_formed (p : phrase) : Prop :=
  plain_lead (ph_lead p) = true
  /\ In (ph_verb p) spend_verbs
  /\ amount_text (ph_amount p)
  /\ In (ph_prep p) expense_prepositions
  /\ category_text (ph_category p) = true
  /\ all_chars is_space (ph_padding p) = true.

(** What can follow a category and its padding: the end of the text, or a
    character that is neither a letter nor white space. *)
Definition category_end (t : string) : Prop :=
  match t with
  | "" => True
  | String c _ => is_alpha c = false /\ is_space c = false
  end.

(** Every phrase is well formed and is followed by the end of the text or
    by a character that ends its category. *)
Fixpoint well_formed_phrases (ps : list phrase) (tail : string) : Prop :=
  match ps with
  | [] => plain_lead tail = true
  | p :: ps' =>
      well_formed p /\ category_end (phrases_text ps' tail)
      /\ well_formed_phrases ps' tail
  end.

(** What a phrase puts into the ledger: the amount without its commas, as a
    float, under the lower-cased category. *)
Definition record_phrase (ledger : dict float) (p : phrase) : dict float :=
  match float_of_string (remove_char "," (ph_amount p)) with
  | Some amount => dict_set (lower (ph_category p)) amount ledger
  | None => ledger
  end.

(** The groups of the match of the expense pattern on a phrase. *)
Definition phrase_groups (p : phrase) : caps :=
  [(2%nat, ph_category p ++ ph_padding p); (1%nat, ph_amount p)].

(* ================================================================== *)
(** * Properties *)
(* ================================================================== *)

(** ** Strings *)

Lemma append_nil_r (a : string) : a ++ "" = a.
Proof. induction a as [|c a IH]; simpl; [reflexivity | now rewrite IH]. Qed.

Lemma append_assoc (a b c : string) : (a ++ b) ++ c = a ++ (b ++ c).
Proof. induction a as [|x a IH]; simpl; [reflexivity | now rewrite IH]. Qed.

Lemma length_append (a b : string) :
  String.length (a ++ b) = (String.length a + String.length b)%nat.
Proof. induction a as [|x a IH]; simpl; [reflexivity | now rewrite IH]. Qed.

Lemma take_append (a b : string) : take (String.length a) (a ++ b) = a.
Proof. induction a as [|x a IH]; simpl; [now destruct b | now rewrite IH]. Qed.

Lemma take_suffix (a b : string) :
  take (String.length (a ++ b) - String.length b) (a ++ b) = a.
Proof.
  rewrite length_append.
  replace (String.length a + String.length b - String.length b)%nat
    with (String.length a) by lia.
  apply take_append.
Qed.

(** ** The matcher finds what the pattern denotes *)

Section MatcherSound.

Variable ic : bool.
Variable n0 : nat.

Lemma lit_rest_split (l t t' : string) :
  lit_rest ic l t = Some t' ->
  exists w, t = w ++ t' /\ lit_rest ic l w = Some "".
Proof.
  revert t. induction l as [|a l IH]; intros t H; simpl in H.
  - inversion H; subst. now exists "".
  - destruct t as [|b t]; [discriminate|].
    destruct (char_eq ic a b) eqn:E; [|discriminate].
    destruct (IH _ H) as (w & -> & Hw).
    exists (String b w). split; [reflexivity|]. simpl. now rewrite E.
Qed.

Lemma rmatch_sound (r : regex) :
  forall t g k res,
    rmatch ic n0 r t g k = Some res ->
    exists w t' g', t = w ++ t' /\ sem ic r w g g' /\ k t' g' = Some res.
Proof.
  induction r as [|l|items|r1 IH1 r2 IH2|r1 IH1 r2 IH2|r1 IH1|n r1 IH1|];
    intros t g k res H; simpl in H.
  - exists "", t, g. repeat split; [constructor | assumption].
  - destruct (lit_rest ic l t) as [t'|] eqn:E; [|discriminate].
    destruct (lit_rest_split _ _ E) as (w & -> & Hw).
    exists w, t', g. repeat split; [now constructor | assumption].
  - destruct t as [|c t]; [discriminate|].
    destruct (in_class ic items c) eqn:E; [|discriminate].
    exists (String c ""), t, g. repeat split; [now constructor | assumption].
  - apply IH1 in H. destruct H as (w1 & t1 & g1 & -> & S1 & H).
    apply IH2 in H. destruct H as (w2 & t2 & g2 & -> & S2 & H).
    exists (w1 ++ w2), t2, g2. rewrite append_assoc.
    repeat split; [econstructor; eassumption | assumption].
  - destruct (rmatch ic n0 r1 t g k) as [res1|] eqn:E.
    + inversion H; subst. apply IH1 in E.
      destruct E as (w & t' & g' & -> & S1 & Hk).
      exists w, t', g'. repeat split; [now apply sem_alt_l | assumption].
    + apply IH2 in H. destruct H as (w & t' & g' & -> & S2 & Hk).
      exists w, t', g'. repeat split; [now apply sem_alt_r | assumption].
  - remember (String.length t) as fuel eqn:Hf. clear Hf.
    revert t g H. induction fuel as [|fuel IHf]; intros t g H; simpl in H.
    + exists "", t, g. repeat split; [constructor | assumption].
    + match type of H with
      | match ?m with _ => _ end = _ => destruct m as [res1|] eqn:E
      end.
      * inversion H; subst. apply IH1 in E.
        destruct E as (w1 & t1 & g1 & -> & S1 & Hk).
        destruct (String.length t1 <? String.length (w1 ++ t1))%nat;
          [|discriminate].
        apply IHf in Hk. destruct Hk as (w2 & t2 & g2 & -> & S2 & Hk).
        exists (w1 ++ w2), t2, g2. rewrite append_assoc.
        repeat split; [econstructor; eassumption | assumption].
      * exists "", t, g. repeat split; [constructor | assumption].
  - apply IH1 in H. destruct H as (w & t' & g' & -> & S1 & Hk).
    rewrite take_suffix in Hk.
    exists w, t', ((n, w) :: g'). repeat split; [now constructor | assumption].
  - destruct (String.length t =? n0)%nat; [|discriminate].
    exists "", t, g. repeat split; [constructor | assumption].
Qed.

Lemma search_from_eq (r : regex) (pos : nat) (t : string) :
  search_from ic n0 r pos t =
  match rmatch ic n0 r t [] (fun t' g => Some (t', g)) with
  | Some (t', g) =>
      Some {| m_start := pos;
              m_text := take (String.length t - String.length t') t;
              m_rest := t';
              m_groups := g |}
  | None =>
      match t with
      | "" => None
      | String _ t' => search_from ic n0 r (S pos) t'
      end
  end.
Proof. destruct t; reflexivity. Qed.

Lemma rmatch_here (r : regex) (t t' : string) (g : caps) :
  rmatch ic n0 r t [] (fun t' g => Some (t', g)) = Some (t', g) ->
  t = take (String.length t - String.length t') t ++ t'
  /\ sem ic r (take (String.length t - String.length t') t) [] g.
Proof.
  intros E. apply rmatch_sound in E.
  destruct E as (w & t1 & g1 & Ht & S1 & Hk).
  inversion Hk; subst t1 g1 t; clear Hk.
  rewrite take_suffix. now split.
Qed.

(** A match found by the scan: the subject is a skipped prefix, the matched
    text and the rest, and the matched text reads as the pattern. *)
Lemma search_from_sound (r : regex) :
  forall t pos m,
    search_from ic n0 r pos t = Some m ->
    exists pre,
      t = pre ++ m_text m ++ m_rest m
      /\ m_start m = (pos + String.length pre)%nat
      /\ sem ic r (m_text m) [] (m_groups m).
Proof.
  induction t as [|c t IH]; intros pos m H; rewrite search_from_eq in H;
    match type of H with
    | match ?x with _ => _ end = _ => destruct x as [[t' g]|] eqn:E
    end; try discriminate.
  1, 2: inversion H; subst m; clear H;
    unfold m_text, m_rest, m_start, m_groups;
    apply rmatch_here in E; destruct E as [Ht S1]; exists "";
    repeat split; [exact Ht | simpl; lia | assumption].
  apply IH in H. destruct H as (pre & Ht & Hs & Hsem).
  exists (String c pre). simpl. rewrite <- Ht.
  repeat split; [lia | assumption].
Qed.

End MatcherSound.

(** ** The repetition never runs out of iterations *)

Section StarFuel.

Variable ic : bool.
Variable n0 : nat.

Lemma star_loop_ext
      (step1 step2 : string -> caps ->
                     (string -> caps -> option (string * caps)) ->
                     option (string * caps))
      (k1 k2 : string -> caps -> option (string * caps)) :
  (forall t g c1 c2,
      (forall t' g', c1 t' g' = c2 t' g') -> step1 t g c1 = step2 t g c2) ->
  (forall t g, k1 t g = k2 t g) ->
  forall fuel t g,
    star_loop step1 k1 fuel t g = star_loop step2 k2 fuel t g.
Proof.
  intros Hstep Hk. induction fuel as [|fuel IH]; intros t g; simpl.
  - apply Hk.
  - rewrite (Hstep t g _
               (fun t1 g1 =>
                  if (String.length t1 <? String.length t)%nat
                  then star_loop step2 k2 fuel t1 g1 else None)).
    + now rewrite Hk.
    + intros t' g'. now rewrite IH.
Qed.

(** The result of a match depends on the continuation only through its
    values. *)
Lemma rmatch_ext (r : regex) :
  forall t g k1 k2,
    (forall t' g', k1 t' g' = k2 t' g') ->
    rmatch ic n0 r t g k1 = rmatch ic n0 r t g k2.
Proof.
  induction r as [|l|items|r1 IH1 r2 IH2|r1 IH1 r2 IH2|r1 IH1|n r1 IH1|];
    intros t g k1 k2 Hk; simpl.
  - apply Hk.
  - destruct (lit_rest ic l t); [apply Hk | reflexivity].
  - destruct t as [|c t]; [reflexivity|].
    destruct (in_class ic items c); [apply Hk | reflexivity].
  - apply IH1. intros t' g'. now apply IH2.
  - rewrite (IH1 t g k1 k2 Hk), (IH2 t g k1 k2 Hk). reflexivity.
  - apply star_loop_ext; [|exact Hk].
    intros t0 g0 c1 c2 Hc. now apply IH1.
  - apply IH1. intros t' g'. apply Hk.
  - destruct (String.length t =? n0)%nat; [apply Hk | reflexivity].
Qed.

(** A match whose continuation always fails fails. *)
Lemma rmatch_fail (r : regex) (t : string) (g : caps) :
  rmatch ic n0 r t g (fun _ _ => None) = None.
Proof.
  destruct (rmatch ic n0 r t g (fun _ _ => None)) as [res|] eqn:E;
    [|reflexivity].
  apply rmatch_sound in E. destruct E as (w & t' & g' & _ & _ & H).
  discriminate H.
Qed.

Lemma star_loop_fuel (r : regex) (k : string -> caps -> option (string * caps)) :
  forall fuel1 fuel2 t g,
    String.length t <= fuel1 -> String.length t <= fuel2 ->
    star_loop (rmatch ic n0 r) k fuel1 t g
    = star_loop (rmatch ic n0 r) k fuel2 t g.
Proof.
  induction fuel1 as [|fuel1 IH]; intros fuel2 t g H1 H2.
  - destruct t; [|simpl in H1; lia].
    destruct fuel2 as [|fuel2]; [reflexivity|]. simpl.
    now rewrite rmatch_fail.
  - destruct fuel2 as [|fuel2].
    + destruct t; [|simpl in H2; lia]. simpl.
      now rewrite rmatch_fail.
    + simpl. erewrite rmatch_ext; [reflexivity|].
      intros t' g'. cbv beta.
      destruct (String.length t' <? String.length t)%nat eqn:E;
        [|reflexivity].
      apply Nat.ltb_lt in E. apply IH; lia.
Qed.

(** The equation of a greedy [r*]: one more [r] that consumes something,
    then [r*] again, or else nothing. *)
Lemma rmatch_star (r : regex) (t : string) (g : caps)
      (k : string -> caps -> option (string * caps)) :
  rmatch ic n0 (Star r) t g k
  = match rmatch ic n0 r t g
            (fun t1 g1 =>
               if (String.length t1 <? String.length t)%nat
               then rmatch ic n0 (Star r) t1 g1 k else None) with
    | Some res => Some res
    | None => k t g
    end.
Proof.
  cbn [rmatch]. destruct (String.length t) as [|n] eqn:Hlen.
  - destruct t; [|discriminate Hlen]. simpl. now rewrite rmatch_fail.
  - cbn [star_loop]. rewrite Hlen.
    erewrite rmatch_ext; [reflexivity|].
    intros t' g'. cbv beta.
    destruct (String.length t' <? S n)%nat eqn:E; [|reflexivity].
    apply Nat.ltb_lt in E. apply star_loop_fuel; lia.
Qed.

End StarFuel.

(** ** What the groups of a match hold *)

Section Groups.

Variable ic : bool.

Lemma sem_nogrp (r : regex) (w : string) (g g' : caps) :
  sem ic r w g g' -> nogrp r = true -> g' = g.
Proof.
  induction 1; simpl; intros Hn; try reflexivity;
    try (apply andb_prop in Hn; destruct Hn as [H1 H2]); try discriminate.
  - rewrite IHsem2, IHsem1; auto.
  - apply IHsem; auto.
  - apply IHsem; auto.
  - rewrite IHsem2, IHsem1; auto.
Qed.

(** A group that is set after reading [r] either was set before or holds a
    text of one of the groups of [r] with that number. *)
Lemma sem_caps (r : regex) (w : string) (g g' : caps) :
  sem ic r w g g' ->
  forall n,
    cap_get n g' = cap_get n g
    \/ exists r1 w1 ga gb,
         In (n, r1) (grps r) /\ sem ic r1 w1 ga gb /\ cap_get n g' = Some w1.
Proof.
  induction 1; intros k; simpl; try (left; reflexivity).
  - destruct (IHsem2 k) as [E2 | (r' & w' & ga & gb & Hin & Hs & E2)].
    + destruct (IHsem1 k) as [E1 | (r' & w' & ga & gb & Hin & Hs & E1)].
      * left. congruence.
      * right. exists r', w', ga, gb. repeat split; auto.
        -- apply in_or_app; auto.
        -- congruence.
    + right. exists r', w', ga, gb. repeat split; auto.
      apply in_or_app; auto.
  - destruct (IHsem k) as [E | (r' & w' & ga & gb & Hin & Hs & E)]; auto.
    right. exists r', w', ga, gb. repeat split; auto. apply in_or_app; auto.
  - destruct (IHsem k) as [E | (r' & w' & ga & gb & Hin & Hs & E)]; auto.
    right. exists r', w', ga, gb. repeat split; auto. apply in_or_app; auto.
  - destruct (IHsem2 k) as [E2 | (r' & w' & ga & gb & Hin & Hs & E2)].
    + destruct (IHsem1 k) as [E1 | (r' & w' & ga & gb & Hin & Hs & E1)].
      * left. congruence.
      * right. exists r', w', ga, gb. repeat split; auto. congruence.
    + right. exists r', w', ga, gb. repeat split; auto.
  - destruct (Nat.eqb_spec n k) as [->|Hne].
    + right. exists r, w, g, g'. repeat split; auto.
    + destruct (IHsem k) as [E | (r' & w' & ga & gb & Hin & Hs & E)]; auto.
      right. exists r', w', ga, gb. repeat split; auto.
Qed.

(** A group set before reading stays set. *)
Lemma sem_keeps (r : regex) (w : string) (g g' : caps) :
  sem ic r w g g' -> forall n, cap_get n g <> None -> cap_get n g' <> None.
Proof.
  induction 1; intros k Hk; simpl; auto.
  destruct (n =? k)%nat; [discriminate | auto].
Qed.

Lemma sem_must (r : regex) (w : string) (g g' : caps) :
  sem ic r w g g' -> forall n, must_grp n r = true -> cap_get n g' <> None.
Proof.
  induction 1; intros k Hk; simpl in Hk; try discriminate.
  - apply orb_prop in Hk. destruct Hk as [Hk|Hk].
    + eapply sem_keeps; eauto.
    + auto.
  - apply andb_prop in Hk. destruct Hk; auto.
  - apply andb_prop in Hk. destruct Hk; auto.
  - simpl. destruct (n =? k)%nat eqn:E; [discriminate|].
    simpl in Hk. auto.
Qed.

(** The text of a mandatory group of a match reads as one of the groups
    with that number. *)
Lemma sem_group (r : regex) (w : string) (g' : caps) (n : nat) :
  sem ic r w [] g' -> must_grp n r = true ->
  exists r1 w1 ga gb,
    In (n, r1) (grps r) /\ sem ic r1 w1 ga gb /\ cap_get n g' = Some w1.
Proof.
  intros Hs Hm.
  destruct (sem_caps Hs n) as [E|E]; [|exact E].
  exfalso. apply (sem_must Hs n Hm). exact E.
Qed.

End Groups.

(** ** The amount group always converts *)

Lemma all_chars_app (p : ascii -> bool) (a b : string) :
  all_chars p (a ++ b) = all_chars p a && all_chars p b.
Proof.
  induction a as [|c a IH]; simpl; [reflexivity|].
  now rewrite IH, andb_assoc.
Qed.

Lemma all_chars_weaken (p q : ascii -> bool) (a : string) :
  (forall c, p c = true -> q c = true) ->
  all_chars p a = true -> all_chars q a = true.
Proof.
  intros Hpq. induction a as [|c a IH]; simpl; [reflexivity|].
  intros H. apply andb_prop in H. destruct H as [H1 H2].
  now rewrite (Hpq _ H1), IH.
Qed.

Lemma digit_not_comma (c : ascii) : is_digit c = true -> is_comma c = false.
Proof.
  unfold is_comma. destruct (Ascii.eqb_spec c ","); [subst; discriminate | reflexivity].
Qed.

Lemma digit_not_dot (c : ascii) : is_digit c = true -> is_dot c = false.
Proof.
  unfold is_dot. destruct (Ascii.eqb_spec c "."); [subst; discriminate | reflexivity].
Qed.

Section AmountText.

Variable ic : bool.

Lemma char_eq_comma (b : ascii) : char_eq ic "," b = true -> b = ","%char.
Proof.
  destruct ic, b as [[] [] [] [] [] [] [] []]; vm_compute;
    intros H; try discriminate H; reflexivity.
Qed.

Lemma char_eq_dot (b : ascii) : char_eq ic "." b = true -> b = "."%char.
Proof.
  destruct ic, b as [[] [] [] [] [] [] [] []]; vm_compute;
    intros H; try discriminate H; reflexivity.
Qed.

Lemma sem_lit_comma (w : string) (g g' : caps) :
  sem ic (Lit ",") w g g' -> w = ",".
Proof.
  inversion 1 as [| l w0 g0 Hl | | | | | | | |]; subst.
  simpl in Hl. destruct w as [|b w]; [discriminate|].
  destruct (char_eq ic "," b) eqn:E; [|discriminate].
  apply char_eq_comma in E; subst b. now inversion Hl.
Qed.

Lemma sem_lit_dot (w : string) (g g' : caps) :
  sem ic (Lit ".") w g g' -> w = ".".
Proof.
  inversion 1 as [| l w0 g0 Hl | | | | | | | |]; subst.
  simpl in Hl. destruct w as [|b w]; [discriminate|].
  destruct (char_eq ic "." b) eqn:E; [|discriminate].
  apply char_eq_dot in E; subst b. now inversion Hl.
Qed.

(** A repetition of a character set reads a text over that set. *)
Lemma sem_star_cls (items : list citem) (w : string) (g g' : caps) :
  sem ic (Star (Cls items)) w g g' -> all_chars (in_class ic items) w = true.
Proof.
  remember (Star (Cls items)) as r eqn:Hr. intros H.
  induction H; try discriminate Hr; [reflexivity|].
  inversion Hr; subst r. clear IHsem1.
  inversion H; subst. simpl.
  rewrite IHsem2 by reflexivity. now rewrite andb_true_r.
Qed.

Lemma sem_plus_cls (items : list citem) (w : string) (g g' : caps) :
  sem ic (Plus (Cls items)) w g g' ->
  exists c w', w = String c w' /\ all_chars (in_class ic items) w = true.
Proof.
  unfold Plus. inversion 1; subst.
  match goal with
  | H1 : sem _ (Cls _) _ _ _, H2 : sem _ (Star _) _ _ _ |- _ =>
      inversion H1; subst; apply sem_star_cls in H2
  end.
  eexists _, _. split; [reflexivity|]. simpl.
  match goal with H : in_class _ _ _ = true |- _ => rewrite H end.
  assumption.
Qed.

Lemma in_class_digit (c : ascii) :
  in_class ic [EscD] c = true -> is_digit c = true.
Proof. unfold in_class. simpl. now rewrite orb_false_r. Qed.

Lemma sem_digits (w : string) (g g' : caps) :
  sem ic (Plus Digit) w g g' ->
  exists c w', w = String c w' /\ all_chars is_digit w = true.
Proof.
  intros H. apply sem_plus_cls in H. destruct H as (c & w' & -> & Hall).
  exists c, w'. split; [reflexivity|].
  eapply all_chars_weaken; [|exact Hall]. apply in_class_digit.
Qed.

(** [(?:,\d+)*] reads digits and commas only. *)
Lemma sem_comma_groups (w : string) (g g' : caps) :
  sem ic (Star (Cat (Lit ",") (Plus Digit))) w g g' ->
  all_chars (fun c => is_digit c || is_comma c) w = true.
Proof.
  remember (Star (Cat (Lit ",") (Plus Digit))) as r eqn:Hr. intros H.
  induction H; try discriminate Hr; [reflexivity|].
  inversion Hr; subst r. clear IHsem1.
  rewrite all_chars_app, IHsem2 by reflexivity. rewrite andb_true_r.
  inversion H; subst.
  match goal with
  | H1 : sem _ (Lit _) _ _ _, H2 : sem _ (Plus _) _ _ _ |- _ =>
      apply sem_lit_comma in H1; subst; apply sem_digits in H2;
      destruct H2 as (c & w' & -> & Hd)
  end.
  simpl. simpl in Hd. apply andb_prop in Hd. destruct Hd as [Hc Hd].
  rewrite Hc. simpl.
  eapply all_chars_weaken; [|exact Hd]. intros x Hx. now rewrite Hx.
Qed.

End AmountText.

Lemma remove_char_app (c : ascii) (a b : string) :
  remove_char c (a ++ b) = remove_char c a ++ remove_char c b.
Proof.
  induction a as [|x a IH]; simpl; [reflexivity|].
  destruct (Ascii.eqb x c); simpl; now rewrite IH.
Qed.

Lemma remove_comma_digits (a : string) :
  all_chars is_digit a = true -> remove_char "," a = a.
Proof.
  induction a as [|x a IH]; simpl; [reflexivity|].
  intros H. apply andb_prop in H. destruct H as [Hx Ha].
  apply digit_not_comma in Hx. unfold is_comma in Hx. rewrite Hx.
  now rewrite IH.
Qed.

Lemma remove_comma_mixed (a : string) :
  all_chars (fun c => is_digit c || is_comma c) a = true ->
  all_chars is_digit (remove_char "," a) = true.
Proof.
  induction a as [|x a IH]; simpl; [reflexivity|].
  intros H. apply andb_prop in H. destruct H as [Hx Ha].
  fold (is_comma x). destruct (is_comma x) eqn:E; [auto|].
  rewrite orb_false_r in Hx. simpl. now rewrite Hx, IH.
Qed.

Lemma digits_value_some (a : string) :
  all_chars is_digit a = true -> forall acc, exists v, digits_value acc a = Some v.
Proof.
  induction a as [|x a IH]; simpl; intros H acc; [now exists acc|].
  apply andb_prop in H. destruct H as [Hx Ha]. rewrite Hx. apply IH, Ha.
Qed.

Lemma split_dot_digits (a : string) :
  all_chars is_digit a = true ->
  split_dot a = (a, None)
  /\ forall b, split_dot (a ++ String "." b) = (a, Some b).
Proof.
  induction a as [|x a IH]; simpl; intros H; [now split|].
  apply andb_prop in H. destruct H as [Hx Ha].
  apply digit_not_dot in Hx. unfold is_dot in Hx. rewrite Hx.
  destruct (IH Ha) as [E1 E2]. rewrite E1. split; [reflexivity|].
  intros b. now rewrite E2.
Qed.

(** [float] accepts a non-empty digit string, with or without a fraction. *)
Lemma float_of_digits (a : string) :
  all_chars is_digit a = true -> a <> "" ->
  exists v, float_of_string a = Some v.
Proof.
  intros Ha Hne. unfold float_of_string.
  destruct (split_dot_digits _ Ha) as [-> _].
  destruct (digits_value_some _ Ha 0) as [v ->]. simpl.
  destruct a as [|c a]; [congruence|]. simpl. eauto.
Qed.

Lemma float_of_digits_fraction (a b : string) :
  all_chars is_digit a = true -> all_chars is_digit b = true -> a <> "" ->
  exists v, float_of_string (a ++ String "." b) = Some v.
Proof.
  intros Ha Hb Hne. unfold float_of_string.
  destruct (split_dot_digits _ Ha) as [_ ->].
  destruct (digits_value_some _ Ha 0) as [v ->].
  destruct (digits_value_some _ Hb 0) as [v' ->].
  destruct a as [|c a]; [congruence|]. simpl. eauto.
Qed.

(** Every text of [\d+(?:,\d+)*(?:\.\d+)?] converts once its commas are
    removed. *)
Lemma amount_digits_convert (ic : bool) (w : string) (g g' : caps) :
  sem ic amount_digits w g g' ->
  exists v, float_of_string (remove_char "," w) = Some v.
Proof.
  unfold amount_digits, seq. intros H.
  inversion H as [| | |r1 r2 w1 w23 g0 g1 g2 H1 H23| | | | | |]; subst.
  inversion H23 as [| | |r1 r2 w2 w3 g0 g3 g4 H2 H3| | | | | |]; subst.
  apply sem_digits in H1. destruct H1 as (c & w1' & -> & Hd1).
  apply sem_comma_groups in H2. apply remove_comma_mixed in H2.
  rewrite !remove_char_app. rewrite (remove_comma_digits _ Hd1).
  assert (Hint : all_chars is_digit (String c w1' ++ remove_char "," w2) = true)
    by now rewrite all_chars_app, Hd1, H2.
  assert (Hne : String c w1' ++ remove_char "," w2 <> "") by discriminate.
  rewrite <- append_assoc.
  unfold Opt in H3. inversion H3 as [| | | |r1 r2 w0 g0 g5 Hf|r1 r2 w0 g0 g5 He| | | |]; subst.
  - inversion Hf as [| | |r1 r2 wd wf g0 g6 g7 Hdot Hfr| | | | | |]; subst.
    apply sem_lit_dot in Hdot; subst wd.
    apply sem_digits in Hfr. destruct Hfr as (c' & wf' & -> & Hd3).
    rewrite remove_char_app, (remove_comma_digits _ Hd3).
    change (remove_char "," "." ++ String c' wf') with (String "." (String c' wf')).
    now apply float_of_digits_fraction.
  - inversion He; subst. simpl (remove_char _ ""). rewrite append_nil_r.
    now apply float_of_digits.
Qed.

(** ** The groups of the chatbot's patterns *)

Lemma search_amount_converts (ic : bool) (n0 : nat) (r : regex) :
  amount_in_group_1 r ->
  forall pos t m,
    search_from ic n0 r pos t = Some m -> exists v, amount_of m = Some v.
Proof.
  intros [Hmust Hgrp] pos t m H.
  apply search_from_sound in H. destruct H as (pre & _ & _ & Hsem).
  destruct (sem_group 1 Hsem Hmust) as (r1 & w1 & ga & gb & Hin & Hs1 & Hcap).
  apply Hgrp in Hin; subst r1.
  unfold amount_of, group. rewrite Hcap.
  eapply amount_digits_convert; eassumption.
Qed.

Ltac grp_cases :=
  split; [reflexivity|];
  simpl; intros r1 H;
  repeat (destruct H as [H|H]; [inversion H; reflexivity|]);
  contradiction.

Lemma expense_amount_group : amount_in_group_1 expense_pattern.
Proof. grp_cases. Qed.

Lemma income_amount_group : amount_in_group_1 income_pattern.
Proof. grp_cases. Qed.

Lemma savings_amount_group (p : regex) :
  In p savings_patterns -> amount_in_group_1 p.
Proof. intros [<-|[<-|[]]]; grp_cases. Qed.

(** In a list of patterns that all hold an amount in group 1, the goal
    comes from the first pattern that matches. *)
Lemma first_goal_first_match (ps : list regex) (text : string) :
  (forall p, In p ps -> amount_in_group_1 p) ->
  first_goal ps text = None <-> existsb (fun p => matches p text) ps = false.
Proof.
  induction ps as [|p ps IH]; intros Hall; simpl; [tauto|].
  unfold matches at 1.
  destruct (re_search true p text) as [m|] eqn:E.
  - assert (Hv : exists v, amount_of m = Some v)
      by (eapply search_amount_converts; [apply Hall; now left | exact E]).
    destruct Hv as [v ->]. simpl. split; discriminate.
  - simpl. apply IH. intros q Hq. apply Hall. now right.
Qed.

Lemma savings_goal_iff_match (text : string) :
  first_goal savings_patterns text = None
  <-> existsb (fun p => matches p text) savings_patterns = false.
Proof. apply first_goal_first_match, savings_amount_group. Qed.

(** Every match yielded by the iteration comes from a scan. *)
Lemma finditer_from_search (ic : bool) (n0 : nat) (r : regex) :
  forall fuel pos t m,
    In m (finditer_from ic n0 fuel r pos t) ->
    exists pos' t', search_from ic n0 r pos' t' = Some m.
Proof.
  induction fuel as [|fuel IH]; intros pos t m H; simpl in H; [contradiction|].
  destruct (search_from ic n0 r pos t) as [m0|] eqn:E; [|contradiction].
  destruct H as [<-|H]; [eauto|].
  destruct (m_text m0), (m_rest m0); try contradiction; eapply IH; eassumption.
Qed.

Lemma expense_match_converts (text : string) (m : Match) :
  In m (re_finditer true expense_pattern text) ->
  exists v, amount_of m = Some v.
Proof.
  intros H. apply finditer_from_search in H. destruct H as (pos & t & H).
  eapply search_amount_converts; [apply expense_amount_group | exact H].
Qed.

Lemma search_name_nonempty (ic : bool) (n0 : nat) (r : regex) :
  name_in_group_1 r ->
  forall pos t m,
    search_from ic n0 r pos t = Some m ->
    exists c n, group m 1 = String c n.
Proof.
  intros [Hmust Hgrp] pos t m H.
  apply search_from_sound in H. destruct H as (pre & _ & _ & Hsem).
  destruct (sem_group 1 Hsem Hmust) as (r1 & w1 & ga & gb & Hin & Hs1 & Hcap).
  apply Hgrp in Hin. destruct Hin as [items ->].
  apply sem_plus_cls in Hs1. destruct Hs1 as (c & w' & -> & _).
  unfold group. rewrite Hcap. eauto.
Qed.

Ltac name_cases :=
  split; [reflexivity|];
  simpl; intros r1 H;
  repeat (destruct H as [H|H]; [inversion H; eexists; reflexivity|]);
  contradiction.

Lemma user_name_group (p : regex) :
  In p user_name_patterns -> name_in_group_1 p.
Proof. intros [<-|[<-|[<-|[]]]]; name_cases. Qed.

Lemma process_name_group : name_in_group_1 process_name_pattern.
Proof. name_cases. Qed.

Lemma capitalize_truthy (c : ascii) (n : string) :
  truthy (Some (capitalize (String c n))) = true.
Proof. reflexivity. Qed.

Lemma title_truthy (c : ascii) (n : string) :
  truthy (Some (title (String c n))) = true.
Proof. reflexivity. Qed.

Lemma first_name_nonempty (ps : list regex) (text g : string) :
  (forall p, In p ps -> name_in_group_1 p) ->
  first_name ps text = Some g -> exists c n, g = String c n.
Proof.
  induction ps as [|p ps IH]; intros Hall H; simpl in H; [discriminate|].
  destruct (re_search true p text) as [m|] eqn:E.
  - inversion H; subst.
    eapply search_name_nonempty; [apply Hall; now left | exact E].
  - apply IH; [|exact H]. intros q Hq. apply Hall. now right.
Qed.

(** ** Dicts *)

Section Dict.

Variable V : Type.
Implicit Types (d : dict V) (k : string) (v : V).

Lemma dict_get_set_same k v d : dict_get k (dict_set k v d) = Some v.
Proof.
  induction d as [|[k' v'] d IH]; simpl.
  - now rewrite String.eqb_refl.
  - destruct (String.eqb k' k) eqn:E; simpl; rewrite E; auto.
Qed.

Lemma dict_get_set_other k k' v d :
  k' <> k -> dict_get k' (dict_set k v d) = dict_get k' d.
Proof.
  intros Hne. induction d as [|[k0 v0] d IH]; simpl.
  - apply String.eqb_neq in Hne. rewrite String.eqb_sym in Hne. now rewrite Hne.
  - destruct (String.eqb k0 k) eqn:E; simpl.
    + apply String.eqb_eq in E; subst k0.
      apply String.eqb_neq in Hne. rewrite String.eqb_sym in Hne. now rewrite Hne.
    + now rewrite IH.
Qed.

(** Re-stating a key overwrites: only the last value remains. *)
Lemma dict_set_overwrites k v1 v2 d :
  dict_set k v2 (dict_set k v1 d) = dict_set k v2 d.
Proof.
  induction d as [|[k' v'] d IH]; simpl.
  - now rewrite String.eqb_refl.
  - destruct (String.eqb k' k) eqn:E; simpl; rewrite E; [reflexivity|].
    now rewrite IH.
Qed.

Lemma dict_set_same_value k v d : dict_get k d = Some v -> dict_set k v d = d.
Proof.
  induction d as [|[k' v'] d IH]; simpl; [discriminate|].
  destruct (String.eqb k' k) eqn:E.
  - now intros [= ->].
  - intros H. now rewrite IH.
Qed.

Lemma dict_keys_set_present k v d :
  dict_mem k d = true -> dict_keys (dict_set k v d) = dict_keys d.
Proof.
  unfold dict_mem, dict_keys.
  induction d as [|[k' v'] d IH]; simpl; [discriminate|].
  destruct (String.eqb k' k) eqn:E; simpl; [reflexivity|].
  intros H. now rewrite IH.
Qed.

Lemma dict_keys_set_absent k v d :
  dict_mem k d = false -> dict_keys (dict_set k v d) = (dict_keys d ++ [k])%list.
Proof.
  unfold dict_mem, dict_keys.
  induction d as [|[k' v'] d IH]; simpl; [reflexivity|].
  destruct (String.eqb k' k) eqn:E; simpl; [discriminate|].
  intros H. now rewrite IH.
Qed.

Lemma dict_mem_set k k' v d :
  dict_mem k' (dict_set k v d) = String.eqb k k' || dict_mem k' d.
Proof.
  unfold dict_mem. destruct (String.eqb_spec k k') as [->|Hne].
  - now rewrite dict_get_set_same.
  - rewrite dict_get_set_other by congruence. reflexivity.
Qed.

Lemma dict_get_in_keys k d :
  dict_mem k d = true <-> In k (dict_keys d).
Proof.
  unfold dict_mem, dict_keys.
  induction d as [|[k' v'] d IH]; simpl; [split; [discriminate | tauto]|].
  destruct (String.eqb_spec k' k) as [->|Hne]; [tauto|].
  rewrite IH. split; [tauto | intros [H|H]; [congruence | exact H]].
Qed.

Lemma dict_set_keeps_nodup k v d :
  NoDup (dict_keys d) -> NoDup (dict_keys (dict_set k v d)).
Proof.
  intros Hnd. destruct (dict_mem k d) eqn:E.
  - now rewrite dict_keys_set_present.
  - rewrite dict_keys_set_absent by assumption.
    apply NoDup_app; [assumption | repeat constructor; simpl; tauto |].
    intros x Hx [<-|[]]. apply dict_get_in_keys in Hx. congruence.
Qed.

(** Two dicts with the same keys in the same order, none repeated, and the
    same value for every key are equal. *)
Lemma dict_ext d1 d2 :
  NoDup (dict_keys d1) -> dict_keys d1 = dict_keys d2 ->
  (forall k, dict_get k d1 = dict_get k d2) -> d1 = d2.
Proof.
  unfold dict_keys. revert d2.
  induction d1 as [|[k1 v1] d1 IH]; intros [|[k2 v2] d2] Hnd Hk Hg;
    simpl in *; try discriminate; [reflexivity|].
  injection Hk as Hk1 Hk2. subst k2.
  inversion Hnd as [|x l Hnotin Hnd']; subst.
  pose proof (Hg k1) as Hv. simpl in Hv. rewrite String.eqb_refl in Hv.
  injection Hv as Hv. subst v2. f_equal.
  apply IH; auto.
  intros k. specialize (Hg k). simpl in Hg.
  destruct (String.eqb_spec k1 k) as [->|Hne]; [|exact Hg].
  assert (Hn1 : dict_get k d1 = None).
  { destruct (dict_get k d1) eqn:E; [|reflexivity].
    exfalso. apply Hnotin. apply (proj1 (dict_get_in_keys k d1)).
    unfold dict_mem. now rewrite E. }
  assert (Hn2 : dict_get k d2 = None).
  { destruct (dict_get k d2) eqn:E; [|reflexivity].
    exfalso. apply Hnotin. rewrite Hk2. apply (proj1 (dict_get_in_keys k d2)).
    unfold dict_mem. now rewrite E. }
  congruence.
Qed.

End Dict.

(** ** What [extract_financial_info] writes *)

Ltac break_match :=
  repeat match goal with
         | |- context [match ?x with _ => _ end] => destruct x eqn:?
         end.

Lemma set_same (st : State) :
  set_user_data (user_data st) st = st
  /\ set_expenses (expenses st) st = st
  /\ set_user_name (user_name st) st = st.
Proof. destruct st; repeat split; reflexivity. Qed.

Lemma extract_income_eq (text : string) (st : State) :
  extract_income text st
  = set_user_data (income_update text (user_data st)) st.
Proof.
  unfold extract_income, income_update.
  destruct (re_search true income_pattern text) as [m|];
    [destruct (amount_of m)|]; try reflexivity;
    symmetry; apply set_same.
Qed.

Lemma extract_savings_eq (text : string) (st : State) :
  extract_savings text st
  = set_user_data (savings_update text (user_data st)) st.
Proof.
  unfold extract_savings, savings_update.
  destruct (first_goal savings_patterns text); try reflexivity.
  symmetry; apply set_same.
Qed.

Lemma extract_name_eq (text : string) (st : State) :
  extract_name text st = set_user_name (name_update text (user_name st)) st.
Proof.
  unfold extract_name, name_update.
  destruct (truthy (user_name st)); [symmetry; apply set_same|].
  destruct (first_name user_name_patterns text); try reflexivity.
  symmetry; apply set_same.
Qed.

Lemma extract_record (text : string) (st : State) :
  extract_financial_info text st
  = {| model := model st;
       user_data := savings_update text (income_update text (user_data st));
       expenses := ledger_update text (expenses st);
       conversation_history := conversation_history st;
       user_name := name_update text (user_name st);
       last_greeting_time := last_greeting_time st |}.
Proof.
  unfold extract_financial_info.
  rewrite extract_name_eq, extract_savings_eq, extract_income_eq.
  destruct st; reflexivity.
Qed.

Lemma extract_expenses_field (text : string) (st : State) :
  expenses (extract_financial_info text st)
  = fold_left record_expense (re_finditer true expense_pattern text)
              (expenses st).
Proof. now rewrite extract_record. Qed.

Lemma extract_frame (text : string) (st : State) :
  model (extract_financial_info text st) = model st
  /\ conversation_history (extract_financial_info text st)
     = conversation_history st
  /\ last_greeting_time (extract_financial_info text st)
     = last_greeting_time st.
Proof. rewrite extract_record. repeat split. Qed.

(** The value the ledger holds for a key after the loop over the matches:
    the amount of the last match on that key, or what it held before. *)
Lemma fold_record_get (k : string) (ms : list Match) :
  forall d,
    dict_get k (fold_left record_expense ms d)
    = match last_amount k ms with
      | Some a => Some a
      | None => dict_get k d
      end.
Proof.
  induction ms as [|m ms IH]; intros d; simpl; [reflexivity|].
  rewrite IH. destruct (last_amount k ms) as [a|]; [reflexivity|].
  unfold record_expense.
  destruct (String.eqb_spec (category_of m) k) as [<-|Hne].
  - destruct (amount_of m) as [a|]; [|reflexivity].
    apply dict_get_set_same.
  - destruct (amount_of m) as [a|]; [|reflexivity].
    apply dict_get_set_other. congruence.
Qed.

Lemma last_amount_none (k : string) (ms : list Match) :
  (forall m, In m ms -> category_of m <> k) -> last_amount k ms = None.
Proof.
  induction ms as [|m ms IH]; intros H; simpl; [reflexivity|].
  rewrite IH by (intros m' Hm'; apply H; now right).
  destruct (String.eqb_spec (category_of m) k) as [E|_]; [|reflexivity].
  exfalso. apply (H m); [now left | exact E].
Qed.

Lemma last_amount_app (k : string) (ms1 ms2 : list Match) :
  last_amount k (ms1 ++ ms2)
  = match last_amount k ms2 with
    | Some a => Some a
    | None => last_amount k ms1
    end.
Proof.
  induction ms1 as [|m ms1 IH]; simpl.
  - now destruct (last_amount k ms2).
  - rewrite IH. now destruct (last_amount k ms2).
Qed.

(** ** The iteration over the matches is complete

    The fuel of [finditer_from] never runs out on a subject shorter than it:
    the iteration stops only when the scan of what is left finds nothing. *)

Section Finditer.

Variable ic : bool.
Variable n0 : nat.
Variable r : regex.

Lemma search_from_rest (pos : nat) (t : string) (m : Match) :
  search_from ic n0 r pos t = Some m ->
  (String.length (m_text m) + String.length (m_rest m) <= String.length t)%nat.
Proof.
  intros H. apply search_from_sound in H. destruct H as (pre & Ht & _ & _).
  apply (f_equal String.length) in Ht. rewrite !length_append in Ht. lia.
Qed.

Lemma finditer_fuel :
  forall fuel1 fuel2 pos t,
    (String.length t < fuel1)%nat -> (String.length t < fuel2)%nat ->
    finditer_from ic n0 fuel1 r pos t = finditer_from ic n0 fuel2 r pos t.
Proof.
  induction fuel1 as [|fuel1 IH]; intros [|fuel2] pos t H1 H2; try lia.
  simpl. destruct (search_from ic n0 r pos t) as [m|] eqn:E; [|reflexivity].
  f_equal. apply search_from_rest in E.
  destruct (m_text m) as [|c x] eqn:Ex; destruct (m_rest m) as [|c' y] eqn:Ey;
    simpl in E; try reflexivity; apply IH; simpl; lia.
Qed.

Lemma finditer_from_S (fuel pos : nat) (t : string) :
  finditer_from ic n0 (S fuel) r pos t
  = match search_from ic n0 r pos t with
    | None => []
    | Some m =>
        m :: match m_text m, m_rest m with
             | "", "" => []
             | "", String _ t' => finditer_from ic n0 fuel r (S (m_start m)) t'
             | _, t' =>
                 finditer_from ic n0 fuel r
                   (m_start m + String.length (m_text m)) t'
             end
    end.
Proof. reflexivity. Qed.

(** The unfolding of [re.finditer] on what is left of the subject. *)
Lemma finditer_unfold (pos : nat) (t : string) :
  finditer_from ic n0 (S (String.length t)) r pos t
  = match search_from ic n0 r pos t with
    | None => []
    | Some m =>
        m :: match m_text m, m_rest m with
             | "", "" => []
             | "", String _ t' =>
                 finditer_from ic n0 (S (String.length t')) r (S (m_start m)) t'
             | _, t' =>
                 finditer_from ic n0 (S (String.length t')) r
                   (m_start m + String.length (m_text m)) t'
             end
    end.
Proof.
  rewrite finditer_from_S.
  destruct (search_from ic n0 r pos t) as [m|] eqn:E; [|reflexivity].
  f_equal. apply search_from_rest in E.
  destruct (m_text m) as [|c x] eqn:Ex; destruct (m_rest m) as [|c' y] eqn:Ey;
    simpl in E; try reflexivity; apply finditer_fuel; simpl; lia.
Qed.

End Finditer.

Lemma extraction_records_matches (text : string) (st : State) :
  let ms := re_finditer true expense_pattern text in
  let ledger := expenses (extract_financial_info text st) in
  ledger
  = fold_left (fun d m =>
                 match amount_of m with
                 | Some amount => dict_set (category_of m) amount d
                 | None => d
                 end) ms (expenses st)
  /\ (forall m, In m ms ->
        exists amount,
          float_of_string (remove_char "," (group m 1)) = Some amount
          /\ dict_mem (lower (strip (group m 2))) ledger = true)
  /\ (forall ms1 m ms2,
        ms = (ms1 ++ m :: ms2)%list ->
        (forall m', In m' ms2 -> category_of m' <> category_of m) ->
        dict_get (category_of m) ledger = amount_of m)
  /\ (forall k, (forall m, In m ms -> category_of m <> k) ->
        dict_get k ledger = dict_get k (expenses st)).
Proof.
  intros ms ledger. subst ledger. rewrite extract_expenses_field. fold ms.
  split; [reflexivity|].
  assert (Hlast : forall ms1 m ms2,
             ms = (ms1 ++ m :: ms2)%list ->
             (forall m', In m' ms2 -> category_of m' <> category_of m) ->
             dict_get (category_of m) (fold_left record_expense ms (expenses st))
             = amount_of m).
  { intros ms1 m ms2 Hms Hlater.
    assert (Hin : In m ms) by (rewrite Hms; apply in_or_app; right; now left).
    destruct (expense_match_converts _ _ Hin) as [a Ha].
    rewrite fold_record_get, Hms, last_amount_app. simpl.
    rewrite (last_amount_none _ Hlater), String.eqb_refl, Ha. reflexivity. }
  split; [|split].
  - intros m Hin.
    destruct (expense_match_converts _ _ Hin) as [a Ha].
    exists a. split; [exact Ha|].
    change (lower (strip (group m 2))) with (category_of m).
    unfold dict_mem. rewrite fold_record_get.
    destruct (last_amount (category_of m) ms) as [a'|] eqn:E; [reflexivity|].
    exfalso. clear Hlast. revert E. clear -Hin Ha.
    induction ms as [|m0 ms0 IH]; [contradiction|]. simpl.
    destruct (last_amount (category_of m) ms0) as [a'|] eqn:E0; [discriminate|].
    destruct Hin as [->|Hin].
    + rewrite String.eqb_refl, Ha. discriminate.
    + intros _. now apply IH.
  - exact Hlast.
  - intros k Hk. rewrite fold_record_get, (last_amount_none _ Hk). reflexivity.
Qed.


(** ** A well-formed expense phrase is matched whole *)

Section Phrase.

Variable n0 : nat.

Lemma rmatch_cls_cons items c t g k :
  rmatch true n0 (Cls items) (String c t) g k
  = if in_class true items c then k t g else None.
Proof. reflexivity. Qed.

Lemma rmatch_cls_nil items g k : rmatch true n0 (Cls items) "" g k = None.
Proof. reflexivity. Qed.

Lemma star_cls_greedy (items : list citem) (w : string) :
  forall t' g k res,
    all_chars (in_class true items) w = true ->
    match t' with
    | String c _ => in_class true items c = false
    | "" => True
    end ->
    k t' g = Some res ->
    rmatch true n0 (Star (Cls items)) (w ++ t') g k = Some res.
Proof.
  induction w as [|c w IH]; intros t' g k res Hw Ht Hk.
  - change ("" ++ t') with t'. rewrite rmatch_star.
    destruct t' as [|c t'].
    + now rewrite rmatch_cls_nil, Hk.
    + now rewrite rmatch_cls_cons, Ht, Hk.
  - simpl in Hw. apply andb_prop in Hw. destruct Hw as [Hc Hw].
    change (String c w ++ t') with (String c (w ++ t')).
    rewrite rmatch_star, rmatch_cls_cons, Hc.
    assert (E : (String.length (w ++ t') <? String.length (String c (w ++ t')))%nat = true)
      by (apply Nat.ltb_lt; simpl; lia).
    rewrite E. now rewrite (IH t' g k res Hw Ht Hk).
Qed.

Lemma digit_not_space (c : ascii) : is_digit c = true -> is_space c = false.
Proof.
  destruct c as [[] [] [] [] [] [] [] []]; vm_compute;
    intros H; try discriminate H; reflexivity.
Qed.

Lemma alpha_not_space (c : ascii) : is_alpha c = true -> is_space c = false.
Proof.
  destruct c as [[] [] [] [] [] [] [] []]; vm_compute;
    intros H; try discriminate H; reflexivity.
Qed.

Lemma alpha_in_category_class (c : ascii) :
  is_alpha c = true ->
  in_class true [Range "a" "z"; Range "A" "Z"; EscS] c = true.
Proof.
  destruct c as [[] [] [] [] [] [] [] []]; vm_compute;
    intros H; try discriminate H; reflexivity.
Qed.

Lemma digit_in_class (c : ascii) :
  is_digit c = true -> in_class true [EscD] c = true.
Proof. intros H. unfold in_class. simpl. now rewrite H. Qed.

Lemma no_currency_before_digit (c : ascii) (rest : string) (g : caps)
      (k : string -> caps -> option (string * caps)) :
  is_digit c = true ->
  rmatch true n0 (Alt (Cat (Lit "rs") (Opt (Lit "."))) (Lit "₹")) (String c rest) g k
  = None.
Proof.
  destruct c as [[] [] [] [] [] [] [] []]; vm_compute;
    intros H; try discriminate H; reflexivity.
Qed.

Lemma star_cls_run (items : list citem) (w : string) :
  forall fuel t' g k res,
    all_chars (in_class true items) w = true ->
    match t' with
    | String c _ => in_class true items c = false
    | "" => True
    end ->
    String.length (w ++ t') <= fuel ->
    k t' g = Some res ->
    star_loop (rmatch true n0 (Cls items)) k fuel (w ++ t') g = Some res.
Proof.
  intros fuel t' g k res Hw Ht Hf Hk.
  rewrite (@star_loop_fuel true n0 (Cls items) k fuel
             (String.length (w ++ t')) (w ++ t') g Hf (le_n _)).
  now apply star_cls_greedy.
Qed.

Lemma rmatch_cat r1 r2 t g k :
  rmatch true n0 (Cat r1 r2) t g k
  = rmatch true n0 r1 t g (fun t1 g1 => rmatch true n0 r2 t1 g1 k).
Proof. reflexivity. Qed.

Lemma rmatch_alt_l r1 r2 t g k res :
  rmatch true n0 r1 t g k = Some res ->
  rmatch true n0 (Alt r1 r2) t g k = Some res.
Proof. intros H. cbn [rmatch]. now rewrite H. Qed.

Lemma rmatch_alt_r r1 r2 t g k :
  rmatch true n0 r1 t g k = None ->
  rmatch true n0 (Alt r1 r2) t g k = rmatch true n0 r2 t g k.
Proof. intros H. cbn [rmatch]. now rewrite H. Qed.

Lemma rmatch_lit l t t' g k :
  lit_rest true l t = Some t' -> rmatch true n0 (Lit l) t g k = k t' g.
Proof. intros H. cbn [rmatch]. now rewrite H. Qed.

Lemma rmatch_eps t g k : rmatch true n0 Eps t g k = k t g.
Proof. reflexivity. Qed.

Lemma rmatch_grp n r t g k :
  rmatch true n0 (Grp n r) t g k
  = rmatch true n0 r t g
      (fun t1 g1 =>
         k t1 ((n, take (String.length t - String.length t1) t) :: g1)).
Proof. reflexivity. Qed.

Lemma rmatch_star_stop r t g k :
  (forall k', rmatch true n0 r t g k' = None) ->
  rmatch true n0 (Star r) t g k = k t g.
Proof. intros H. now rewrite rmatch_star, H. Qed.

Lemma star_cls_stop (items : list citem) t g k res :
  match t with
  | String c _ => in_class true items c = false
  | "" => True
  end ->
  k t g = Some res ->
  rmatch true n0 (Star (Cls items)) t g k = Some res.
Proof. intros Ht Hk. now apply (star_cls_greedy items "" t g k). Qed.

Lemma plus_cls_run (items : list citem) (c : ascii) (w t' : string) g k res :
  in_class true items c = true ->
  all_chars (in_class true items) w = true ->
  match t' with
  | String c' _ => in_class true items c' = false
  | "" => True
  end ->
  k t' g = Some res ->
  rmatch true n0 (Plus (Cls items)) (String c (w ++ t')) g k = Some res.
Proof.
  intros Hc Hw Ht Hk. unfold Plus.
  rewrite rmatch_cat, rmatch_cls_cons, Hc. now apply star_cls_greedy.
Qed.

Lemma plus_cls_all (items : list citem) (c : ascii) (w : string) g k res :
  in_class true items c = true ->
  all_chars (in_class true items) w = true ->
  k "" g = Some res ->
  rmatch true n0 (Plus (Cls items)) (String c w) g k = Some res.
Proof.
  intros Hc Hw Hk. rewrite <- (append_nil_r w).
  now apply plus_cls_run.
Qed.

Lemma take_all (t : string) : take (String.length t - String.length "") t = t.
Proof.
  simpl. rewrite Nat.sub_0_r. rewrite <- (append_nil_r t) at 2.
  apply take_append.
Qed.

Lemma digits_in_class (w : string) :
  all_chars is_digit w = true -> all_chars (in_class true [EscD]) w = true.
Proof. apply all_chars_weaken, digit_in_class. Qed.

Lemma letters_in_class (w : string) :
  all_chars is_alpha w = true ->
  all_chars (in_class true [Range "a" "z"; Range "A" "Z"; EscS]) w = true.
Proof. apply all_chars_weaken, alpha_in_category_class. Qed.

Ltac pick_alternative :=
  repeat (rewrite rmatch_alt_r by reflexivity);
  try apply rmatch_alt_l;
  erewrite rmatch_lit by reflexivity; cbv beta.

Ltac one_space :=
  apply (plus_cls_run [EscS] " " "" _); [reflexivity | reflexivity | | ];
  cbv beta.

(** The expense pattern on a phrase "<verb> <digits> <preposition>
    <letters>" that ends the subject: it matches the whole phrase, the
    digits in group 1 and the letters in group 2. *)
Lemma expense_phrase_match (verb prep : string) (d l : ascii) (a' c' : string) :
  In verb spend_verbs -> In prep expense_prepositions ->
  is_digit d = true -> all_chars is_digit a' = true ->
  is_alpha l = true -> all_chars is_alpha c' = true ->
  rmatch true n0 expense_pattern
         (verb ++ " " ++ String d a' ++ " " ++ prep ++ " " ++ String l c') []
         (fun t g => Some (t, g))
  = Some ("", [(2, String l c'); (1, String d a')]).
Proof.
  intros Hv Hp Hd Ha Hl Hc.
  unfold expense_pattern, currency_amount, amount_digits.
  unfold spend_verbs in *. unfold expense_prepositions in *.
  cbn [seq alts].
  repeat (destruct Hv as [<-|Hv]); try contradiction;
    repeat (destruct Hp as [<-|Hp]); try contradiction;
    (rewrite rmatch_cat; pick_alternative;
     rewrite rmatch_cat; one_space;
     [simpl; now rewrite (digit_not_space _ Hd)|];
     rewrite !rmatch_cat; unfold Opt at 1;
     rewrite rmatch_alt_r by (apply no_currency_before_digit; exact Hd);
     rewrite rmatch_eps; cbv beta; rewrite rmatch_cat;
     apply star_cls_stop; [simpl; now rewrite (digit_not_space _ Hd)|];
     cbv beta; rewrite rmatch_grp, !rmatch_cat;
     apply (plus_cls_run [EscD] d a' _);
     [now apply digit_in_class | now apply digits_in_class | reflexivity |];
     cbv beta; rewrite rmatch_cat;
     rewrite rmatch_star_stop by (intros; reflexivity); cbv beta;
     unfold Opt; rewrite rmatch_alt_r by reflexivity; rewrite rmatch_eps;
     cbv beta; rewrite rmatch_cat; one_space; [reflexivity|];
     rewrite rmatch_cat; pick_alternative;
     rewrite rmatch_cat; one_space;
     [simpl; now rewrite (alpha_not_space _ Hl)|];
     rewrite rmatch_grp;
     apply plus_cls_all;
     [now apply alpha_in_category_class | now apply letters_in_class |];
     rewrite take_all; do 5 f_equal;
     match goal with
     | |- take (_ - String.length ?b) _ = ?a => exact (take_suffix a b)
     end).
Qed.

Lemma search_from_skip (r : regex) (pos : nat) (c : ascii) (t : string) :
  rmatch true n0 r (String c t) [] (fun t' g => Some (t', g)) = None ->
  search_from true n0 r pos (String c t) = search_from true n0 r (S pos) t.
Proof. intros H. rewrite search_from_eq, H. reflexivity. Qed.

Lemma search_from_hit (r : regex) (pos : nat) (t : string) (g : caps) :
  rmatch true n0 r t [] (fun t' g => Some (t', g)) = Some ("", g) ->
  search_from true n0 r pos t
  = Some {| m_start := pos; m_text := t; m_rest := ""; m_groups := g |}.
Proof. intros H. rewrite search_from_eq, H, take_all. reflexivity. Qed.

Lemma finditer_expense_done (fuel pos : nat) :
  finditer_from true n0 fuel expense_pattern pos "" = [].
Proof. destruct fuel; reflexivity. Qed.

End Phrase.

Lemma rstrip_letters (c : string) :
  all_chars is_alpha c = true -> rstrip c = c.
Proof.
  induction c as [|x c IH]; simpl; [reflexivity|].
  intros H. apply andb_prop in H. destruct H as [Hx Hc].
  rewrite (IH Hc). destruct c; [|reflexivity].
  now rewrite (alpha_not_space _ Hx).
Qed.

Lemma strip_letters (c : string) :
  all_chars is_alpha c = true -> strip c = c.
Proof.
  intros H. unfold strip. rewrite (rstrip_letters _ H).
  destruct c as [|x c]; [reflexivity|]. simpl in *.
  apply andb_prop in H. destruct H as [Hx _].
  now rewrite (alpha_not_space _ Hx).
Qed.

(** The matches of the expense pattern in "I <verb> <digits> <preposition>
    <letters>": one, its groups the digits and the letters. *)
Lemma expense_phrase_matches (verb prep amount category : string) :
  In verb spend_verbs -> In prep expense_prepositions ->
  amount <> "" -> all_chars is_digit amount = true ->
  category <> "" -> all_chars is_alpha category = true ->
  exists m,
    re_finditer true expense_pattern
      ("I " ++ verb ++ " " ++ amount ++ " " ++ prep ++ " " ++ category)
    = [m]
    /\ group m 1 = amount /\ group m 2 = category.
Proof.
  intros Hv Hp Hna Ha Hnc Hc.
  destruct amount as [|d a']; [congruence|].
  destruct category as [|l c']; [congruence|].
  simpl in Ha, Hc. apply andb_prop in Ha. apply andb_prop in Hc.
  destruct Ha as [Hd Ha]. destruct Hc as [Hl Hc].
  unfold re_finditer.
  set (phrase := verb ++ " " ++ String d a' ++ " " ++ prep ++ " " ++ String l c').
  set (n0 := String.length ("I " ++ phrase)).
  pose proof (@expense_phrase_match n0 verb prep d l a' c' Hv Hp Hd Ha Hl Hc)
    as Hm. fold phrase in Hm.
  rewrite finditer_from_S.
  change ("I " ++ phrase) with (String "I" (String " " phrase)).
  rewrite search_from_skip by reflexivity.
  rewrite search_from_skip by reflexivity.
  rewrite (@search_from_hit n0 expense_pattern 2 phrase _ Hm).
  cbn [m_text m_rest m_start].
  assert (Hp' : exists x y, phrase = String x y).
  { subst phrase. unfold spend_verbs in Hv.
    repeat (destruct Hv as [<-|Hv]); try contradiction; eexists _, _;
      reflexivity. }
  destruct Hp' as (x & y & ->).
  rewrite finditer_expense_done.
  eexists. split; [reflexivity|]. split; reflexivity.
Qed.

(** For every spend verb, preposition, amount written in digits and category
    written in letters, "I <verb> <amount> <preposition> <category>" sets
    the ledger entry of the lower-cased category to the amount. *)
Lemma expense_phrase_recorded
      (verb prep amount category : string) (st : State) :
  In verb spend_verbs -> In prep expense_prepositions ->
  amount <> "" -> all_chars is_digit amount = true ->
  category <> "" -> all_chars is_alpha category = true ->
  exists v,
    float_of_string amount = Some v
    /\ expenses
         (extract_financial_info
            ("I " ++ verb ++ " " ++ amount ++ " " ++ prep ++ " " ++ category)
            st)
       = dict_set (lower category) v (expenses st).
Proof.
  intros Hv Hp Hna Ha Hnc Hc.
  destruct (@expense_phrase_matches verb prep amount category Hv Hp Hna Ha Hnc Hc)
    as (m & Hms & H1 & H2).
  destruct (@float_of_digits amount Ha Hna) as [v Hf].
  exists v. split; [exact Hf|].
  rewrite extract_expenses_field, Hms. cbn [fold_left].
  unfold record_expense, amount_of, category_of.
  rewrite H1, H2, (@remove_comma_digits amount Ha), Hf,
    (@strip_letters category Hc).
  reflexivity.
Qed.


(** Every spend verb with every preposition, with and without a currency
    marker, records the stated amount under the stated category. *)
Example every_verb_and_preposition_records :
  forallb
    (fun verb =>
       forallb
         (fun prep =>
            forallb
              (fun currency =>
                 match expenses
                         (extract_financial_info
                            ("I " ++ verb ++ " " ++ currency ++ "1,250.75 "
                                  ++ prep ++ " Pet Care")
                            (init false)) with
                 | [(k, Fin v)] => String.eqb k "pet care" && Qeq_bool v (5003 # 4)
                 | _ => false
                 end)
              [""; "rs"; "Rs. "; "₹"; "₹ "])
         expense_prepositions)
    spend_verbs
  = true.
Proof. vm_compute. reflexivity. Qed.

(** Two expenses in one utterance are both recorded, and a category stated
    twice keeps the later amount. *)
Example two_expenses_recorded :
  expenses (extract_financial_info
              "I spent 500 on food. Later I paid 1,300.50 for Rent"
              (init false))
  = [("food", Fin 500); ("rent", Fin (2601 # 2))]
  /\ expenses (extract_financial_info
                 "I spent 500 on food. Then I paid 700 for FOOD "
                 (init false))
     = [("food", Fin 700)].
Proof. vm_compute. split; reflexivity. Qed.

(** ** Extraction twice *)

Lemma income_update_idem (text : string) (ud : dict float) :
  income_update text (savings_update text (income_update text ud))
  = savings_update text (income_update text ud).
Proof.
  unfold income_update, savings_update.
  destruct (re_search true income_pattern text) as [m|]; [|reflexivity].
  destruct (amount_of m) as [v|]; [|reflexivity].
  apply dict_set_same_value.
  destruct (first_goal savings_patterns text) as [g|].
  - rewrite dict_get_set_other by discriminate. apply dict_get_set_same.
  - apply dict_get_set_same.
Qed.

Lemma savings_update_idem (text : string) (ud : dict float) :
  savings_update text (savings_update text ud) = savings_update text ud.
Proof.
  unfold savings_update.
  destruct (first_goal savings_patterns text) as [g|]; [|reflexivity].
  apply dict_set_overwrites.
Qed.

Lemma name_update_idem (text : string) (name : option string) :
  name_update text (name_update text name) = name_update text name.
Proof.
  unfold name_update. destruct (truthy name) eqn:E; [now rewrite E|].
  destruct (first_name user_name_patterns text) as [g|] eqn:F.
  - destruct (truthy (Some (capitalize g))); reflexivity.
  - now rewrite E.
Qed.

Lemma last_amount_some (m : Match) (a : float) (ms : list Match) :
  In m ms -> amount_of m = Some a -> last_amount (category_of m) ms <> None.
Proof.
  intros Hin Ha. induction ms as [|m0 ms IH]; [contradiction|]. simpl.
  destruct (last_amount (category_of m) ms) as [a'|] eqn:E0; [discriminate|].
  destruct Hin as [->|Hin].
  - rewrite String.eqb_refl, Ha. discriminate.
  - now apply IH in Hin.
Qed.

Lemma fold_record_keys_present (ms : list Match) :
  forall d,
    (forall m a, In m ms -> amount_of m = Some a ->
                 dict_mem (category_of m) d = true) ->
    dict_keys (fold_left record_expense ms d) = dict_keys d.
Proof.
  induction ms as [|m ms IH]; intros d H; simpl; [reflexivity|].
  assert (Hstep : dict_keys (record_expense d m) = dict_keys d).
  { unfold record_expense. destruct (amount_of m) as [a|] eqn:Ha; [|reflexivity].
    apply dict_keys_set_present. apply (H m a); [now left | exact Ha]. }
  rewrite IH; [exact Hstep|].
  intros m' a' Hin Ha'. unfold record_expense.
  destruct (amount_of m) as [a|]; [|apply (H m' a'); [now right | exact Ha']].
  rewrite dict_mem_set. rewrite (H m' a'); [apply orb_true_r | now right | exact Ha'].
Qed.

Lemma fold_record_nodup (ms : list Match) :
  forall d, NoDup (dict_keys d) ->
            NoDup (dict_keys (fold_left record_expense ms d)).
Proof.
  induction ms as [|m ms IH]; intros d H; simpl; [exact H|].
  apply IH. unfold record_expense.
  destruct (amount_of m); [now apply dict_set_keeps_nodup | exact H].
Qed.

(** Walking over the same matches a second time leaves the ledger as the
    first walk left it. *)
Lemma ledger_update_idem (text : string) (ledger : dict float) :
  NoDup (dict_keys ledger) ->
  ledger_update text (ledger_update text ledger) = ledger_update text ledger.
Proof.
  intros Hnd. unfold ledger_update.
  set (ms := re_finditer true expense_pattern text).
  assert (Hkeys : dict_keys (fold_left record_expense ms
                               (fold_left record_expense ms ledger))
                  = dict_keys (fold_left record_expense ms ledger)).
  { apply fold_record_keys_present. intros m a Hin Ha.
    unfold dict_mem. rewrite fold_record_get.
    pose proof (@last_amount_some m a ms Hin Ha) as Hl.
    destruct (last_amount (category_of m) ms); [reflexivity | congruence]. }
  apply dict_ext.
  - rewrite Hkeys. now apply fold_record_nodup.
  - exact Hkeys.
  - intros k. rewrite !fold_record_get.
    now destruct (last_amount k ms).
Qed.

Lemma extract_idempotent (text : string) (st : State) :
  NoDup (dict_keys (expenses st)) ->
  extract_financial_info text (extract_financial_info text st)
  = extract_financial_info text st.
Proof.
  intros Hnd. rewrite !extract_record. simpl.
  rewrite income_update_idem, savings_update_idem, name_update_idem.
  rewrite ledger_update_idem by exact Hnd. reflexivity.
Qed.

(** C8. Running the extraction twice in a row on the same utterance, from
    the fresh state of a new session, ends in exactly the state one run
    ends in: name, income, savings goal, ledger and everything else. *)
Theorem extraction_idempotent_on_fresh_state (text : string) (available : bool) :
  extract_financial_info text
    (extract_financial_info text (init available))
  = extract_financial_info text (init available).
Proof. apply extract_idempotent. simpl. constructor. Qed.

(** ** The dialog policy *)

Lemma choice_in (r : nat) (l : list string) : l <> [] -> In (choice r l) l.
Proof.
  intros Hne. unfold choice. apply nth_In.
  apply Nat.mod_upper_bound. destruct l; [congruence | discriminate].
Qed.

Lemma total_expenses_sum (st : State) :
  total_expenses st = sum (dict_values (expenses st)).
Proof. unfold total_expenses. now destruct (expenses st). Qed.

Lemma classify_eq (text : string) (st : State) :
  classify text st
  = if rename_attempt bot_aliases text then RenameAttempt
    else if asks_bot_name text then IdentityQuery
    else if existsb (fun p => matches p text) savings_patterns then SavingsGoal
    else if dict_mem "income" (user_data st)
            && (List.length (conversation_history st) <? 3)%nat
         then IncomeAck
    else if matches expense_pattern text then ExpenseStatement
    else if has_keyword analysis_keywords text
            && dict_mem "income" (user_data st)
         then BudgetAnalysis
    else Default.
Proof.
  unfold classify, priority. cbn [find applies].
  repeat match goal with
         | |- context [if ?c then _ else _] => destruct c
         end; reflexivity.
Qed.

Lemma savings_match_goal (text : string) :
  existsb (fun p => matches p text) savings_patterns = true ->
  exists goal, first_goal savings_patterns text = Some goal.
Proof.
  intros H. destruct (first_goal savings_patterns text) as [g|] eqn:E; [eauto|].
  apply savings_goal_iff_match in E. congruence.
Qed.

Lemma dict_mem_item (V : Type) (k : string) (d : dict V) :
  dict_mem k d = true -> exists v, dict_get k d = Some v /\ dict_item k d = Ok v.
Proof.
  unfold dict_mem, dict_item. destruct (dict_get k d) as [v|]; [eauto | discriminate].
Qed.

(** The reply of [generate_contextual_response] is rendered from the
    templates of the first category, in priority order, that applies. *)
Lemma response_follows_priority (rnd : nat -> nat) (text : string) (st : State) :
  rendered_from (classify text st) text st
                (snd (generate_contextual_response rnd text st)).
Proof.
  rewrite classify_eq. unfold generate_contextual_response.
  destruct (rename_attempt bot_aliases text); [reflexivity|].
  destruct (asks_bot_name text); [reflexivity|].
  destruct (existsb (fun p => matches p text) savings_patterns) eqn:S.
  { destruct (savings_match_goal _ S) as [goal ->]. cbn [snd rendered_from].
    exists (choice (rnd 0%nat) savings_goal_added), goal.
    split; [apply choice_in; discriminate | reflexivity]. }
  apply savings_goal_iff_match in S. rewrite S.
  destruct (dict_mem "income" (user_data st)
            && (List.length (conversation_history st) <? 3)%nat) eqn:I.
  { apply andb_prop in I. destruct I as [I _].
    destruct (dict_mem_item _ _ I) as (income & Hget & Hitem). cbn [snd rendered_from].
    exists (choice (rnd 0%nat) income_added), income.
    unfold income_reply. rewrite Hitem.
    repeat split; [apply choice_in; discriminate | exact Hget]. }
  unfold matches.
  destruct (re_search true expense_pattern text) as [m|] eqn:E.
  { assert (Ha : exists a, amount_of m = Some a)
      by (eapply search_amount_converts; [apply expense_amount_group | exact E]).
    destruct Ha as [amount Ha]. cbn [snd rendered_from].
    exists (choice (rnd 0%nat) expense_added), m, amount.
    unfold expense_reply. rewrite Ha, total_expenses_sum.
    split; [apply choice_in; discriminate|].
    split; [exact E|]. split; reflexivity. }
  destruct (has_keyword analysis_keywords text
            && dict_mem "income" (user_data st)) eqn:B.
  { apply andb_prop in B. destruct B as [_ B].
    destruct (dict_mem_item _ _ B) as (income & Hget & Hitem). cbn [snd rendered_from].
    exists rnd, income. unfold analysis_reply. rewrite Hitem.
    split; [exact Hget | reflexivity]. }
  cbn [snd rendered_from]. exists (choice (rnd 0%nat) general).
  split; [apply choice_in; discriminate|].
  unfold general_reply.
  destruct (user_name st) as [[|c n]|]; [left | right | left]; try reflexivity.
  exists c, n. split; reflexivity.
Qed.

(** C7, as the code has it.  The fallback policy takes the first category
    that applies in the order rename attempt, identity query, savings goal,
    income acknowledgment, expense, budget analysis, default, and the reply
    is rendered from that category's templates; so an utterance that
    matches both a savings-goal pattern and the expense pattern, and on
    which neither the rename rule nor the identity rule fires, is answered
    from the savings-goal templates. *)
Theorem savings_goal_precedes_expense
        (rnd : nat -> nat) (text : string) (st : State) :
  rendered_from (classify text st) text st
                (snd (generate_contextual_response rnd text st))
  /\ (applies text st SavingsGoal = true ->
      applies text st ExpenseStatement = true ->
      applies text st RenameAttempt = false ->
      applies text st IdentityQuery = false ->
      classify text st = SavingsGoal
      /\ exists template goal,
           In template savings_goal_added
           /\ snd (generate_contextual_response rnd text st)
              = format template [("goal", format_f true 0 goal)]).
Proof.
  split; [apply response_follows_priority|].
  cbn [applies]. intros S _ R A.
  assert (C : classify text st = SavingsGoal)
    by (rewrite classify_eq, R, A, S; reflexivity).
  split; [exact C|].
  pose proof (response_follows_priority rnd text st) as H.
  rewrite C in H. exact H.
Qed.

(** C7 as stated fails on an utterance that also renames the bot: both the
    savings-goal pattern and the expense pattern match, and the reply is
    the rename deflection, which no savings-goal template renders. *)
Lemma savings_and_expense_preempted_by_rename :
  let text := "you are Bob, I save 500 and spent 300 on food" in
  let st := init false in
  applies text st SavingsGoal = true
  /\ applies text st ExpenseStatement = true
  /\ snd (generate_contextual_response (fun _ => 0%nat) text st)
     = Ok rename_deflection
  /\ ~ rendered_from SavingsGoal text st
         (snd (generate_contextual_response (fun _ => 0%nat) text st)).
Proof.
  cbv zeta.
  assert (E : snd (generate_contextual_response
                     (fun _ => 0%nat)
                     "you are Bob, I save 500 and spent 300 on food"
                     (init false))
              = Ok rename_deflection) by (vm_compute; reflexivity).
  split; [vm_compute; reflexivity|].
  split; [vm_compute; reflexivity|].
  split; [exact E|].
  rewrite E. intros (template & goal & Hin & H).
  revert H. generalize (format_f true 0 goal). intros g H.
  destruct Hin as [<-|[<-|[]]]; cbv in H; discriminate H.
Qed.

Lemma savings_goal_precedes_expense_witness :
  classify "savings 500 and spent 300 on food" (init false) = SavingsGoal
  /\ exists template goal,
       In template savings_goal_added
       /\ snd (generate_contextual_response
                 (fun _ => 0%nat) "savings 500 and spent 300 on food"
                 (init false))
          = format template [("goal", format_f true 0 goal)].
Proof.
  apply (proj2 (savings_goal_precedes_expense
                  (fun _ => 0%nat) "savings 500 and spent 300 on food"
                  (init false))); vm_compute; reflexivity.
Defined.

(** ** What the fallback responder writes *)

Lemma respond_state (rnd : nat -> nat) (text : string) (st : State) :
  fst (generate_contextual_response rnd text st)
  = match classify text st, first_goal savings_patterns text with
    | SavingsGoal, Some goal =>
        set_user_data (dict_set "savings_goal" goal (user_data st)) st
    | _, _ => st
    end.
Proof.
  rewrite classify_eq. unfold generate_contextual_response.
  destruct (rename_attempt bot_aliases text); [reflexivity|].
  destruct (asks_bot_name text); [reflexivity|].
  destruct (existsb (fun p => matches p text) savings_patterns) eqn:S.
  { destruct (savings_match_goal _ S) as [goal ->]. reflexivity. }
  apply savings_goal_iff_match in S. rewrite S.
  destruct (dict_mem "income" (user_data st)
            && (List.length (conversation_history st) <? 3)%nat);
    [reflexivity|].
  unfold matches.
  destruct (re_search true expense_pattern text); [reflexivity|].
  destruct (has_keyword analysis_keywords text
            && dict_mem "income" (user_data st)); reflexivity.
Qed.

Lemma classify_savings_goal (text : string) (st : State) :
  classify text st = SavingsGoal ->
  exists goal, first_goal savings_patterns text = Some goal.
Proof.
  rewrite classify_eq. intros H. apply savings_match_goal.
  repeat match type of H with
         | (if ?c then _ else _) = _ => destruct c eqn:?
         end; try discriminate H; reflexivity.
Qed.

(** The attributes the responder never writes. *)
Lemma respond_frame (rnd : nat -> nat) (text : string) (st : State) :
  expenses (fst (generate_contextual_response rnd text st)) = expenses st
  /\ user_name (fst (generate_contextual_response rnd text st))
     = user_name st
  /\ dict_get "income"
              (user_data (fst (generate_contextual_response rnd text st)))
     = dict_get "income" (user_data st)
  /\ conversation_history (fst (generate_contextual_response rnd text st))
     = conversation_history st
  /\ last_greeting_time (fst (generate_contextual_response rnd text st))
     = last_greeting_time st
  /\ model (fst (generate_contextual_response rnd text st)) = model st.
Proof.
  rewrite respond_state.
  destruct (classify text st); try (repeat split; reflexivity).
  destruct (first_goal savings_patterns text) as [goal|];
    repeat split; try reflexivity.
  cbn [user_data set_user_data]. apply dict_get_set_other. discriminate.
Qed.

(** C9. [generate_contextual_response] never writes the expense ledger,
    the user name, the income, the history or the greeting time; it writes
    [self] only when the savings-goal category is the one selected, and
    then it overwrites the stored savings goal with the goal of the
    utterance.  So the total bound into an expense-recorded reply is the
    sum of the ledger as it stood when the responder was called: the
    expense the utterance states is not part of it, and it is not in the
    ledger after the call either, also when the call goes through the
    fallback branch of [get_ai_response]. *)
Theorem fallback_responder_frame (rnd : nat -> nat) (text : string) (st : State) :
  let st' := fst (generate_contextual_response rnd text st) in
  let reply := snd (generate_contextual_response rnd text st) in
  expenses st' = expenses st
  /\ user_name st' = user_name st
  /\ dict_get "income" (user_data st') = dict_get "income" (user_data st)
  /\ conversation_history st' = conversation_history st
  /\ last_greeting_time st' = last_greeting_time st
  /\ model st' = model st
  /\ (classify text st <> SavingsGoal -> st' = st)
  /\ (classify text st = SavingsGoal ->
      exists goal,
        first_goal savings_patterns text = Some goal
        /\ user_data st' = dict_set "savings_goal" goal (user_data st))
  /\ (classify text st = ExpenseStatement ->
      exists template m amount,
        In template expense_added
        /\ re_search true expense_pattern text = Some m
        /\ amount_of m = Some amount
        /\ reply = format template
                     [("amount", format_f true 0 amount);
                      ("category", category_of m);
                      ("total_expenses",
                       format_f true 0 (sum (dict_values (expenses st))))]
        /\ expenses st' = expenses st)
  /\ (forall remote,
        model st = false ->
        expenses (fst (get_ai_response rnd remote text st)) = expenses st).
Proof.
  cbv zeta.
  destruct (respond_frame rnd text st) as (He & Hn & Hi & Hh & Hl & Hm).
  repeat (split; [assumption|]).
  split; [|split; [|split]].
  - intros Hc. rewrite respond_state.
    destruct (classify text st); try reflexivity. congruence.
  - intros Hc. destruct (classify_savings_goal _ _ Hc) as [goal Hg].
    exists goal. rewrite respond_state, Hc, Hg. split; reflexivity.
  - intros Hc. pose proof (response_follows_priority rnd text st) as H.
    rewrite Hc in H. destruct H as (template & m & amount & H1 & H2 & H3 & H4).
    exists template, m, amount. repeat split; assumption.
  - intros remote Hmodel. unfold get_ai_response, fallback. rewrite Hmodel.
    destruct (generate_contextual_response rnd text st) as [st1 [r|e]];
      exact He.
Qed.

(** In a fresh local-only session the first stated expense is answered
    with a total of zero, and the ledger stays empty. *)
Example expense_reply_excludes_stated_expense :
  get_ai_response (fun _ => 1%nat) None "I spend 5000 on groceries" (init false)
  = (append_turn assistant
       "Added: ₹5,000 for groceries. Your total expenses are now ₹0."
       (init false),
     Ok "Added: ₹5,000 for groceries. Your total expenses are now ₹0.").
Proof. vm_compute. reflexivity. Qed.

(** ** The user name *)

Lemma name_update_truthy (text : string) (name : option string) :
  truthy name = true -> name_update text name = name.
Proof. unfold name_update. now intros ->. Qed.

Lemma process_name_truthy (text : string) (st : State) :
  truthy (user_name st) = true -> process_name text st = st.
Proof. unfold process_name. now intros ->. Qed.

Lemma respond_name (rnd : nat -> nat) (text : string) (st : State) :
  user_name (fst (generate_contextual_response rnd text st)) = user_name st.
Proof. apply (respond_frame rnd text st). Qed.

Lemma fallback_name (rnd : nat -> nat) (text : string) (st : State) :
  user_name (fst (fallback rnd text st)) = user_name st.
Proof.
  unfold fallback. pose proof (respond_name rnd text st) as H.
  destruct (generate_contextual_response rnd text st) as [st1 [r|e]];
    exact H.
Qed.

Lemma ask_name (rnd : nat -> nat) (remote : option string) (text : string)
      (st : State) :
  truthy (user_name st) = true ->
  user_name (fst (get_ai_response rnd remote text st)) = user_name st.
Proof.
  intros Ht. unfold get_ai_response.
  destruct (model st); [|apply fallback_name].
  destruct (rename_attempt bot_aliases_remote text); [reflexivity|].
  destruct (asks_bot_name text); [reflexivity|].
  destruct remote as [answer|].
  - cbn [fst]. rewrite extract_record. cbn [user_name].
    now apply name_update_truthy.
  - now rewrite fallback_name.
Qed.

Lemma greet_name (now : Z) (rnd : nat -> nat) (text : string) (st : State) :
  user_name (fst (handle_greeting now rnd text st)) = user_name st.
Proof.
  unfold handle_greeting.
  destruct (has_keyword greetings text); [|reflexivity].
  destruct (last_greeting_time st) as [last|]; [|reflexivity].
  destruct (300 <? seconds_of (now - last))%Z; reflexivity.
Qed.

(** No call of a session overwrites a name that is set. *)
Lemma step_keeps_name (st : State) (o : op) :
  truthy (user_name st) = true -> user_name (step st o) = user_name st.
Proof.
  intros Ht. destruct o as [text|rnd text|rnd remote text|rnd remote text|now rnd text];
    cbn [step].
  - rewrite extract_record. cbn [user_name]. now apply name_update_truthy.
  - apply respond_name.
  - now apply ask_name.
  - unfold process_input. rewrite (process_name_truthy _ _ Ht).
    now apply ask_name.
  - apply greet_name.
Qed.

Lemma session_keeps_name (ops : list op) :
  forall st, truthy (user_name st) = true ->
             user_name (session st ops) = user_name st.
Proof.
  unfold session. induction ops as [|o ops IH]; intros st Ht; [reflexivity|].
  cbn [fold_left]. pose proof (step_keeps_name st o Ht) as Hs.
  rewrite IH; [exact Hs | now rewrite Hs].
Qed.

(** [process_input] names the user by its own pattern, tried before
    [get_ai_response] is called; what it sets, [get_ai_response] keeps. *)
Lemma process_input_name
      (rnd : nat -> nat) (remote : option string) (text : string) (st : State) :
  truthy (user_name st) = false ->
  user_name (fst (process_input rnd remote text st))
  = match re_search false process_name_pattern (lower text) with
    | Some m => Some (title (group m 1))
    | None => user_name (fst (get_ai_response rnd remote text st))
    end.
Proof.
  intros Hf. unfold process_input, process_name. rewrite Hf.
  destruct (re_search false process_name_pattern (lower text)) as [m|] eqn:E;
    [|reflexivity].
  unfold re_search in E.
  destruct (@search_name_nonempty _ _ _ process_name_group _ _ _ E) as (c & n & Hg).
  rewrite ask_name; [reflexivity|].
  cbn [user_name set_user_name]. rewrite Hg. apply title_truthy.
Qed.

(** C4, as the code has it.  While the name is unset,
    [extract_financial_info] sets it to the capitalized word captured by
    the first pattern that matches, the patterns being tried in the order
    "my name is / I am / I'm <word>", "call me <word>", leading
    "I'm / I am <word>", and leaves it unset when none matches; a name set
    this way is never the empty string.  [process_input] has a pattern of
    its own, tried before [get_ai_response] is called and only while the
    name is unset: "my name is <word>" searched in the lower-cased
    utterance, the word title-cased; when it matches, that is the name,
    and otherwise the name is what [get_ai_response] leaves.  This rule is
    stated for ASCII utterances, in which the word is made of letters,
    digits and underscores.  Once the name is set, no later call of the
    session (extraction, fallback responder, [get_ai_response],
    [process_input], greeting handler) changes it. *)
Theorem user_name_set_once (text : string) (st : State) :
  (truthy (user_name st) = false ->
   user_name (extract_financial_info text st)
   = match re_search true my_name_is_pattern text with
     | Some m => Some (capitalize (group m 1))
     | None =>
         match re_search true call_me_pattern text with
         | Some m => Some (capitalize (group m 1))
         | None =>
             match re_search true leading_i_am_pattern text with
             | Some m => Some (capitalize (group m 1))
             | None => user_name st
             end
         end
     end)
  /\ (first_name user_name_patterns text <> None ->
      truthy (user_name (extract_financial_info text st)) = true)
  /\ (truthy (user_name st) = false -> isascii text = true ->
      forall rnd remote,
        user_name (fst (process_input rnd remote text st))
        = match re_search false process_name_pattern (lower text) with
          | Some m => Some (title (group m 1))
          | None => user_name (fst (get_ai_response rnd remote text st))
          end)
  /\ (truthy (user_name st) = true ->
      forall ops, user_name (session st ops) = user_name st).
Proof.
  split; [|split; [|split]].
  - intros Hf. rewrite extract_record. cbn [user_name].
    unfold name_update. rewrite Hf. unfold user_name_patterns.
    cbn [first_name].
    destruct (re_search true my_name_is_pattern text); [reflexivity|].
    destruct (re_search true call_me_pattern text); [reflexivity|].
    destruct (re_search true leading_i_am_pattern text); reflexivity.
  - intros Hm. rewrite extract_record. cbn [user_name]. unfold name_update.
    destruct (truthy (user_name st)) eqn:Ht; [exact Ht|].
    destruct (first_name user_name_patterns text) as [g|] eqn:Hg;
      [|congruence].
    destruct (first_name_nonempty _ _ user_name_group Hg) as (c & n & ->).
    reflexivity.
  - intros Hf _ rnd remote. now apply process_input_name.
  - intros Ht ops. now apply session_keeps_name.
Qed.

Lemma user_name_set_once_witness :
  let st := extract_financial_info "Hi, my name is bob" (init true) in
  user_name st = Some "Bob"
  /\ user_name
       (session st
          [Extract "call me Al";
           Process (fun _ => 0%nat) (Some "Nice to meet you") "my name is carl";
           Ask (fun _ => 0%nat) None "I am Dora and I spend 20 on tea"])
     = Some "Bob"
  /\ user_name
       (fst (process_input (fun _ => 0%nat) (Some "Nice to meet you")
                           "Hello, my name is carl_2" (init true)))
     = Some "Carl_2".
Proof.
  cbv zeta. split; [vm_compute; reflexivity|]. split.
  - rewrite (proj2 (proj2 (proj2 (user_name_set_once
                             "" (extract_financial_info "Hi, my name is bob"
                                                        (init true)))))
               eq_refl).
    vm_compute. reflexivity.
  - rewrite (proj1 (proj2 (proj2 (user_name_set_once
                             "Hello, my name is carl_2" (init true))))
               eq_refl eq_refl).
    vm_compute. reflexivity.
Defined.

(** C4 as stated fails for [process_input]: on "my name is r2d2" the three
    patterns capture "r" and the name would be "R", yet [process_input]
    stores "R2D2", the word of its own pattern in title case; and on
    "I am Dora, my name is carl" the first of the three patterns reads
    "Dora", yet [process_input] stores "Carl". *)
Lemma process_input_names_by_its_own_pattern :
  (isascii "my name is r2d2" = true
   /\ user_name (extract_financial_info "my name is r2d2" (init true))
      = Some "R"
   /\ forall rnd remote,
        user_name (fst (process_input rnd remote "my name is r2d2" (init true)))
        = Some "R2D2")
  /\ (isascii "I am Dora, my name is carl" = true
      /\ user_name (extract_financial_info "I am Dora, my name is carl"
                                           (init true))
         = Some "Dora"
      /\ forall rnd remote,
           user_name (fst (process_input rnd remote
                                         "I am Dora, my name is carl"
                                         (init true)))
           = Some "Carl").
Proof.
  split; (split; [reflexivity|]; split; [vm_compute; reflexivity|]);
    intros rnd remote; rewrite process_input_name by reflexivity;
    vm_compute; reflexivity.
Qed.

(** ** The greeting handler *)

Lemma drop_prefix_spec (p t r : string) :
  drop_prefix p t = Some r <-> t = p ++ r.
Proof.
  revert t. induction p as [|a p IH]; intros t; simpl.
  - split; [now intros [= ->] | now intros ->].
  - destruct t as [|b t]; [split; discriminate|].
    destruct (Ascii.eqb_spec a b) as [->|Hne].
    + rewrite IH. split; [now intros -> | now intros [= ->]].
    + split; [discriminate | intros [= E _]; congruence].
Qed.

(** [contains] is substring containment. *)
Lemma contains_spec (needle hay : string) :
  contains needle hay = true <-> exists a b, hay = a ++ needle ++ b.
Proof.
  induction hay as [|c hay IH]; simpl.
  - destruct (drop_prefix needle "") as [r|] eqn:E.
    + apply drop_prefix_spec in E. split; [|reflexivity].
      intros _. exists "", r. exact E.
    + split; [discriminate|]. intros (a & b & H).
      destruct a; [|discriminate]. simpl in H.
      apply drop_prefix_spec in H. congruence.
  - destruct (drop_prefix needle (String c hay)) as [r|] eqn:E.
    + apply drop_prefix_spec in E. split; [|reflexivity].
      intros _. exists "", r. exact E.
    + rewrite IH. split.
      * intros (a & b & ->). now exists (String c a), b.
      * intros (a & b & H). destruct a as [|x a].
        -- simpl in H. apply drop_prefix_spec in H. congruence.
        -- simpl in H. injection H as _ H. now exists a, b.
Qed.

Lemma has_keyword_spec (keywords : list string) (text : string) :
  has_keyword keywords text = true
  <-> exists k a b, In k keywords /\ lower text = a ++ k ++ b.
Proof.
  unfold has_keyword. rewrite existsb_exists. split.
  - intros (k & Hin & Hc). apply contains_spec in Hc.
    destruct Hc as (a & b & H). now exists k, a, b.
  - intros (k & a & b & Hin & H). exists k. split; [exact Hin|].
    apply contains_spec. now exists a, b.
Qed.

(** C10. The greeting handler answers, with an onboarding greeting or with
    the cooldown filler, exactly the utterances whose lower-cased text has
    one of "hi", "hello", "hey", "hola", "greetings" as a substring, at any
    place, also inside a longer word such as "this" or "okhey"; on every
    other utterance it returns [None] and leaves [self], the cooldown
    timestamp included, as it was. *)
Theorem greeting_tokens_are_substrings
        (now : Z) (rnd : nat -> nat) (text : string) (st : State) :
  ((exists token before after,
       In token ["hi"; "hello"; "hey"; "hola"; "greetings"]
       /\ lower text = before ++ token ++ after) ->
   exists reply,
     snd (handle_greeting now rnd text st) = Some reply
     /\ (reply = greeting_filler \/ In reply greeting_responses))
  /\ (~ (exists token before after,
           In token ["hi"; "hello"; "hey"; "hola"; "greetings"]
           /\ lower text = before ++ token ++ after) ->
      handle_greeting now rnd text st = (st, None))
  /\ snd (handle_greeting now rnd "Is this right?" st) <> None
  /\ snd (handle_greeting now rnd "okhey" st) <> None.
Proof.
  assert (Hreply :
            forall t, has_keyword greetings t = true ->
                      exists reply,
                        snd (handle_greeting now rnd t st) = Some reply
                        /\ (reply = greeting_filler
                            \/ In reply greeting_responses)).
  { intros t Hk. unfold handle_greeting. rewrite Hk.
    destruct (last_greeting_time st) as [last|].
    - destruct (300 <? seconds_of (now - last))%Z; cbn [snd].
      + eexists. split; [reflexivity|]. right. apply choice_in. discriminate.
      + eexists. split; [reflexivity|]. now left.
    - cbn [snd]. eexists. split; [reflexivity|].
      right. apply choice_in. discriminate. }
  split; [|split; [|split]].
  - intros H. apply Hreply. apply has_keyword_spec. exact H.
  - intros H. unfold handle_greeting.
    destruct (has_keyword greetings text) eqn:Hk; [|reflexivity].
    exfalso. apply H. apply has_keyword_spec. exact Hk.
  - destruct (Hreply "Is this right?" eq_refl) as (reply & -> & _). discriminate.
  - destruct (Hreply "okhey" eq_refl) as (reply & -> & _). discriminate.
Qed.

Lemma greeting_tokens_are_substrings_witness :
  exists reply,
    snd (handle_greeting 0 (fun _ => 0%nat) "Is THIS right?" (init false))
    = Some reply
    /\ (reply = greeting_filler \/ In reply greeting_responses).
Proof.
  apply (proj1 (greeting_tokens_are_substrings
                  0 (fun _ => 0%nat) "Is THIS right?" (init false))).
  exists "hi", "is t", "s right?". split; [now left | reflexivity].
Defined.

(** The cooldown test of the handler, for a clock that has moved forward by
    less than a day since the last greeting: up to 300 whole seconds the
    filler is returned and the timestamp stays, from 301 seconds on a full
    greeting is returned and the timestamp is reset. *)
Lemma greeting_cooldown_within_a_day
      (now last : Z) (rnd : nat -> nat) (text : string) (st : State) :
  has_keyword greetings text = true ->
  last_greeting_time st = Some last ->
  (0 <= now - last < 86400000000)%Z ->
  ((now - last < 301000000)%Z ->
   handle_greeting now rnd text st = (st, Some greeting_filler))
  /\ ((301000000 <= now - last)%Z ->
      handle_greeting now rnd text st
      = (set_last_greeting_time (Some now) st,
         Some (choice (rnd 0%nat) greeting_responses))).
Proof.
  intros Hk Hl Hrange. unfold handle_greeting. rewrite Hk, Hl.
  unfold seconds_of. rewrite Z.mod_small by lia.
  split; intros H.
  - assert (E : (300 <? (now - last) / 1000000)%Z = false).
    { apply Z.ltb_ge.
      assert ((now - last) / 1000000 < 301)%Z
        by (apply Z.div_lt_upper_bound; lia).
      lia. }
    now rewrite E.
  - assert (E : (300 <? (now - last) / 1000000)%Z = true).
    { apply Z.ltb_lt.
      assert (301 <= (now - last) / 1000000)%Z
        by (apply Z.div_le_lower_bound; lia).
      lia. }
    now rewrite E.
Qed.

(** Without a recorded greeting the handler greets in full and records the
    time. *)
Lemma first_greeting_is_full
      (now : Z) (rnd : nat -> nat) (text : string) (st : State) :
  has_keyword greetings text = true ->
  last_greeting_time st = None ->
  handle_greeting now rnd text st
  = (set_last_greeting_time (Some now) st,
     Some (choice (rnd 0%nat) greeting_responses)).
Proof. intros Hk Hl. unfold handle_greeting. now rewrite Hk, Hl. Qed.

(** C3, where the code departs from it: a greeting one day and ten seconds
    after the last one still gets the filler, and the timestamp is not
    reset, because the handler compares the [.seconds] field of the time
    difference (ten) and not its total of seconds; so does a greeting 300.5
    seconds after the last one. *)
Theorem greeting_after_a_day_is_suppressed :
  let st := fst (handle_greeting 0 (fun _ => 0%nat) "hello" (init false)) in
  last_greeting_time st = Some 0%Z
  /\ handle_greeting 86410000000 (fun _ => 0%nat) "hello" st
     = (st, Some greeting_filler)
  /\ handle_greeting 300500000 (fun _ => 0%nat) "hello" st
     = (st, Some greeting_filler).
Proof. vm_compute. repeat split. Qed.

(** ** The history and the fallback branch of [get_ai_response] *)

Lemma length_append_turn (r : role) (c : string) (st : State) :
  List.length (conversation_history (append_turn r c st))
  = S (List.length (conversation_history st)).
Proof.
  unfold append_turn. cbn [conversation_history set_conversation_history].
  rewrite length_app. simpl. lia.
Qed.

Lemma length_prune (h : list turn) :
  List.length (prune h)
  = if (10 <? List.length h)%nat then 5%nat else List.length h.
Proof.
  unfold prune. destruct (10 <? List.length h)%nat eqn:E; [|reflexivity].
  apply Nat.ltb_lt in E. rewrite length_skipn. lia.
Qed.

(** What a call of [get_ai_response] does to [self] when it goes through the
    local fallback, for want of a model: no user turn, no extraction; the
    assistant turn is the only addition to the history, and the ledger,
    the name and the income stay as they were. *)
Lemma local_fallback_effect
      (rnd : nat -> nat) (remote : option string) (text : string) (st : State) :
  model st = false ->
  expenses (fst (get_ai_response rnd remote text st)) = expenses st
  /\ user_name (fst (get_ai_response rnd remote text st)) = user_name st
  /\ dict_get "income" (user_data (fst (get_ai_response rnd remote text st)))
     = dict_get "income" (user_data st)
  /\ forall reply,
       snd (get_ai_response rnd remote text st) = Ok reply ->
       conversation_history (fst (get_ai_response rnd remote text st))
       = (conversation_history st
            ++ [{| turn_role := assistant; content := reply |}])%list.
Proof.
  intros Hm. unfold get_ai_response, fallback. rewrite Hm.
  destruct (respond_frame rnd text st) as (He & Hn & Hi & Hh & _).
  destruct (generate_contextual_response rnd text st) as [st1 [r|e]];
    cbn [fst snd] in *.
  - repeat split; try assumption.
    intros reply [= ->]. unfold append_turn.
    cbn [conversation_history set_conversation_history]. now rewrite Hh.
  - repeat split; try assumption. discriminate.
Qed.

(** C1, where the code departs from it: with no model the reply to "I spend
    5000 on groceries" is the expense acknowledgment, the history holds the
    assistant turn alone (no user turn) and the ledger is still empty,
    although extraction on that utterance records the expense. *)
Theorem fallback_reply_skips_user_turn_and_extraction :
  let text := "I spend 5000 on groceries" in
  let out := get_ai_response (fun _ => 0%nat) None text (init false) in
  snd out = Ok "📝 Got it! I've added ₹5,000 for groceries to your expenses."
  /\ conversation_history (fst out)
     = [{| turn_role := assistant;
           content := "📝 Got it! I've added ₹5,000 for groceries to your expenses." |}]
  /\ expenses (fst out) = []
  /\ expenses (extract_financial_info text (init false))
     = [("groceries", Fin 5000)].
Proof. vm_compute. repeat split. Qed.

(** The same when the model is there and [send_message] raises: the user
    turn has been appended, but the [except] clause does not extract. *)
Example remote_failure_skips_extraction :
  let text := "I spend 5000 on groceries" in
  let out := get_ai_response (fun _ => 0%nat) None text (init true) in
  conversation_history (fst out)
  = [{| turn_role := user; content := text |};
     {| turn_role := assistant;
        content := "📝 Got it! I've added ₹5,000 for groceries to your expenses." |}]
  /\ expenses (fst out) = [].
Proof. vm_compute. repeat split. Qed.

Lemma idle_chat_step (rnd : nat -> nat) (st : State) :
  idle st ->
  idle (step st (Ask rnd None "ok"))
  /\ List.length (conversation_history (step st (Ask rnd None "ok")))
     = S (List.length (conversation_history st)).
Proof.
  intros (Hm & Hu & He & Hn). cbn [step].
  unfold get_ai_response, fallback. rewrite Hm.
  assert (E : generate_contextual_response rnd "ok" st
              = (st, Ok (choice (rnd 0%nat) general))).
  { unfold generate_contextual_response.
    change (rename_attempt bot_aliases "ok") with false.
    change (asks_bot_name "ok") with false.
    change (first_goal savings_patterns "ok") with (@None float).
    change (re_search true expense_pattern "ok") with (@None Match).
    rewrite Hu. cbn [dict_mem dict_get andb].
    change (has_keyword analysis_keywords "ok") with false. cbn [andb].
    unfold general_reply. now rewrite Hn. }
  rewrite E. cbn [fst]. split.
  - unfold idle, append_turn. cbn. auto.
  - apply length_append_turn.
Qed.

(** Without a model every call adds one turn and nothing is ever pruned. *)
Lemma local_history_length (rnd : nat -> nat) (n : nat) :
  forall st,
    idle st ->
    List.length (conversation_history
                   (session st (repeat (Ask rnd None "ok") n)))
    = (List.length (conversation_history st) + n)%nat.
Proof.
  unfold session. induction n as [|n IH]; intros st Hi.
  - simpl. lia.
  - cbn [repeat fold_left]. destruct (idle_chat_step rnd Hi) as [Hi' Hl].
    rewrite IH by exact Hi'. rewrite Hl. lia.
Qed.

(** C6, where the code departs from it: twelve utterances to a chatbot
    without a model leave a history of twelve turns; the pruning sits in
    the remote branch only. *)
Theorem local_history_exceeds_eleven :
  List.length
    (conversation_history
       (session (init false) (repeat (Ask (fun _ => 0%nat) None "ok") 12)))
  = 12%nat.
Proof.
  rewrite local_history_length; [reflexivity|].
  repeat split.
Qed.

(** With a model the history stays within eleven turns over every call of
    a session: the remote branch prunes to five once the user turn makes
    it longer than ten, and both the answer and the fallback of the
    [except] clause add one turn after that. *)
Lemma fallback_history_model (rnd : nat -> nat) (text : string) (st : State) :
  model (fst (fallback rnd text st)) = model st
  /\ (List.length (conversation_history (fst (fallback rnd text st)))
      <= S (List.length (conversation_history st)))%nat.
Proof.
  unfold fallback.
  destruct (respond_frame rnd text st) as (_ & _ & _ & Hh & _ & Hm).
  destruct (generate_contextual_response rnd text st) as [st1 [r|e]];
    cbn [fst] in *.
  - split; [exact Hm|]. rewrite length_append_turn, Hh. lia.
  - split; [exact Hm|]. rewrite Hh. lia.
Qed.

Lemma ask_history_model
      (rnd : nat -> nat) (remote : option string) (text : string) (st : State) :
  model st = true ->
  (List.length (conversation_history st) <= 11)%nat ->
  model (fst (get_ai_response rnd remote text st)) = true
  /\ (List.length (conversation_history
                     (fst (get_ai_response rnd remote text st))) <= 11)%nat.
Proof.
  intros Hm Hl. unfold get_ai_response. rewrite Hm.
  destruct (rename_attempt bot_aliases_remote text); [now split|].
  destruct (asks_bot_name text); [now split|].
  set (st2 := set_conversation_history
                (prune (conversation_history (append_turn user text st)))
                (append_turn user text st)).
  assert (H2 : model st2 = true
               /\ (List.length (conversation_history st2) <= 10)%nat).
  { subst st2. cbn [model conversation_history set_conversation_history append_turn].
    split; [exact Hm|]. rewrite length_prune, length_app. simpl.
    destruct (10 <? List.length (conversation_history st) + 1)%nat eqn:E;
      [lia | apply Nat.ltb_ge in E; lia]. }
  destruct H2 as [Hm2 Hl2].
  destruct remote as [answer|].
  - cbn [fst]. destruct (extract_frame text (append_turn assistant answer st2))
      as (Em & Eh & _).
    rewrite Em, Eh, length_append_turn. split; [exact Hm2 | lia].
  - destruct (fallback_history_model rnd text st2) as [Fm Fh].
    rewrite Fm. split; [exact Hm2 | lia].
Qed.

Lemma step_history_model (st : State) (o : op) :
  model st = true ->
  (List.length (conversation_history st) <= 11)%nat ->
  model (step st o) = true
  /\ (List.length (conversation_history (step st o)) <= 11)%nat.
Proof.
  intros Hm Hl.
  destruct o as [text|rnd text|rnd remote text|rnd remote text|now rnd text];
    cbn [step].
  - destruct (extract_frame text st) as (Em & Eh & _). now rewrite Em, Eh.
  - destruct (respond_frame rnd text st) as (_ & _ & _ & Hh & _ & Hm').
    now rewrite Hm', Hh.
  - now apply ask_history_model.
  - unfold process_input. apply ask_history_model.
    + unfold process_name. now break_match.
    + unfold process_name. now break_match.
  - unfold handle_greeting. now break_match.
Qed.

Lemma remote_history_bounded (ops : list op) :
  List.length (conversation_history (session (init true) ops)) <= 11.
Proof.
  assert (H : forall st,
             model st = true ->
             (List.length (conversation_history st) <= 11)%nat ->
             (List.length (conversation_history (session st ops)) <= 11)%nat).
  { unfold session. induction ops as [|o ops IH]; intros st Hm Hl; [exact Hl|].
    cbn [fold_left]. destruct (@step_history_model st o Hm Hl) as [Hm' Hl'].
    now apply IH. }
  apply H; [reflexivity | simpl; lia].
Qed.

(** ** The budget analysis *)

(** The reply of [generate_contextual_response], category by category. *)
Lemma respond_reply (rnd : nat -> nat) (text : string) (st : State) :
  snd (generate_contextual_response rnd text st)
  = match classify text st with
    | RenameAttempt => Ok rename_deflection
    | IdentityQuery => Ok self_introduction
    | SavingsGoal =>
        match first_goal savings_patterns text with
        | Some goal =>
            format (choice (rnd 0%nat) savings_goal_added)
                   [("goal", format_f true 0 goal)]
        | None => Ok (general_reply rnd st)
        end
    | IncomeAck => income_reply rnd st
    | ExpenseStatement =>
        match re_search true expense_pattern text with
        | Some m => expense_reply rnd m st
        | None => Ok (general_reply rnd st)
        end
    | BudgetAnalysis => analysis_reply rnd st
    | Default => Ok (general_reply rnd st)
    end.
Proof.
  rewrite classify_eq. unfold generate_contextual_response.
  destruct (rename_attempt bot_aliases text); [reflexivity|].
  destruct (asks_bot_name text); [reflexivity|].
  destruct (existsb (fun p => matches p text) savings_patterns) eqn:S.
  { destruct (savings_match_goal _ S) as [goal ->]. reflexivity. }
  apply savings_goal_iff_match in S. rewrite S.
  destruct (dict_mem "income" (user_data st)
            && (List.length (conversation_history st) <? 3)%nat);
    [reflexivity|].
  unfold matches.
  destruct (re_search true expense_pattern text); [reflexivity|].
  destruct (has_keyword analysis_keywords text
            && dict_mem "income" (user_data st)); reflexivity.
Qed.

Lemma contains_app_r (needle a b : string) :
  contains needle b = true -> contains needle (a ++ b) = true.
Proof.
  rewrite !contains_spec. intros (x & y & ->).
  exists (a ++ x), y. now rewrite append_assoc.
Qed.

Lemma choice_nth (r : nat) (l : list string) :
  choice r l = nth (r mod List.length l) l "".
Proof. reflexivity. Qed.

Lemma rent_food_advice (r : nat) (st : State) :
  ledger_advice r (Fin 10000) st ("rent", Fin 4000) [("food", Fin 1000)]
  = format (choice r advice_templates)
           (rent_food_bindings (shown_savings_goal st)).
Proof.
  unfold ledger_advice, rent_food_bindings, shown_savings_goal.
  replace (max_by_value ("rent", Fin 4000) [("food", Fin 1000)])
    with ("rent", Fin 4000) by (vm_compute; reflexivity).
  cbn [fst snd].
  replace (fdiv (Fin 4000) (Fin 10000))
    with (Ok (Fin (3602879701896397 # 9007199254740992)))
    by (vm_compute; reflexivity).
  replace (fmul (Fin (3602879701896397 # 9007199254740992)) (float_of_Z 100))
    with (Fin 40) by (vm_compute; reflexivity).
  replace (fmul (Fin 10000) (b64 (2 # 10))) with (Fin 2000)
    by (vm_compute; reflexivity).
  replace (format_f true 0 (Fin 4000)) with "4,000"
    by (vm_compute; reflexivity).
  replace (format_f false 1 (Fin 40)) with "40.0" by (vm_compute; reflexivity).
  replace (fgtb (Fin 40) (float_of_Z 30)) with true
    by (vm_compute; reflexivity).
  replace (format_f true 0 (Fin 2000)) with "2,000"
    by (vm_compute; reflexivity).
  reflexivity.
Qed.

Lemma rent_food_analysis (r : nat) (advice : string) :
  format (choice r budget_analysis)
         [("income", "10,000"); ("total_expenses", "5,000");
          ("remaining", "5,000"); ("advice", advice)]
  = Ok (nth (r mod 2) rent_food_headers "" ++ advice).
Proof.
  rewrite choice_nth. change (List.length budget_analysis) with 2%nat.
  assert (Hlt : r mod 2 < 2) by (apply Nat.mod_upper_bound; discriminate).
  destruct (r mod 2) as [|[|k]]; try lia;
    cbv; repeat f_equal; apply append_nil_r.
Qed.

(** ** The guarded blocks of the responder cannot raise what they catch

    The [try] blocks of [generate_contextual_response] catch [ValueError]
    (with [IndexError], resp. [TypeError]).  Besides [float], which the
    embedding keeps apart, the only operation in them that could raise one
    of these is [str.format], and on the templates of the two blocks it
    never raises: the handlers are entered by a failed [float] only, and the
    handler of the budget analysis not at all. *)

Lemma savings_template_renders (r : nat) (goal : string) :
  exists reply, format (choice r savings_goal_added) [("goal", goal)] = Ok reply.
Proof.
  rewrite choice_nth. change (List.length savings_goal_added) with 2%nat.
  assert (Hlt : r mod 2 < 2) by (apply Nat.mod_upper_bound; discriminate).
  destruct (r mod 2) as [|[|k]]; try lia; eexists; reflexivity.
Qed.

Lemma advice_template_renders
      (r : nat) (category amount percent status goal savings_goal : string) :
  exists advice,
    format (choice r advice_templates)
           [("category", category); ("amount", amount); ("percent", percent);
            ("recommended", "15-20"); ("status", status); ("goal", goal);
            ("savings_goal", savings_goal)]
    = Ok advice.
Proof.
  rewrite choice_nth. change (List.length advice_templates) with 9%nat.
  assert (Hlt : r mod 9 < 9) by (apply Nat.mod_upper_bound; discriminate).
  destruct (r mod 9) as [|[|[|[|[|[|[|[|[|k]]]]]]]]]; try lia;
    eexists; reflexivity.
Qed.

(* ================================================================== *)
(** * Further properties: the methods around the engine *)
(* ================================================================== *)

(** ** Containment *)

Lemma contains_trans (a b c : string) :
  contains a b = true -> contains b c = true -> contains a c = true.
Proof.
  intros Hab Hbc. apply contains_spec in Hab. apply contains_spec in Hbc.
  destruct Hab as (x & y & ->). destruct Hbc as (u & v & ->).
  apply contains_spec. exists (u ++ x), (y ++ v).
  now rewrite !append_assoc.
Qed.

Lemma contains_middle (pre needle post : string) :
  contains needle (pre ++ needle ++ post) = true.
Proof. apply contains_spec. now exists pre, post. Qed.

(** ** The banking keywords *)

Lemma find_first (A : Type) (f : A -> bool) (l1 l2 : list A) (x y : A) :
  find f (l1 ++ x :: l2) = Some y -> f x = true -> In y (l1 ++ [x]).
Proof.
  induction l1 as [|a l1 IH]; simpl; intros H Hx.
  - rewrite Hx in H. inversion H. now left.
  - destruct (f a); [inversion H; now left | right; now apply IH].
Qed.

(** X1: an utterance that mentions a credit card is looked up under an
    earlier keyword of the list, [rd] at the latest, because the letters of
    [rd] end the word card; no utterance at all is looked up under the
    keyword [credit card], and the credit-card query of
    [get_bank_information] is never the one sent to the web search. *)
Theorem credit_card_query_is_unreachable (user_input : string) :
  bank_keyword user_input <> Some "credit card"
  /\ (forall keyword,
        bank_keyword user_input = Some keyword ->
        search_query keyword <> "best credit card offers India comparison")
  /\ (contains "credit card" (lower user_input) = true ->
      exists keyword,
        bank_keyword user_input = Some keyword
        /\ In keyword ["fd"; "fixed deposit"; "interest rate"; "bank rate"; "rd"]).
Proof.
  assert (Hrd : contains "credit card" (lower user_input) = true ->
                contains "rd" (lower user_input) = true).
  { apply contains_trans. reflexivity. }
  assert (Hearly : forall keyword,
             bank_keyword user_input = Some keyword ->
             contains "credit card" (lower user_input) = true ->
             In keyword ["fd"; "fixed deposit"; "interest rate"; "bank rate"; "rd"]).
  { intros keyword Hk Hc. unfold bank_keyword, bank_keywords in Hk.
    apply (find_first _ ["fd"; "fixed deposit"; "interest rate"; "bank rate"]
             ["recurring deposit"; "savings account"; "loan rate";
              "credit card"; "emi"; "banking product"] "rd") in Hk;
      [exact Hk | now apply Hrd]. }
  assert (Hnever : bank_keyword user_input <> Some "credit card").
  { intros Hk. pose proof Hk as Hf. apply find_some in Hf.
    destruct Hf as [_ Hc]. apply (Hearly _ Hk) in Hc.
    simpl in Hc. intuition discriminate. }
  split; [exact Hnever|]. split.
  - intros keyword Hk. pose proof Hk as Hf. apply find_some in Hf.
    destruct Hf as [Hin _]. unfold bank_keywords in Hin. simpl in Hin.
    repeat (destruct Hin as [<-|Hin];
            [first [discriminate | now exfalso; apply Hnever]|]).
    contradiction.
  - intros Hc. destruct (bank_keyword user_input) as [keyword|] eqn:Hk.
    + exists keyword. split; [reflexivity | now apply Hearly].
    + exfalso. unfold bank_keyword in Hk.
      assert (Hin : In "rd" bank_keywords) by (unfold bank_keywords; simpl; tauto).
      pose proof (find_none _ _ Hk _ Hin) as Hn. cbv beta in Hn.
      change (lower "rd") with "rd" in Hn.
      rewrite (Hrd Hc) in Hn. discriminate.
Qed.

(** ** A pattern that is a choice of literal phrases *)

Section LiteralChoice.

Variable n0 : nat.







End LiteralChoice.

Lemma lower_lower (s : string) : lower (lower s) = lower s.
Proof.
  induction s as [|c s IH]; simpl; [reflexivity|]. rewrite IH. f_equal.
  unfold lower_char at 1.
  destruct (is_upper (lower_char c)) eqn:E; [|reflexivity].
  exfalso. revert E. unfold lower_char.
  destruct (is_upper c) eqn:U; [|congruence].
  unfold is_upper, between, code in *.
  apply andb_true_iff in U. destruct U as [U1 U2].
  apply Nat.leb_le in U1. apply Nat.leb_le in U2.
  rewrite nat_ascii_embedding by lia.
  intros E. apply andb_true_iff in E. destruct E as [_ E].
  apply Nat.leb_le in E. lia.
Qed.


(** ** The conversation context *)

Lemma join_cons (sep p : string) (ps : list string) :
  exists rest, join sep (p :: ps) = p ++ rest.
Proof.
  destruct ps as [|q ps]; simpl; [exists ""; now rewrite append_nil_r | eauto].
Qed.

Lemma last_n_app (A : Type) (older recent : list A) :
  last_n (List.length recent) (older ++ recent) = recent.
Proof.
  unfold last_n. rewrite length_app.
  replace (List.length older + List.length recent - List.length recent)%nat
    with (List.length older + 0)%nat by lia.
  rewrite skipn_app, Nat.add_0_r, skipn_all.
  replace (List.length older - List.length older)%nat with 0%nat by lia.
  reflexivity.
Qed.

(** [format_conversation_history] shows the last five turns and nothing
    older. *)
Lemma conversation_context_is_last_five
      (st : State) (older recent : list turn) :
  conversation_history st = (older ++ recent)%list ->
  List.length recent = 5%nat ->
  format_conversation_history st = join nl (map history_line recent).
Proof.
  intros Hh Hl. unfold format_conversation_history. rewrite Hh.
  destruct (older ++ recent)%list as [|t h] eqn:E.
  - apply (f_equal (@List.length turn)) in E. rewrite length_app in E.
    simpl in E. lia.
  - rewrite <- E, <- Hl, last_n_app. reflexivity.
Qed.

Lemma exchanges_roles (h : list turn) :
  exchanges h = true ->
  Nat.even (List.length h) = true
  /\ forall i t,
       nth_error h i = Some t ->
       turn_role t = if Nat.even i then user else assistant.
Proof.
  assert (G : forall n h, (List.length h <= n)%nat -> exchanges h = true ->
              Nat.even (List.length h) = true
              /\ forall i t,
                   nth_error h i = Some t ->
                   turn_role t = if Nat.even i then user else assistant).
  { clear h. induction n as [|n IH]; intros h Hn He.
    - destruct h; [|simpl in Hn; lia]. split; [reflexivity|].
      intros [|i] t Ht; discriminate.
    - destruct h as [|u [|a rest]]; simpl in He; try discriminate.
      + split; [reflexivity|]. intros [|i] t Ht; discriminate.
      + destruct (turn_role u) eqn:Ru; [|discriminate].
        destruct (turn_role a) eqn:Ra; [discriminate|].
        destruct (IH rest) as [Hev Hr]; [simpl in Hn; lia | exact He |].
        split; [exact Hev|].
        intros [|[|i]] t Ht; simpl in Ht.
        * inversion Ht; subst. exact Ru.
        * inversion Ht; subst. exact Ra.
        * apply Hr in Ht. exact Ht. }
  apply (G (List.length h)). lia.
Qed.

(** X3: when the history is made of whole exchanges and holds six
    turns or more, the five turns shown by [format_conversation_history]
    start with an answer of the assistant: the question it answers is cut
    off. *)
Theorem conversation_context_starts_with_an_answer (st : State) :
  exchanges (conversation_history st) = true ->
  (6 <= List.length (conversation_history st))%nat ->
  exists rest, format_conversation_history st = "assistant: " ++ rest.
Proof.
  intros He Hl. apply exchanges_roles in He. destruct He as [Hev Hr].
  unfold format_conversation_history, last_n.
  destruct (conversation_history st) as [|t0 h0] eqn:E; [simpl in Hl; lia|].
  rewrite <- E in *. clear E t0 h0.
  remember (conversation_history st) as h eqn:Eh. clear Eh.
  remember (List.length h - 5)%nat as i eqn:Ei.
  assert (Hi : (i < List.length h)%nat) by lia.
  destruct (nth_error h i) as [t|] eqn:Ht;
    [|apply nth_error_None in Ht; lia].
  pose proof (Hr _ _ Ht) as Hrole.
  assert (Hodd : Nat.even i = false).
  { destruct (Nat.even i) eqn:F; [|reflexivity]. exfalso.
    apply Nat.even_spec in F. apply Nat.even_spec in Hev.
    destruct F as [a Ha]. destruct Hev as [b Hb]. lia. }
  rewrite Hodd in Hrole.
  destruct (nth_error_split h i Ht) as (l1 & l2 & Hh & Hl1).
  assert (Hs : skipn i h = t :: l2).
  { rewrite Hh. replace i with (List.length l1 + 0)%nat by lia.
    rewrite skipn_app, Nat.add_0_r, skipn_all.
    replace (List.length l1 - List.length l1)%nat with 0%nat by lia.
    reflexivity. }
  rewrite Hs. cbn [map].
  destruct (join_cons nl (history_line t) (map history_line l2)) as [rest Hj].
  rewrite Hj. unfold history_line. rewrite Hrole. simpl role_name.
  exists (content t ++ rest). now rewrite !append_assoc.
Qed.

Lemma conversation_context_starts_with_an_answer_witness :
  exists rest,
    format_conversation_history
      (set_conversation_history
         (List.concat (repeat [{| turn_role := user; content := "q" |};
                          {| turn_role := assistant; content := "a" |}] 3))
         (init true))
    = "assistant: " ++ rest.
Proof.
  apply conversation_context_starts_with_an_answer;
    [reflexivity | simpl; lia].
Defined.

(** ** The questions of the guided dialogue *)

Lemma choice_of_four (r : nat) (a b c d : string) (P : string -> Prop) :
  P a -> P b -> P c -> P d -> P (choice r [a; b; c; d]).
Proof.
  intros Ha Hb Hc Hd.
  assert (H : In (choice r [a; b; c; d]) [a; b; c; d])
    by (apply choice_in; discriminate).
  destruct H as [<-|[<-|[<-|[<-|[]]]]]; assumption.
Qed.

Ltac shows_middle :=
  match goal with
  | |- contains ?n (?pre ++ ?n ++ ?post) = true => apply contains_middle
  end.

(** X4: the questions of [get_income_question], [get_expense_prompt]
    and [get_savings_question] address the user by the stored name, and by
    the text None when no name is stored; the acknowledgment of
    [get_expense_acknowledgment] shows the category as given and the amount
    with two decimals. *)
Theorem guided_questions_show_the_stored_name
        (rnd : nat -> nat) (st : State) (category : string) (amount : float) :
  contains (shown_name (user_name st)) (get_income_question rnd st) = true
  /\ contains (shown_name (user_name st)) (get_expense_prompt rnd st) = true
  /\ contains (shown_name (user_name st)) (get_savings_question rnd st) = true
  /\ (user_name st = None ->
      contains "None" (get_income_question rnd st) = true
      /\ contains "None" (get_expense_prompt rnd st) = true
      /\ contains "None" (get_savings_question rnd st) = true)
  /\ contains ("₹" ++ format_f true 2 amount ++ " for " ++ category ++ ".")
              (get_expense_acknowledgment rnd category amount) = true.
Proof.
  assert (H : contains (shown_name (user_name st)) (get_income_question rnd st) = true
              /\ contains (shown_name (user_name st)) (get_expense_prompt rnd st) = true
              /\ contains (shown_name (user_name st)) (get_savings_question rnd st) = true).
  { unfold get_income_question, get_expense_prompt, get_savings_question,
      income_questions, expense_prompts, savings_questions.
    repeat split; apply choice_of_four; shows_middle. }
  destruct H as (H1 & H2 & H3).
  split; [exact H1|]. split; [exact H2|]. split; [exact H3|]. split.
  - intros Hn. rewrite Hn in H1, H2, H3. now repeat split.
  - unfold get_expense_acknowledgment, expense_acknowledgments.
    apply choice_of_four; apply contains_spec.
    + exists "Got it! ", " What other expenses would you like to add?".
      now rewrite !append_assoc.
    + exists "Added ", " Tell me about another expense, or say 'done' when you're finished!".
      now rewrite !append_assoc.
    + exists "Noted ", " What else do you spend money on?".
      now rewrite !append_assoc.
    + exists "I've recorded ", " Keep going! Or say 'done' if that's all.".
      now rewrite !append_assoc.
Qed.

(** ** What every session keeps true *)

(** *** Characters *)

Ltac by_cases_on_char c :=
  destruct c as [[|] [|] [|] [|] [|] [|] [|] [|]]; vm_compute;
  try reflexivity; try discriminate; auto.

Lemma is_space_lower_char (c : ascii) : is_space (lower_char c) = is_space c.
Proof. by_cases_on_char c. Qed.

Lemma is_word_lower_char (c : ascii) : is_word (lower_char c) = is_word c.
Proof. by_cases_on_char c. Qed.

Lemma is_word_upper_char (c : ascii) : is_word (upper_char c) = is_word c.
Proof. by_cases_on_char c. Qed.

Lemma name_class_is_word (c : ascii) :
  in_class true [Range "A" "Z"; Range "a" "z"] c = true -> is_word c = true.
Proof. by_cases_on_char c. Qed.

Lemma word_class_is_word (c : ascii) :
  in_class false [EscW] c = true -> is_word c = true.
Proof. by_cases_on_char c. Qed.

Lemma category_class_lower (c : ascii) :
  in_class true [Range "a" "z"; Range "A" "Z"; EscS] c = true ->
  is_lower (lower_char c) || is_space (lower_char c) = true.
Proof. by_cases_on_char c. Qed.

(** *** [strip] *)

Lemma all_chars_lstrip (p : ascii -> bool) (s : string) :
  all_chars p s = true -> all_chars p (lstrip s) = true.
Proof.
  induction s as [|c s IH]; simpl; [reflexivity|]. intros H.
  destruct (is_space c); [|exact H].
  apply andb_prop in H. now apply IH.
Qed.

Lemma all_chars_rstrip (p : ascii -> bool) (s : string) :
  all_chars p s = true -> all_chars p (rstrip s) = true.
Proof.
  induction s as [|c s IH]; simpl; [reflexivity|]. intros H.
  apply andb_prop in H. destruct H as [Hc Hs]. specialize (IH Hs).
  destruct (rstrip s) as [|d t].
  - destruct (is_space c); simpl; [reflexivity | now rewrite Hc].
  - simpl. simpl in IH. now rewrite Hc, IH.
Qed.

Lemma all_chars_strip (p : ascii -> bool) (s : string) :
  all_chars p s = true -> all_chars p (strip s) = true.
Proof. intros H. now apply all_chars_lstrip, all_chars_rstrip. Qed.

Lemma lstrip_lower (s : string) : lstrip (lower s) = lower (lstrip s).
Proof.
  induction s as [|c s IH]; simpl; [reflexivity|].
  rewrite is_space_lower_char. now destruct (is_space c).
Qed.

Lemma rstrip_lower (s : string) : rstrip (lower s) = lower (rstrip s).
Proof.
  induction s as [|c s IH]; simpl; [reflexivity|]. rewrite IH.
  destruct (rstrip s) as [|d t]; simpl.
  - rewrite is_space_lower_char. now destruct (is_space c).
  - reflexivity.
Qed.

Lemma strip_lower (s : string) : strip (lower s) = lower (strip s).
Proof. unfold strip. now rewrite rstrip_lower, lstrip_lower. Qed.

Lemma lstrip_idem (s : string) : lstrip (lstrip s) = lstrip s.
Proof.
  induction s as [|c s IH]; simpl; [reflexivity|].
  destruct (is_space c) eqn:E; [exact IH | simpl; now rewrite E].
Qed.

Lemma rstrip_idem (s : string) : rstrip (rstrip s) = rstrip s.
Proof.
  induction s as [|c s IH]; simpl; [reflexivity|].
  destruct (rstrip s) as [|d t] eqn:E.
  - destruct (is_space c) eqn:F; simpl; [reflexivity | now rewrite F].
  - change (rstrip (String c (String d t)))
      with (match rstrip (String d t) with
            | "" => if is_space c then "" else String c ""
            | x => String c x
            end).
    now rewrite IH.
Qed.

Lemma rstrip_lstrip (s : string) : rstrip (lstrip s) = lstrip (rstrip s).
Proof.
  induction s as [|c s IH]; [reflexivity|].
  change (lstrip (String c s)) with (if is_space c then lstrip s else String c s).
  change (rstrip (String c s))
    with (match rstrip s with
          | "" => if is_space c then "" else String c ""
          | x => String c x
          end).
  destruct (is_space c) eqn:E.
  - rewrite IH. destruct (rstrip s) as [|d t]; [reflexivity|].
    change (lstrip (String c (String d t)))
      with (if is_space c then lstrip (String d t) else String c (String d t)).
    now rewrite E.
  - change (rstrip (String c s))
      with (match rstrip s with
            | "" => if is_space c then "" else String c ""
            | x => String c x
            end).
    rewrite E. destruct (rstrip s) as [|d t]; simpl; now rewrite E.
Qed.

Lemma strip_idem (s : string) : strip (strip s) = strip s.
Proof.
  unfold strip. rewrite (rstrip_lstrip (rstrip s)), rstrip_idem.
  apply lstrip_idem.
Qed.

Lemma all_chars_lower_category (s : string) :
  all_chars (in_class true [Range "a" "z"; Range "A" "Z"; EscS]) s = true ->
  all_chars (fun c => is_lower c || is_space c) (lower s) = true.
Proof.
  induction s as [|c s IH]; simpl; [reflexivity|]. intros H.
  apply andb_prop in H. destruct H as [Hc Hs].
  now rewrite (category_class_lower _ Hc), IH.
Qed.

Lemma stripped_lower_is_category (w : string) :
  all_chars (in_class true [Range "a" "z"; Range "A" "Z"; EscS]) w = true ->
  is_category (lower (strip w)) = true.
Proof.
  intros H. unfold is_category. apply andb_true_iff. split.
  - now apply all_chars_lower_category, all_chars_strip.
  - apply String.eqb_eq. now rewrite strip_lower, strip_idem.
Qed.

(** *** Amounts *)

Lemma round_half_even_nonneg (q : Q) :
  (0 <= q)%Q -> (0 <= round_half_even q)%Z.
Proof.
  intros H. unfold round_half_even. destruct q as [n d].
  unfold Qle in H. simpl in H. cbn [Qnum Qden].
  assert (Hf : (0 <= n / Zpos d)%Z) by (apply Z.div_pos; lia).
  destruct (2 * (n mod Zpos d) ?= Zpos d)%Z; [|lia|lia].
  destruct (Z.even (n / Zpos d)); lia.
Qed.

Lemma pow2_pos (e : Z) : (0 < pow2 e)%Q.
Proof.
  unfold pow2. destruct (0 <=? e)%Z eqn:E.
  - apply Z.leb_le in E. unfold Qlt. simpl.
    rewrite Z.mul_1_r. apply Z.pow_pos_nonneg; lia.
  - apply Z.leb_gt in E. apply Qinv_lt_0_compat. unfold Qlt. simpl.
    rewrite Z.mul_1_r. apply Z.pow_pos_nonneg; lia.
Qed.

Lemma b64_pos_is_amount (q : Q) : (0 <= q)%Q -> is_amount (b64_pos q) = true.
Proof.
  intros H. unfold b64_pos.
  match goal with
  | |- context [Z.max ?a ?b] => generalize (Z.max a b)
  end.
  intros e.
  destruct (Qle_bool (pow2 1024) _); [reflexivity|].
  unfold is_amount. apply Qle_bool_iff. rewrite Qred_correct.
  apply Qmult_le_0_compat; [|apply Qlt_le_weak, pow2_pos].
  change 0%Q with (inject_Z 0). rewrite <- Zle_Qle.
  apply round_half_even_nonneg. unfold Qdiv.
  apply Qmult_le_0_compat; [exact H|].
  apply Qinv_le_0_compat, Qlt_le_weak, pow2_pos.
Qed.

Lemma b64_is_amount (q : Q) : (0 <= q)%Q -> is_amount (b64 q) = true.
Proof.
  intros H. unfold b64. destruct (Qcompare q 0) eqn:E.
  - reflexivity.
  - apply Qlt_alt in E. exfalso. apply (Qlt_irrefl 0%Q).
    eapply Qle_lt_trans; eassumption.
  - now apply b64_pos_is_amount.
Qed.

Lemma digits_value_nonneg (s : string) :
  forall acc v, (0 <= acc)%Z -> digits_value acc s = Some v -> (0 <= v)%Z.
Proof.
  induction s as [|c s IH]; intros acc v Ha H; cbn [digits_value] in H.
  - inversion H; subst. exact Ha.
  - destruct (is_digit c); [|discriminate].
    apply IH in H; [exact H|]. unfold digit_value.
    pose proof (Nat2Z.is_nonneg (code c - 48)). lia.
Qed.

Lemma float_of_string_is_amount (s : string) (x : float) :
  float_of_string s = Some x -> is_amount x = true.
Proof.
  unfold float_of_string. destruct (split_dot s) as [ip fp].
  generalize (match fp with Some f => f | None => "" end). intros fs.
  destruct (String.length ip + _)%nat; [discriminate|].
  destruct (digits_value 0 ip) as [i|] eqn:Ei; [|discriminate].
  destruct (digits_value 0 fs) as [f|] eqn:Ef; [|discriminate].
  intros H. inversion H; subst. clear H.
  apply digits_value_nonneg in Ei; [|lia].
  apply digits_value_nonneg in Ef; [|lia].
  apply b64_is_amount.
  apply (Qplus_le_compat 0 (inject_Z i) 0).
  - change 0%Q with (inject_Z 0). now rewrite <- Zle_Qle.
  - unfold Qdiv. apply Qmult_le_0_compat.
    + change 0%Q with (inject_Z 0). now rewrite <- Zle_Qle.
    + apply Qinv_le_0_compat. change 0%Q with (inject_Z 0).
      rewrite <- Zle_Qle. apply Z.pow_nonneg. lia.
Qed.

Lemma amount_of_is_amount (m : Match) (x : float) :
  amount_of m = Some x -> is_amount x = true.
Proof. apply float_of_string_is_amount. Qed.

Lemma first_goal_is_amount (ps : list regex) (text : string) (goal : float) :
  first_goal ps text = Some goal -> is_amount goal = true.
Proof.
  induction ps as [|p ps IH]; simpl; [discriminate|].
  destruct (re_search true p text) as [m|]; [|exact IH].
  destruct (amount_of m) as [x|] eqn:E; [|exact IH].
  intros H. inversion H; subst. eapply amount_of_is_amount; eassumption.
Qed.

(** *** Dicts *)

Lemma dict_set_keys (V : Type) (k : string) (v : V) (d : dict V) (x : string) :
  In x (dict_keys (dict_set k v d)) -> x = k \/ In x (dict_keys d).
Proof.
  unfold dict_keys. induction d as [|[k' v'] d IH]; simpl.
  - intros [<-|[]]. now left.
  - destruct (String.eqb k' k) eqn:E; simpl.
    + tauto.
    + intros [<-|H]; [tauto|]. apply IH in H. tauto.
Qed.

Lemma dict_set_forall (V : Type) (P : string * V -> Prop)
      (k : string) (v : V) (d : dict V) :
  P (k, v) -> Forall P d -> Forall P (dict_set k v d).
Proof.
  intros Hk. induction 1 as [|[k' v'] d Hx Hd IH]; simpl.
  - now repeat constructor.
  - destruct (String.eqb k' k) eqn:E.
    + apply String.eqb_eq in E. subst k'. now constructor.
    + now constructor.
Qed.

(** *** The three records, update by update *)

Lemma sound_data_set (k : string) (v : float) (data : dict float) :
  k = "income" \/ k = "savings_goal" -> is_amount v = true ->
  sound_data data -> sound_data (dict_set k v data).
Proof.
  intros Hk Hv [Hkeys Hall]. split.
  - intros x Hx. apply dict_set_keys in Hx. destruct Hx as [->|Hx]; auto.
  - now apply dict_set_forall.
Qed.

Lemma income_update_sound (text : string) (data : dict float) :
  sound_data data -> sound_data (income_update text data).
Proof.
  intros H. unfold income_update.
  destruct (re_search true income_pattern text) as [m|]; [|exact H].
  destruct (amount_of m) as [v|] eqn:E; [|exact H].
  apply sound_data_set; [tauto | eapply amount_of_is_amount; eassumption | exact H].
Qed.

Lemma savings_update_sound (text : string) (data : dict float) :
  sound_data data -> sound_data (savings_update text data).
Proof.
  intros H. unfold savings_update.
  destruct (first_goal savings_patterns text) as [v|] eqn:E; [|exact H].
  apply sound_data_set; [tauto | eapply first_goal_is_amount; eassumption | exact H].
Qed.

Lemma expense_category_group (r1 : regex) :
  In (2%nat, r1) (grps expense_pattern) ->
  r1 = Plus (Cls [Range "a" "z"; Range "A" "Z"; EscS]).
Proof.
  simpl. intros H.
  repeat (destruct H as [H|H]; [inversion H; reflexivity|]). contradiction.
Qed.

Lemma expense_match_category (m : Match) (pos : nat) (t : string) (n0 : nat) :
  search_from true n0 expense_pattern pos t = Some m ->
  is_category (category_of m) = true.
Proof.
  intros H. apply search_from_sound in H. destruct H as (pre & _ & _ & Hsem).
  unfold category_of, group.
  destruct (sem_caps Hsem 2) as [E | (r1 & w1 & ga & gb & Hin & Hs & E)];
    rewrite E.
  - reflexivity.
  - apply expense_category_group in Hin. subst r1.
    apply sem_plus_cls in Hs. destruct Hs as (c & w' & _ & Hall).
    now apply stripped_lower_is_category.
Qed.

Lemma ledger_update_sound (text : string) (ledger : dict float) :
  sound_ledger ledger -> sound_ledger (ledger_update text ledger).
Proof.
  unfold ledger_update.
  assert (G : forall ms,
             (forall m, In m ms -> is_category (category_of m) = true) ->
             forall d, sound_ledger d ->
                       sound_ledger (fold_left record_expense ms d)).
  { induction ms as [|m ms IH]; intros Hms d Hd; simpl; [exact Hd|].
    apply IH; [intros x Hx; apply Hms; now right|].
    unfold record_expense. destruct (amount_of m) as [a|] eqn:E; [|exact Hd].
    apply dict_set_forall; [|exact Hd]. split.
    - apply Hms. now left.
    - eapply amount_of_is_amount; eassumption. }
  apply G. intros m Hm. unfold re_finditer in Hm.
  apply finditer_from_search in Hm. destruct Hm as (pos & t & Hm).
  eapply expense_match_category; eassumption.
Qed.

Lemma all_chars_lower_word (s : string) :
  all_chars is_word s = true -> all_chars is_word (lower s) = true.
Proof.
  induction s as [|c s IH]; simpl; [reflexivity|]. intros H.
  apply andb_prop in H. destruct H as [Hc Hs].
  now rewrite is_word_lower_char, Hc, IH.
Qed.

Lemma all_chars_title_word (s : string) :
  forall b, all_chars is_word s = true ->
            all_chars is_word (title_from b s) = true.
Proof.
  induction s as [|c s IH]; intros b; simpl; [reflexivity|]. intros H.
  apply andb_prop in H. destruct H as [Hc Hs].
  rewrite IH by exact Hs.
  destruct b; [rewrite is_word_lower_char | rewrite is_word_upper_char];
    now rewrite Hc.
Qed.

Lemma user_name_class (p r1 : regex) :
  In p user_name_patterns -> In (1%nat, r1) (grps p) ->
  r1 = Plus (Cls [Range "A" "Z"; Range "a" "z"]).
Proof.
  intros [<-|[<-|[<-|[]]]]; simpl; intros H;
    repeat (destruct H as [H|H]; [inversion H; reflexivity|]); contradiction.
Qed.

Lemma first_name_is_word (text g : string) :
  first_name user_name_patterns text = Some g ->
  exists c n, g = String c n /\ all_chars is_word g = true.
Proof.
  assert (G : forall ps,
             (forall p, In p ps -> In p user_name_patterns) ->
             first_name ps text = Some g ->
             exists c n, g = String c n /\ all_chars is_word g = true).
  { induction ps as [|p ps IH]; intros Hps H; simpl in H; [discriminate|].
    destruct (re_search true p text) as [m|] eqn:E.
    - inversion H; subst. clear H.
      assert (Hp : In p user_name_patterns) by (apply Hps; now left).
      unfold re_search in E. apply search_from_sound in E.
      destruct E as (pre & _ & _ & Hsem).
      destruct (@user_name_group _ Hp) as [Hmust _].
      destruct (sem_group 1 Hsem Hmust)
        as (r1 & w1 & ga & gb & Hin & Hs1 & Hcap).
      apply (@user_name_class _ _ Hp) in Hin. subst r1.
      apply sem_plus_cls in Hs1. destruct Hs1 as (c & w' & Hw & Hall).
      unfold group. rewrite Hcap. exists c, w'. split; [exact Hw|].
      eapply all_chars_weaken; [|exact Hall]. apply name_class_is_word.
    - apply IH; [|exact H]. intros q Hq. apply Hps. now right. }
  apply G. auto.
Qed.

Lemma name_update_is_name (text : string) (name : option string) :
  is_name name = true -> is_name (name_update text name) = true.
Proof.
  intros H. unfold name_update. destruct (truthy name); [exact H|].
  destruct (first_name user_name_patterns text) as [g|] eqn:E; [|exact H].
  apply first_name_is_word in E. destruct E as (c & n & -> & Hall).
  simpl in Hall. apply andb_prop in Hall. destruct Hall as [Hc Hn].
  simpl. rewrite is_word_upper_char, Hc. simpl.
  now apply all_chars_lower_word.
Qed.

Lemma process_name_is_name (text : string) (st : State) :
  is_name (user_name st) = true ->
  is_name (user_name (process_name text st)) = true.
Proof.
  intros H. unfold process_name. destruct (truthy (user_name st)); [exact H|].
  destruct (re_search false process_name_pattern (lower text)) as [m|] eqn:E;
    [|exact H].
  cbn [set_user_name user_name].
  unfold re_search in E. apply search_from_sound in E.
  destruct E as (pre & _ & _ & Hsem).
  destruct (sem_group 1 Hsem (proj1 process_name_group))
    as (r1 & w1 & ga & gb & Hin & Hs1 & Hcap).
  simpl in Hin. destruct Hin as [Hin|[]]. inversion Hin; subst r1. clear Hin.
  apply sem_plus_cls in Hs1. destruct Hs1 as (c & w' & Hw & Hall).
  unfold group. rewrite Hcap. subst w1.
  assert (Hword : all_chars is_word (String c w') = true)
    by (eapply all_chars_weaken; [|exact Hall]; apply word_class_is_word).
  pose proof (all_chars_title_word (String c w') false Hword) as Ht.
  unfold title. simpl in Ht. simpl. exact Ht.
Qed.

(** *** The calls of a session *)

Lemma init_sound (available : bool) : sound (init available).
Proof.
  split; [split; [intros x [] | constructor] | split; [constructor | reflexivity]].
Qed.

Lemma extract_sound (text : string) (st : State) :
  sound st -> sound (extract_financial_info text st).
Proof.
  intros (Hd & Hl & Hn). rewrite extract_record. repeat split;
    cbn [user_data expenses user_name].
  - now apply savings_update_sound, income_update_sound.
  - now apply savings_update_sound, income_update_sound.
  - now apply ledger_update_sound.
  - now apply name_update_is_name.
Qed.

Lemma respond_sound (rnd : nat -> nat) (text : string) (st : State) :
  sound st -> sound (fst (generate_contextual_response rnd text st)).
Proof.
  intros H. rewrite respond_state.
  destruct (classify text st); try exact H.
  destruct (first_goal savings_patterns text) as [goal|] eqn:E; [|exact H].
  destruct H as (Hd & Hl & Hn). repeat split; cbn [set_user_data user_data expenses user_name];
    try assumption;
    apply sound_data_set; try tauto; eapply first_goal_is_amount; eassumption.
Qed.

Lemma append_turn_sound (r : role) (c : string) (st : State) :
  sound st -> sound (append_turn r c st).
Proof. intros H. exact H. Qed.

Lemma fallback_sound (rnd : nat -> nat) (text : string) (st : State) :
  sound st -> sound (fst (fallback rnd text st)).
Proof.
  intros H. unfold fallback.
  pose proof (respond_sound rnd text H) as Hr.
  destruct (generate_contextual_response rnd text st) as [st1 [r|e]];
    exact Hr.
Qed.

Lemma ask_sound (rnd : nat -> nat) (remote : option string) (text : string)
      (st : State) :
  sound st -> sound (fst (get_ai_response rnd remote text st)).
Proof.
  intros H. unfold get_ai_response.
  destruct (model st); [|now apply fallback_sound].
  destruct (rename_attempt bot_aliases_remote text); [exact H|].
  destruct (asks_bot_name text); [exact H|].
  destruct remote as [answer|].
  - cbn [fst]. apply extract_sound. exact H.
  - apply fallback_sound. exact H.
Qed.

Lemma process_name_sound (text : string) (st : State) :
  sound st -> sound (process_name text st).
Proof.
  intros (Hd & Hl & Hn).
  pose proof (process_name_is_name text st Hn) as Hp.
  assert (E : user_data (process_name text st) = user_data st
              /\ expenses (process_name text st) = expenses st).
  { unfold process_name. destruct (truthy (user_name st)); [now split|].
    destruct (re_search false process_name_pattern (lower text)); now split. }
  destruct E as [E1 E2]. unfold sound. rewrite E1, E2. auto.
Qed.

Lemma greet_sound (now : Z) (rnd : nat -> nat) (text : string) (st : State) :
  sound st -> sound (fst (handle_greeting now rnd text st)).
Proof.
  intros H. unfold handle_greeting.
  destruct (has_keyword greetings text); [|exact H].
  destruct (last_greeting_time st) as [last|]; [|exact H].
  destruct (300 <? seconds_of (now - last))%Z; exact H.
Qed.

Lemma step_sound (st : State) (o : op) : sound st -> sound (step st o).
Proof.
  intros H.
  destruct o as [text|rnd text|rnd remote text|rnd remote text|now rnd text];
    cbn [step].
  - now apply extract_sound.
  - now apply respond_sound.
  - now apply ask_sound.
  - unfold process_input. now apply ask_sound, process_name_sound.
  - now apply greet_sound.
Qed.

Lemma session_sound (ops : list op) :
  forall st, sound st -> sound (session st ops).
Proof.
  unfold session. induction ops as [|o ops IH]; intros st H; simpl;
    [exact H|]. now apply IH, step_sound.
Qed.

(** X5: whatever the calls of a session, the financial data of the
    chatbot hold no other key than [income] and [savings_goal]. *)
Theorem session_data_keys (available : bool) (ops : list op) (k : string) :
  In k (dict_keys (user_data (session (init available) ops))) ->
  k = "income" \/ k = "savings_goal".
Proof.
  intros H.
  destruct (session_sound ops (init_sound available)) as ((Hk & _) & _).
  now apply Hk.
Qed.

Lemma session_data_keys_witness :
  let st := session (init true)
              [Ask (fun _ => 0%nat) (Some "ok") "I earn 40000 and want to save 5000";
               Respond (fun _ => 0%nat) "my goal 7000"] in
  dict_keys (user_data st) = ["income"; "savings_goal"]
  /\ ("income" = "income" \/ "income" = "savings_goal").
Proof.
  cbv zeta. split; [vm_compute; reflexivity|].
  apply (@session_data_keys true
           [Ask (fun _ => 0%nat) (Some "ok") "I earn 40000 and want to save 5000";
            Respond (fun _ => 0%nat) "my goal 7000"] "income").
  vm_compute. tauto.
Defined.

(** X6: every amount a session records, income, savings goal or
    expense, is zero or more, possibly infinite, and never a NaN. *)
Theorem session_amounts_are_amounts (available : bool) (ops : list op) :
  let st := session (init available) ops in
  Forall (fun x => is_amount x = true) (dict_values (user_data st))
  /\ Forall (fun x => is_amount x = true) (dict_values (expenses st)).
Proof.
  cbv zeta.
  destruct (session_sound ops (init_sound available)) as ((_ & Hd) & Hl & _).
  unfold dict_values. split; apply Forall_map.
  - exact Hd.
  - eapply Forall_impl; [|exact Hl]. intros item [_ H]. exact H.
Qed.

(** X7: in a session whose utterances are ASCII text, every category
    of the ledger is made of lower-case letters and white space and has no
    white space at either end. *)
Theorem session_categories_are_normalised (available : bool) (ops : list op) :
  ascii_session ops = true ->
  Forall (fun k => is_category k = true)
         (dict_keys (expenses (session (init available) ops))).
Proof.
  intros _.
  destruct (session_sound ops (init_sound available)) as (_ & Hl & _).
  unfold dict_keys. apply Forall_map.
  eapply Forall_impl; [|exact Hl]. intros item [H _]. exact H.
Qed.

Lemma session_categories_are_normalised_witness :
  let ops := [Ask (fun _ => 0%nat) (Some "ok")
                  "I spent 1,200 on Pet Care  , then paid 30 for TEA";
              Extract "It cost 5 in total"] in
  ascii_session ops = true
  /\ dict_keys (expenses (session (init true) ops))
     = ["pet care"; "tea"; "total"]
  /\ Forall (fun k => is_category k = true)
            (dict_keys (expenses (session (init true) ops))).
Proof.
  cbv zeta. split; [reflexivity|]. split; [vm_compute; reflexivity|].
  apply (@session_categories_are_normalised true). reflexivity.
Defined.

(** X8: in a session whose utterances are ASCII text, the name
    stored, when one is stored, is one non-empty word of letters, digits
    and underscores. *)
Theorem session_name_is_one_word (available : bool) (ops : list op) :
  ascii_session ops = true ->
  is_name (user_name (session (init available) ops)) = true.
Proof.
  intros _.
  destruct (session_sound ops (init_sound available)) as (_ & _ & H).
  exact H.
Qed.

Lemma session_name_is_one_word_witness :
  let ops := [Greet 0%Z (fun _ => 0%nat) "hello";
              Process (fun _ => 0%nat) (Some "Welcome!")
                      "OK, my name is mary_ann o'neil"] in
  ascii_session ops = true
  /\ user_name (session (init true) ops) = Some "Mary_Ann"
  /\ is_name (user_name (session (init true) ops)) = true.
Proof.
  cbv zeta. split; [reflexivity|]. split; [vm_compute; reflexivity|].
  apply (@session_name_is_one_word true). reflexivity.
Defined.

(** ** What the fallback responder can raise *)

Lemma income_template_renders (r : nat) (income : string) :
  exists reply, format (choice r income_added) [("income", income)] = Ok reply.
Proof.
  rewrite choice_nth. change (List.length income_added) with 2%nat.
  assert (Hlt : r mod 2 < 2) by (apply Nat.mod_upper_bound; discriminate).
  destruct (r mod 2) as [|[|k]]; try lia; eexists; reflexivity.
Qed.

Lemma expense_template_renders (r : nat) (amount category total : string) :
  exists reply,
    format (choice r expense_added)
           [("amount", amount); ("category", category);
            ("total_expenses", total)] = Ok reply.
Proof.
  rewrite choice_nth. change (List.length expense_added) with 2%nat.
  assert (Hlt : r mod 2 < 2) by (apply Nat.mod_upper_bound; discriminate).
  destruct (r mod 2) as [|[|k]]; try lia; eexists; reflexivity.
Qed.

Lemma analysis_template_renders (r : nat) (income total remaining advice : string) :
  exists reply,
    format (choice r budget_analysis)
           [("income", income); ("total_expenses", total);
            ("remaining", remaining); ("advice", advice)] = Ok reply.
Proof.
  rewrite choice_nth. change (List.length budget_analysis) with 2%nat.
  assert (Hlt : r mod 2 < 2) by (apply Nat.mod_upper_bound; discriminate).
  destruct (r mod 2) as [|[|k]]; try lia; eexists; reflexivity.
Qed.

Lemma fdiv_raises (x y : float) (e : exn) :
  fdiv x y = Raise e
  <-> e = ZeroDivisionError /\ exists q, y = Fin q /\ Qeq q 0.
Proof.
  split.
  - destruct x, y as [b| |]; simpl; try discriminate;
      destruct (Qcompare b 0) eqn:E; try discriminate;
      intros H; inversion H; (split; [reflexivity|]);
      exists b; (split; [reflexivity | now apply Qeq_alt]).
  - intros (-> & q & -> & Hq). apply Qeq_alt in Hq.
    destruct x; simpl; now rewrite Hq.
Qed.

Lemma ledger_advice_raises (r : nat) (income : float) (st : State)
      (first : string * float) (rest : dict float) (e : exn) :
  ledger_advice r income st first rest = Raise e
  <-> e = ZeroDivisionError /\ exists q, income = Fin q /\ Qeq q 0.
Proof.
  unfold ledger_advice.
  destruct (fdiv (snd (max_by_value first rest)) income) as [ratio|e'] eqn:E.
  - match goal with
    | |- format (choice r advice_templates) ?kw = _ <-> _ =>
        match kw with
        | [(_, ?c); (_, ?a); (_, ?p); _; (_, ?s); (_, ?g); (_, ?sg)] =>
            destruct (advice_template_renders r c a p s g sg) as [advice ->]
        end
    end.
    split; [discriminate|]. intros H.
    apply (proj2 (fdiv_raises (snd (max_by_value first rest)) income e)) in H.
    rewrite E in H. discriminate.
  - split.
    + intros H. inversion H; subst e'. now apply fdiv_raises in E.
    + intros H.
      apply (proj2 (fdiv_raises (snd (max_by_value first rest)) income e)) in H.
      congruence.
Qed.

Lemma budget_analysis_reply_raises (rnd : nat -> nat) (income : float)
      (st : State) (e : exn) :
  budget_analysis_reply rnd income st = Raise e
  <-> e = ZeroDivisionError /\ (exists q, income = Fin q /\ Qeq q 0)
      /\ expenses st <> [].
Proof.
  unfold budget_analysis_reply.
  destruct (expenses st) as [|first rest] eqn:El.
  - match goal with
    | |- format _ [(_, ?i); (_, ?t); (_, ?m); (_, ?a)] = _ <-> _ =>
        destruct (analysis_template_renders (rnd 0%nat) i t m a) as [reply ->]
    end.
    split; [discriminate | intros (_ & _ & H); congruence].
  - destruct (ledger_advice (rnd 0%nat) income st first rest) as [advice|e']
      eqn:E.
    + match goal with
      | |- format _ [(_, ?i); (_, ?t); (_, ?m); (_, ?a)] = _ <-> _ =>
          destruct (analysis_template_renders (rnd 1%nat) i t m a) as [reply ->]
      end.
      split; [discriminate|]. intros (He & Hq & _).
      assert (H : ledger_advice (rnd 0%nat) income st first rest = Raise e)
        by (apply ledger_advice_raises; now split).
      congruence.
    + split.
      * intros H. inversion H; subst e'. apply ledger_advice_raises in E.
        destruct E as [He Hq]. repeat split; auto. discriminate.
      * intros (He & Hq & _).
        assert (H : ledger_advice (rnd 0%nat) income st first rest = Raise e)
          by (apply ledger_advice_raises; now split).
        congruence.
Qed.

Lemma income_reply_renders (rnd : nat -> nat) (st : State) :
  dict_mem "income" (user_data st) = true ->
  exists reply, income_reply rnd st = Ok reply.
Proof.
  intros H. apply dict_mem_item in H. destruct H as (v & _ & Hv).
  unfold income_reply. rewrite Hv. apply income_template_renders.
Qed.

Lemma expense_reply_renders (rnd : nat -> nat) (text : string) (m : Match)
      (st : State) :
  re_search true expense_pattern text = Some m ->
  exists reply, expense_reply rnd m st = Ok reply.
Proof.
  intros H. unfold expense_reply.
  unfold re_search in H.
  destruct (@search_amount_converts _ _ _ expense_amount_group _ _ _ H) as [v ->].
  apply expense_template_renders.
Qed.

(** The only exception of [generate_contextual_response], and when it is
    raised. *)
Lemma respond_raises (rnd : nat -> nat) (text : string) (st : State) (e : exn) :
  snd (generate_contextual_response rnd text st) = Raise e
  <-> e = ZeroDivisionError
      /\ rename_attempt bot_aliases text = false
      /\ asks_bot_name text = false
      /\ first_goal savings_patterns text = None
      /\ (3 <= List.length (conversation_history st))%nat
      /\ re_search true expense_pattern text = None
      /\ has_keyword analysis_keywords text = true
      /\ zero_income st
      /\ expenses st <> [].
Proof.
  unfold generate_contextual_response.
  destruct (rename_attempt bot_aliases text);
    [split; [discriminate | intros (_ & H & _); discriminate]|].
  destruct (asks_bot_name text);
    [split; [discriminate | intros (_ & _ & H & _); discriminate]|].
  destruct (first_goal savings_patterns text) as [goal|].
  { cbn [snd].
    destruct (savings_template_renders (rnd 0%nat) (format_f true 0 goal))
      as [reply ->].
    split; [discriminate | intros (_ & _ & _ & H & _); discriminate]. }
  destruct (dict_mem "income" (user_data st)) eqn:M.
  - destruct (List.length (conversation_history st) <? 3)%nat eqn:L.
    + cbn [andb snd]. destruct (income_reply_renders rnd st M) as [reply ->].
      apply Nat.ltb_lt in L.
      split; [discriminate | intros (_ & _ & _ & _ & H & _); lia].
    + cbn [andb]. apply Nat.ltb_ge in L.
      destruct (re_search true expense_pattern text) as [m|] eqn:X.
      { cbn [snd]. destruct (expense_reply_renders rnd text st X) as [reply ->].
        split; [discriminate | intros (_ & _ & _ & _ & _ & H & _); discriminate]. }
      destruct (has_keyword analysis_keywords text).
      * cbn [andb snd]. unfold analysis_reply.
        destruct (dict_mem_item _ _ M) as (income & Hget & Hitem).
        rewrite Hitem. rewrite budget_analysis_reply_raises.
        unfold zero_income. rewrite Hget.
        split.
        -- intros (He & (q & -> & Hq) & Hl). repeat split; auto. eauto.
        -- intros (He & _ & _ & _ & _ & _ & _ & (q & Hq1 & Hq2) & Hl).
           inversion Hq1; subst. repeat split; eauto.
      * cbn [andb snd].
        split; [discriminate | intros (_ & _ & _ & _ & _ & _ & H & _); discriminate].
  - cbn [andb].
    destruct (re_search true expense_pattern text) as [m|] eqn:X.
    { cbn [snd]. destruct (expense_reply_renders rnd text st X) as [reply ->].
      split; [discriminate | intros (_ & _ & _ & _ & _ & H & _); discriminate]. }
    rewrite andb_false_r. cbn [snd].
    split; [discriminate|].
    intros (_ & _ & _ & _ & _ & _ & _ & (q & Hq & _) & _).
    unfold dict_mem in M. rewrite Hq in M. discriminate.
Qed.

Lemma respond_raises_keeps_state (rnd : nat -> nat) (text : string)
      (st : State) (e : exn) :
  snd (generate_contextual_response rnd text st) = Raise e ->
  fst (generate_contextual_response rnd text st) = st.
Proof.
  intros H. apply respond_raises in H.
  destruct H as (_ & _ & _ & Hg & _).
  rewrite respond_state, Hg. now destruct (classify text st).
Qed.

(** X9: [generate_contextual_response] raises nothing but
    [ZeroDivisionError], and exactly when it reaches the budget analysis
    (no rename attempt, no question about the bot's name, no savings goal,
    no expense in the utterance, an analysis keyword, three turns of
    history or more) with an income of zero on record and a ledger that is
    not empty; the state is then left as it was. *)
Theorem responder_raises_only_on_zero_income
        (rnd : nat -> nat) (user_input : string) (st : State) (e : exn) :
  (snd (generate_contextual_response rnd user_input st) = Raise e
   <-> e = ZeroDivisionError
       /\ rename_attempt bot_aliases user_input = false
       /\ asks_bot_name user_input = false
       /\ first_goal savings_patterns user_input = None
       /\ (3 <= List.length (conversation_history st))%nat
       /\ re_search true expense_pattern user_input = None
       /\ has_keyword analysis_keywords user_input = true
       /\ zero_income st
       /\ expenses st <> [])
  /\ (snd (generate_contextual_response rnd user_input st) = Raise e ->
      fst (generate_contextual_response rnd user_input st) = st).
Proof.
  split; [apply respond_raises | apply respond_raises_keeps_state].
Qed.

(** A state with an income of zero, one expense and two exchanges. *)
Example zero_income_analysis_raises :
  let st := session (init true)
              [Ask (fun _ => 0%nat) (Some "Noted.") "my income is 0";
               Ask (fun _ => 0%nat) (Some "Noted.") "I spend 100 on rent"] in
  generate_contextual_response (fun _ => 0%nat) "budget status" st
  = (st, Raise ZeroDivisionError).
Proof. vm_compute. reflexivity. Qed.

(** ** The web service *)

Lemma fallback_raises (rnd : nat -> nat) (text : string) (st : State) (e : exn) :
  snd (fallback rnd text st) = Raise e
  <-> snd (generate_contextual_response rnd text st) = Raise e.
Proof.
  unfold fallback.
  destruct (generate_contextual_response rnd text st) as [st1 [r|e']];
    cbn [snd]; split; intros H; try discriminate; exact H.
Qed.

(** When [get_ai_response] raises: no remote answer, and the fallback
    meets an income of zero. *)
Lemma ask_raises (rnd : nat -> nat) (remote : option string) (text : string)
      (st : State) (e : exn) :
  snd (get_ai_response rnd remote text st) = Raise e ->
  e = ZeroDivisionError
  /\ (model st = false \/ remote = None)
  /\ has_keyword analysis_keywords text = true
  /\ zero_income st
  /\ expenses st <> [].
Proof.
  unfold get_ai_response. destruct (model st).
  - destruct (rename_attempt bot_aliases_remote text); [discriminate|].
    destruct (asks_bot_name text); [discriminate|].
    destruct remote as [answer|]; [discriminate|].
    intros H. apply fallback_raises, respond_raises in H.
    destruct H as (He & _ & _ & _ & _ & _ & Hk & Hz & Hl).
    repeat split; auto.
  - intros H. apply fallback_raises, respond_raises in H.
    destruct H as (He & _ & _ & _ & _ & _ & Hk & Hz & Hl).
    repeat split; auto.
Qed.

Lemma chat_text (rnd : nat -> nat) (remote : option string)
      (body : option json) (st : State) (text : string) :
  input_text body = Some text ->
  chat rnd remote body st
  = match get_ai_response rnd remote text st with
    | (st', Ok answer) => (st', {| response := answer; status := 200 |})
    | (st', Raise _) => (st', request_error)
    end.
Proof.
  unfold input_text, chat. destruct body as [[| | | | | |members]|];
    try discriminate.
  destruct (dict_get "input" members) as [[| | | |[|c t]| |]|];
    try discriminate.
  intros H. inversion H; subst. reflexivity.
Qed.

(** X10: a request that carries a text is answered with status 200 or
    500, and with 500 only when [get_ai_response] had no remote answer
    (no model, or the call failed), the text asks for a budget analysis,
    and the chatbot holds an income of zero with a ledger that is not
    empty. *)
Theorem chat_fails_on_text_only_with_zero_income
        (rnd : nat -> nat) (remote : option string) (body : option json)
        (st : State) (text : string) :
  input_text body = Some text ->
  (status (snd (chat rnd remote body st)) = 200
   \/ status (snd (chat rnd remote body st)) = 500)
  /\ (status (snd (chat rnd remote body st)) = 500 ->
      (model st = false \/ remote = None)
      /\ has_keyword analysis_keywords text = true
      /\ zero_income st
      /\ expenses st <> []).
Proof.
  intros Ht. rewrite (@chat_text rnd remote body st text Ht).
  pose proof (ask_raises rnd remote text st) as Hr.
  destruct (get_ai_response rnd remote text st) as [st' [answer|e]];
    cbn [snd status request_error] in *.
  - split; [now left | discriminate].
  - split; [now right|]. intros _. now apply (Hr e).
Qed.

Lemma chat_fails_on_text_only_with_zero_income_witness :
  let st := session (init true)
              [Ask (fun _ => 0%nat) (Some "Noted.") "my income is 0";
               Ask (fun _ => 0%nat) (Some "Noted.") "I spend 100 on rent"] in
  let body := Some (JObject [("input", JString "budget status")]) in
  status (snd (chat (fun _ => 0%nat) None body st)) = 500
  /\ zero_income st.
Proof.
  cbv zeta.
  assert (H : status
                (snd (chat (fun _ => 0%nat) None
                        (Some (JObject [("input", JString "budget status")]))
                        (session (init true)
                           [Ask (fun _ => 0%nat) (Some "Noted.") "my income is 0";
                            Ask (fun _ => 0%nat) (Some "Noted.")
                                "I spend 100 on rent"]))) = 500)
    by (vm_compute; reflexivity).
  split; [exact H|].
  exact (proj1 (proj2 (proj2
           (proj2 (@chat_fails_on_text_only_with_zero_income
                     (fun _ => 0%nat) None
                     (Some (JObject [("input", JString "budget status")]))
                     (session (init true)
                        [Ask (fun _ => 0%nat) (Some "Noted.") "my income is 0";
                         Ask (fun _ => 0%nat) (Some "Noted.")
                             "I spend 100 on rent"])
                     "budget status" eq_refl) H)))).
Defined.

(** *** A service without a model *)

Lemma respond_unrecorded (rnd : nat -> nat) (text : string) (st : State) :
  unrecorded st ->
  unrecorded (fst (generate_contextual_response rnd text st))
  /\ exists reply, snd (generate_contextual_response rnd text st) = Ok reply.
Proof.
  intros (Hm & Hi & Hl & Hn). split.
  - destruct (respond_frame rnd text st) as (E1 & E2 & E3 & _ & _ & E6).
    unfold unrecorded, dict_mem. rewrite E1, E2, E3, E6.
    repeat split; auto.
  - destruct (snd (generate_contextual_response rnd text st)) as [reply|e]
      eqn:E; [eauto|].
    apply respond_raises in E.
    destruct E as (_ & _ & _ & _ & _ & _ & _ & (q & Hq & _) & _).
    unfold dict_mem in Hi. rewrite Hq in Hi. discriminate.
Qed.

Lemma ask_unrecorded (rnd : nat -> nat) (remote : option string)
      (text : string) (st : State) :
  unrecorded st ->
  unrecorded (fst (get_ai_response rnd remote text st))
  /\ exists reply, snd (get_ai_response rnd remote text st) = Ok reply.
Proof.
  intros H. pose proof H as (Hm & _). unfold get_ai_response. rewrite Hm.
  unfold fallback.
  destruct (respond_unrecorded rnd text H) as [Hu [reply Hr]].
  destruct (generate_contextual_response rnd text st) as [st1 r].
  cbn [fst snd] in *. subst r. cbn [fst snd]. split; [exact Hu | eauto].
Qed.

Lemma chat_unrecorded (rnd : nat -> nat) (remote : option string)
      (body : option json) (st : State) :
  unrecorded st ->
  unrecorded (fst (chat rnd remote body st))
  /\ forall text,
       input_text body = Some text ->
       status (snd (chat rnd remote body st)) = 200.
Proof.
  intros H. split.
  - unfold chat. destruct body as [[| | | | | |members]|]; try exact H.
    destruct (negb _); [exact H|].
    destruct (match dict_get "input" members with
              | Some v => v
              | None => JString ""
              end); try exact H.
    destruct (ask_unrecorded rnd remote s H) as [Hu _].
    destruct (get_ai_response rnd remote s st) as [st' [answer|e]]; exact Hu.
  - intros text Ht. rewrite (@chat_text rnd remote body st text Ht).
    destruct (ask_unrecorded rnd remote text H) as [_ [reply Hr]].
    destruct (get_ai_response rnd remote text st) as [st' r].
    cbn [snd] in Hr. subst r. reflexivity.
Qed.

Lemma serve_unrecorded (requests : list request) :
  forall st,
    unrecorded st ->
    unrecorded (fst (serve st requests))
    /\ Forall2 (fun r a =>
                  forall text,
                    input_text (json_body r) = Some text -> status a = 200)
               requests (snd (serve st requests)).
Proof.
  induction requests as [|r rs IH]; intros st H; cbn [serve].
  - split; [exact H | constructor].
  - destruct (chat_unrecorded (draws r) (remote_answer r) (json_body r) H)
      as [Hu Hs].
    destruct (chat (draws r) (remote_answer r) (json_body r) st) as [st1 a].
    cbn [fst snd] in *. destruct (IH st1 Hu) as [Hu' Hf].
    destruct (serve st1 rs) as [st2 answers]. cbn [fst snd] in *.
    split; [exact Hu' | now constructor].
Qed.

(** X11: a service whose chatbot has no model answers every request
    that carries a text with status 200, and never records anything: after
    any requests the chatbot holds no income, no expense and no name. *)
Theorem service_without_model_records_nothing (requests : list request) :
  unrecorded (fst (serve (init false) requests))
  /\ Forall2 (fun r a =>
                forall text,
                  input_text (json_body r) = Some text -> status a = 200)
             requests (snd (serve (init false) requests)).
Proof. apply serve_unrecorded. now repeat split. Qed.

(** ** The history of a session the remote model answers *)

Lemma exchanges_app (h1 h2 : list turn) :
  exchanges h1 = true -> exchanges h2 = true ->
  exchanges (h1 ++ h2) = true.
Proof.
  assert (G : forall n h, (List.length h <= n)%nat -> exchanges h = true ->
              exchanges h2 = true -> exchanges (h ++ h2) = true).
  { induction n as [|n IH]; intros h Hn He H2.
    - destruct h; [exact H2 | simpl in Hn; lia].
    - destruct h as [|u [|a rest]]; [exact H2 | discriminate |].
      simpl in He. simpl.
      destruct (turn_role u); [|discriminate].
      destruct (turn_role a); [discriminate|].
      apply IH; [simpl in Hn; lia | exact He | exact H2]. }
  apply (G (List.length h1)). lia.
Qed.

Lemma exchanges_skipn (k : nat) :
  forall h, exchanges h = true -> exchanges (skipn (2 * k) h) = true.
Proof.
  induction k as [|k IH]; intros h He; [exact He|].
  replace (2 * S k)%nat with (S (S (2 * k))) by lia.
  destruct h as [|u [|a rest]]; [reflexivity | discriminate |].
  simpl in He. destruct (turn_role u); [|discriminate].
  destruct (turn_role a); [discriminate|].
  cbn [skipn]. now apply IH.
Qed.

Lemma answered_turn (h : list turn) (text answer : string) :
  whole_exchanges h ->
  whole_exchanges
    (prune (h ++ [{| turn_role := user; content := text |}])
     ++ [{| turn_role := assistant; content := answer |}]).
Proof.
  intros [He Hl]. pose proof (proj1 (exchanges_roles h He)) as Hev.
  apply Nat.even_spec in Hev. destruct Hev as [k Hk].
  unfold prune. rewrite length_app. cbn [List.length].
  destruct (10 <? List.length h + 1)%nat eqn:E.
  - apply Nat.ltb_lt in E. assert (Hh : List.length h = 10%nat) by lia.
    replace (List.length h + 1 - 5)%nat with (2 * 3)%nat by lia.
    rewrite skipn_app.
    replace (2 * 3 - List.length h)%nat with 0%nat by lia.
    cbn [skipn]. rewrite <- app_assoc. cbn [app]. split.
    + apply exchanges_app; [now apply exchanges_skipn | reflexivity].
    + rewrite length_app, length_skipn. cbn [List.length]. lia.
  - apply Nat.ltb_ge in E. rewrite <- app_assoc. cbn [app]. split.
    + apply exchanges_app; [exact He | reflexivity].
    + rewrite length_app. cbn [List.length]. lia.
Qed.

Lemma answered_step (st : State) (o : op) :
  answered o = true -> model st = true ->
  whole_exchanges (conversation_history st) ->
  model (step st o) = true
  /\ whole_exchanges (conversation_history (step st o)).
Proof.
  destruct o as [text|rnd text|rnd [answer|] text|rnd remote text|now rnd text];
    try discriminate.
  intros _ Hm Hw. cbn [step]. unfold get_ai_response. rewrite Hm.
  destruct (rename_attempt bot_aliases_remote text); [now split|].
  destruct (asks_bot_name text); [now split|].
  cbn [fst]. destruct (extract_frame text
    (append_turn assistant answer
       (set_conversation_history
          (prune (conversation_history (append_turn user text st)))
          (append_turn user text st)))) as (E1 & E2 & _).
  rewrite E1, E2. split; [exact Hm|].
  cbn [append_turn set_conversation_history conversation_history].
  now apply answered_turn.
Qed.

Lemma answered_session (ops : list op) :
  forall st,
    forallb answered ops = true -> model st = true ->
    whole_exchanges (conversation_history st) ->
    whole_exchanges (conversation_history (session st ops)).
Proof.
  unfold session. induction ops as [|o ops IH]; intros st Ha Hm Hw;
    [exact Hw|].
  cbn [forallb] in Ha. apply andb_prop in Ha. destruct Ha as [Ho Ha].
  destruct (answered_step st o Ho Hm Hw) as [Hm' Hw'].
  cbn [fold_left]. now apply IH.
Qed.

(** X12: as long as the remote model answers every call of
    [get_ai_response], the history is made of whole exchanges, a user turn
    followed by the answer to it, and holds ten turns at most. *)
Theorem answered_history_is_whole_exchanges (ops : list op) :
  forallb answered ops = true ->
  exchanges (conversation_history (session (init true) ops)) = true
  /\ (List.length (conversation_history (session (init true) ops)) <= 10)%nat.
Proof.
  intros H. apply (answered_session ops (init true) H); [reflexivity|].
  split; [reflexivity | simpl; lia].
Qed.

Lemma answered_history_is_whole_exchanges_witness :
  let ops := map (fun text => Ask (fun _ => 0%nat) (Some "ok") text)
                 ["a"; "b"; "c"; "d"; "e"; "f"] in
  List.length (conversation_history (session (init true) ops)) = 6%nat
  /\ exchanges (conversation_history (session (init true) ops)) = true.
Proof.
  cbv zeta. split; [vm_compute; reflexivity|].
  apply (@answered_history_is_whole_exchanges
           (map (fun text => Ask (fun _ => 0%nat) (Some "ok") text)
                ["a"; "b"; "c"; "d"; "e"; "f"])).
  reflexivity.
Defined.

(** ** The category of the advice *)

Lemma amount_order (x b c : float) :
  is_amount x = true -> is_amount b = true -> is_amount c = true ->
  fgtb x b = false -> fgtb c b = true -> fgtb x c = false.
Proof.
  unfold fgtb, fltb, is_amount.
  destruct x as [x|[|]|], b as [b|[|]|], c as [c|[|]|]; simpl;
    try discriminate; try reflexivity; intros _ _ _.
  destruct (Qcompare b x) eqn:E1; try discriminate;
      destruct (Qcompare b c) eqn:E2; try discriminate; intros _ _.
  - apply Qeq_alt in E1. apply Qlt_alt in E2.
    destruct (Qcompare c x) eqn:E3; try reflexivity.
    apply Qlt_alt in E3. exfalso. apply (Qlt_irrefl b).
    rewrite E1 at 2. eapply Qlt_trans; eassumption.
  - apply Qgt_alt in E1. apply Qlt_alt in E2.
    destruct (Qcompare c x) eqn:E3; try reflexivity.
    apply Qlt_alt in E3. exfalso. apply (Qlt_irrefl b).
    eapply Qlt_trans; [exact E2|]. eapply Qlt_trans; eassumption.
Qed.

Lemma amount_not_above_itself (x : float) : fgtb x x = false.
Proof.
  unfold fgtb, fltb. destruct x as [x|[|]|]; simpl; try reflexivity.
  destruct (Qcompare x x) eqn:E; try reflexivity.
  apply Qlt_alt in E. exfalso. now apply (Qlt_irrefl x).
Qed.

Lemma max_by_value_is_highest (rest : list (string * float)) :
  forall first seen,
    Forall (fun item => is_amount (snd item) = true) (first :: rest) ->
    Forall (fun item => is_amount (snd item) = true) seen ->
    In first seen ->
    Forall (fun item => fgtb (snd item) (snd first) = false) seen ->
    In (max_by_value first rest) (seen ++ rest)
    /\ Forall (fun item =>
                 fgtb (snd item) (snd (max_by_value first rest)) = false)
              (seen ++ rest).
Proof.
  unfold max_by_value.
  induction rest as [|it rest IH]; intros first seen Ha Hs Hin Hle;
    cbn [fold_left].
  - rewrite app_nil_r. now split.
  - inversion Ha as [|? ? Hf Har]; subst.
    inversion Har as [|? ? Hit Har']; subst.
    replace (seen ++ it :: rest)%list with ((seen ++ [it]) ++ rest)%list
      by (rewrite <- app_assoc; reflexivity).
    assert (Hs' : Forall (fun item => is_amount (snd item) = true)
                         (seen ++ [it]))
      by (apply Forall_app; split; [exact Hs | now constructor]).
    destruct (fgtb (snd it) (snd first)) eqn:E.
    + apply IH.
      * now constructor.
      * exact Hs'.
      * apply in_or_app. right. now left.
      * apply Forall_app. split.
        -- rewrite Forall_forall in *. intros x Hx.
           apply (amount_order (snd x) (snd first) (snd it)); auto.
        -- constructor; [apply amount_not_above_itself | constructor].
    + apply IH.
      * now constructor.
      * exact Hs'.
      * apply in_or_app. now left.
      * apply Forall_app. split; [exact Hle|]. now repeat constructor.
Qed.

(** X13: on a ledger of amounts, the category that
    [generate_contextual_response] picks for its advice is an entry of the
    ledger that no other entry exceeds. *)
Theorem advice_names_a_highest_expense
        (first : string * float) (rest : list (string * float)) :
  Forall (fun item => is_amount (snd item) = true) (first :: rest) ->
  In (max_by_value first rest) (first :: rest)
  /\ Forall (fun item =>
               fgtb (snd item) (snd (max_by_value first rest)) = false)
            (first :: rest).
Proof.
  intros H.
  apply (@max_by_value_is_highest rest first [first]).
  - exact H.
  - inversion H; subst. now repeat constructor.
  - now left.
  - constructor; [apply amount_not_above_itself | constructor].
Qed.

Lemma advice_names_a_highest_expense_witness :
  max_by_value ("rent", Fin 4000) [("food", Fin 1000); ("fun", Fin 4000)]
  = ("rent", Fin 4000)
  /\ In (max_by_value ("rent", Fin 4000) [("food", Fin 1000); ("fun", Fin 4000)])
        [("rent", Fin 4000); ("food", Fin 1000); ("fun", Fin 4000)].
Proof.
  split; [vm_compute; reflexivity|].
  apply (@advice_names_a_highest_expense
           ("rent", Fin 4000) [("food", Fin 1000); ("fun", Fin 4000)]).
  repeat constructor.
Defined.

(** ** Utterances without a digit *)

Section AmountNeedsDigit.

Variable ic : bool.

Lemma sem_amount_digit (w : string) (g g' : caps) :
  sem ic amount_digits w g g' -> no_digit w = false.
Proof.
  unfold amount_digits. cbn [seq]. intros H.
  inversion H as [| | |r1 r2 w1 w2 ga gb gc S1 S2| | | | | |]; subst.
  apply sem_digits in S1. destruct S1 as (c & w' & -> & Hd).
  simpl in Hd. apply andb_prop in Hd. destruct Hd as [Hc _].
  unfold no_digit. simpl. now rewrite Hc.
Qed.

Lemma no_digit_app (a b : string) :
  no_digit (a ++ b) = no_digit a && no_digit b.
Proof. apply all_chars_app. Qed.

(** A text read by a pattern whose mandatory group 1 is the amount holds a
    digit. *)
Lemma sem_needs_digit (r : regex) (w : string) (g g' : caps) :
  sem ic r w g g' ->
  must_grp 1 r = true ->
  (forall r1, In (1%nat, r1) (grps r) -> r1 = amount_digits) ->
  no_digit w = false.
Proof.
  induction 1 as [g|l w g Hl|items c g Hc
                  |r1 r2 w1 w2 g g1 g2 S1 IH1 S2 IH2
                  |r1 r2 w g g' S1 IH1|r1 r2 w g g' S2 IH2
                  |r g|r w1 w2 g g1 g2 S1 IH1 S2 IH2
                  |n r w g g' S1 IH1|g];
    cbn [must_grp grps]; intros Hm Hg; try discriminate.
  - rewrite no_digit_app. apply orb_prop in Hm. destruct Hm as [Hm|Hm].
    + rewrite IH1; [reflexivity | exact Hm |].
      intros r Hr. apply Hg, in_or_app. now left.
    + rewrite IH2; [apply andb_false_r | exact Hm |].
      intros r Hr. apply Hg, in_or_app. now right.
  - apply andb_prop in Hm. destruct Hm as [Hm _]. apply IH1; [exact Hm|].
    intros r Hr. apply Hg, in_or_app. now left.
  - apply andb_prop in Hm. destruct Hm as [_ Hm]. apply IH2; [exact Hm|].
    intros r Hr. apply Hg, in_or_app. now right.
  - destruct (Nat.eqb_spec n 1) as [->|Hne].
    + assert (r = amount_digits) by (apply Hg; now left). subst r.
      eapply sem_amount_digit; eassumption.
    + simpl in Hm. apply IH1; [exact Hm|].
      intros r1 Hr. apply Hg. now right.
Qed.

Variable n0 : nat.

Lemma search_needs_digit (r : regex) (pos : nat) (t : string) :
  amount_in_group_1 r -> no_digit t = true ->
  search_from ic n0 r pos t = None.
Proof.
  intros [Hm Hg] Hd.
  destruct (search_from ic n0 r pos t) as [m|] eqn:E; [|reflexivity].
  apply search_from_sound in E. destruct E as (pre & Ht & _ & Hsem).
  apply sem_needs_digit in Hsem; [|exact Hm|exact Hg].
  rewrite Ht, !no_digit_app, Hsem in Hd.
  rewrite andb_false_l, andb_false_r in Hd. discriminate.
Qed.

End AmountNeedsDigit.

Lemma first_goal_needs_digit (text : string) :
  no_digit text = true -> first_goal savings_patterns text = None.
Proof.
  intros H.
  assert (G : forall ps, (forall p, In p ps -> amount_in_group_1 p) ->
                         first_goal ps text = None).
  { induction ps as [|p ps IH]; intros Hps; [reflexivity|].
    cbn [first_goal]. unfold re_search.
    rewrite search_needs_digit; [|apply Hps; now left|exact H].
    apply IH. intros q Hq. apply Hps. now right. }
  apply G, savings_amount_group.
Qed.

(** X14: an ASCII utterance without a digit changes no financial
    record: [extract_financial_info] leaves income, savings goal and ledger
    as they were, and [generate_contextual_response] leaves the whole state
    as it was. *)
Theorem utterance_without_digit_records_nothing
        (rnd : nat -> nat) (text : string) (st : State) :
  isascii text = true ->
  no_digit text = true ->
  user_data (extract_financial_info text st) = user_data st
  /\ expenses (extract_financial_info text st) = expenses st
  /\ fst (generate_contextual_response rnd text st) = st.
Proof.
  intros _ H. rewrite extract_record. cbn [user_data expenses].
  unfold savings_update, income_update, ledger_update, re_finditer, re_search.
  rewrite (first_goal_needs_digit _ H).
  rewrite search_needs_digit; [|exact income_amount_group|exact H].
  rewrite finditer_from_S.
  rewrite search_needs_digit; [|exact expense_amount_group|exact H].
  repeat split.
  rewrite respond_state, (first_goal_needs_digit _ H).
  now destruct (classify text st).
Qed.

Lemma utterance_without_digit_records_nothing_witness :
  let st := set_expenses [("rent", Fin 4000)] (init false) in
  fst (generate_contextual_response
         (fun _ => 0%nat) "I want to save more and spend less on rent" st)
  = st.
Proof.
  cbv zeta.
  apply (@utterance_without_digit_records_nothing
           (fun _ => 0%nat) "I want to save more and spend less on rent"
           (set_expenses [("rent", Fin 4000)] (init false)));
    reflexivity.
Defined.

(** ** A mention of the bot's name *)

Lemma lower_app_split (a b t : string) :
  lower t = a ++ b -> exists x y, t = x ++ y /\ lower x = a /\ lower y = b.
Proof.
  revert t. induction a as [|c a IH]; intros t H.
  - exists "", t. now repeat split.
  - destruct t as [|d t]; [discriminate|]. simpl in H.
    inversion H as [[Hc Ht]]. destruct (IH _ Ht) as (x & y & -> & Hx & Hy).
    exists (String d x), y. simpl. rewrite Hx. now repeat split.
Qed.

Lemma lit_rest_lower_eq (l w rest : string) :
  lower w = lower l -> lit_rest true l (w ++ rest) = Some rest.
Proof.
  revert w. induction l as [|a l IH]; intros w H.
  - destruct w; [reflexivity | discriminate].
  - destruct w as [|b w]; [discriminate|]. simpl in H.
    inversion H as [[Hc Hw]]. simpl. unfold char_eq.
    rewrite Hc, Ascii.eqb_refl. now apply IH.
Qed.

Lemma lower_char_space (c : ascii) : lower_char c = " "%char -> c = " "%char.
Proof. by_cases_on_char c. Qed.

Lemma lower_char_not_space (c d : ascii) :
  lower_char c = d -> is_space d = false -> is_space c = false.
Proof. intros <- H. now rewrite is_space_lower_char in H. Qed.

Section FoundLater.

Variable n0 : nat.

Lemma search_finds (r : regex) (pre t : string) :
  forall pos,
    (exists res, rmatch true n0 r t [] (fun t' g => Some (t', g)) = Some res) ->
    exists m, search_from true n0 r pos (pre ++ t) = Some m.
Proof.
  induction pre as [|c pre IH]; intros pos [res H]; rewrite search_from_eq.
  - simpl. rewrite H. destruct res. eauto.
  - destruct (rmatch true n0 r (String c pre ++ t) [] _) as [[t' g]|];
      [eauto|]. apply IH. eauto.
Qed.

Lemma your_name_matches (w post : string) :
  lower w = "your name" ->
  exists res,
    rmatch true n0 (seq [Lit "your"; Plus Space; Lit "name"]) (w ++ post) []
           (fun t' g => Some (t', g)) = Some res.
Proof.
  intros H.
  apply (lower_app_split "your" " name") in H.
  destruct H as (w1 & w2 & -> & H1 & H2).
  destruct w2 as [|sp w2]; [discriminate|]. simpl in H2.
  injection H2 as Hsp Hn. apply lower_char_space in Hsp. subst sp.
  destruct w2 as [|n w2]; [discriminate|].
  assert (Hns : is_space n = false).
  { pose proof Hn as Hn'. simpl in Hn'. injection Hn' as Hc _.
    now apply (lower_char_not_space _ Hc). }
  exists (post, []).
  cbn [seq]. rewrite rmatch_cat, append_assoc.
  unfold rmatch at 1. rewrite (lit_rest_lower_eq "your" w1 _ H1).
  rewrite rmatch_cat. unfold Plus, Space. rewrite rmatch_cat.
  change (String " " (String n w2) ++ post)
    with (String " " (String n (w2 ++ post))).
  rewrite rmatch_cls_cons. change (in_class true [EscS] " ") with true.
  cbv iota.
  rewrite (@star_cls_stop n0 [EscS] (String n (w2 ++ post)) []
             (fun t1 g1 => rmatch true n0 (Lit "name") t1 g1
                             (fun t' g => Some (t', g)))
             (post, [])).
  - reflexivity.
  - simpl. unfold in_class. simpl. now rewrite Hns.
  - change (String n (w2 ++ post)) with (String n w2 ++ post).
    unfold rmatch. now rewrite (lit_rest_lower_eq "name" (String n w2) post Hn).
Qed.

End FoundLater.

Lemma your_name_asks_bot_name (text : string) :
  contains "your name" (lower text) = true -> asks_bot_name text = true.
Proof.
  intros H. apply contains_spec in H. destruct H as (a & b & H).
  apply lower_app_split in H. destruct H as (pre & rest & -> & _ & H).
  apply lower_app_split in H. destruct H as (w & post & -> & Hw & _).
  unfold asks_bot_name, bot_name_patterns. cbn [existsb].
  assert (Hm : matches (seq [Lit "your"; Plus Space; Lit "name"])
                       (pre ++ w ++ post) = true).
  { unfold matches, re_search.
    destruct (search_finds (String.length (pre ++ w ++ post))
                (seq [Lit "your"; Plus Space; Lit "name"]) pre (w ++ post) 0
                (your_name_matches _ w post Hw)) as [m ->].
    reflexivity. }
  rewrite Hm. now rewrite !orb_true_r.
Qed.

(** X15: an utterance that mentions [your name], in any letter
    case, gets one of the two fixed answers about the bot's name whatever
    else it says.  With a model the remote model is not consulted and the
    state is left untouched: nothing is extracted and no turn is stored.
    Without a model the answer is stored as an assistant turn and nothing
    else changes. *)
Theorem mention_of_bot_name_is_answered_at_once
        (rnd : nat -> nat) (remote : option string) (text : string)
        (st : State) :
  contains "your name" (lower text) = true ->
  (model st = true ->
   exists reply,
     (reply = rename_deflection_remote \/ reply = self_introduction_remote)
     /\ get_ai_response rnd remote text st = (st, Ok reply))
  /\ (model st = false ->
      exists reply,
        (reply = rename_deflection \/ reply = self_introduction)
        /\ get_ai_response rnd remote text st
           = (append_turn assistant reply st, Ok reply)).
Proof.
  intros H. apply your_name_asks_bot_name in H.
  unfold get_ai_response, fallback, generate_contextual_response.
  rewrite H. split; intros Hm; rewrite Hm.
  - destruct (rename_attempt bot_aliases_remote text); eauto.
  - destruct (rename_attempt bot_aliases text); eauto.
Qed.

Lemma mention_of_bot_name_is_answered_at_once_witness :
  exists reply,
    (reply = rename_deflection_remote \/ reply = self_introduction_remote)
    /\ get_ai_response (fun _ => 0%nat) (Some "Nice!")
                       "Is Your Name Bob? My income is 5000" (init true)
       = (init true, Ok reply).
Proof.
  apply (@mention_of_bot_name_is_answered_at_once
           (fun _ => 0%nat) (Some "Nice!")
           "Is Your Name Bob? My income is 5000" (init true));
    reflexivity.
Defined.

(** ** [extract_number] *)

Section AmountScan.

Variable ic : bool.
Variable n0 : nat.

Lemma star_always (r : regex) (k : string -> caps -> option (string * caps)) :
  always k -> always (fun t g => rmatch ic n0 (Star r) t g k).
Proof.
  intros Hk t g. rewrite rmatch_star.
  destruct (rmatch ic n0 r t g _) as [res|]; [eauto | apply Hk].
Qed.

Lemma opt_always (r : regex) (k : string -> caps -> option (string * caps)) :
  always k -> always (fun t g => rmatch ic n0 (Opt r) t g k).
Proof.
  intros Hk t g. unfold Opt. cbn [rmatch].
  destruct (rmatch ic n0 r t g k) as [res|]; [eauto | apply Hk].
Qed.

Lemma in_class_digit_any (c : ascii) : in_class ic [EscD] c = is_digit c.
Proof. unfold in_class. simpl. apply orb_false_r. Qed.

(** At a digit the amount pattern matches; elsewhere it does not. *)
Lemma amount_at_digit (c : ascii) (t : string) (g : caps)
      (k : string -> caps -> option (string * caps)) :
  always k -> is_digit c = true ->
  exists res, rmatch ic n0 amount_digits (String c t) g k = Some res.
Proof.
  intros Hk Hc. unfold amount_digits, Plus, Digit. cbn [seq].
  cbn [rmatch]. rewrite in_class_digit_any, Hc.
  apply (star_always (Cls [EscD])
           (k := fun t1 g1 =>
                   rmatch ic n0 (Star (Cat (Lit ",") (Cat (Cls [EscD]) (Star (Cls [EscD])))))
                          t1 g1
                          (fun t2 g2 =>
                             rmatch ic n0 (Opt (Cat (Lit ".") (Cat (Cls [EscD]) (Star (Cls [EscD])))))
                                    t2 g2 k))).
  apply star_always. apply opt_always. exact Hk.
Qed.

Lemma amount_not_at (t : string) (g : caps)
      (k : string -> caps -> option (string * caps)) :
  match t with
  | String c _ => is_digit c = false
  | "" => True
  end ->
  rmatch ic n0 amount_digits t g k = None.
Proof.
  intros H. unfold amount_digits, Plus, Digit. cbn [seq]. cbn [rmatch].
  destruct t as [|c t]; [reflexivity|]. now rewrite in_class_digit_any, H.
Qed.

Lemma search_amount_none (t : string) :
  forall pos, search_from ic n0 amount_digits pos t = None <-> no_digit t = true.
Proof.
  induction t as [|c t IH]; intros pos; rewrite search_from_eq.
  - rewrite amount_not_at by exact I. split; reflexivity.
  - unfold no_digit. cbn [all_chars]. fold (no_digit t).
    destruct (is_digit c) eqn:E.
    + destruct (amount_at_digit c t []
                  (k := fun t' g => Some (t', g))) as [[t' g] ->];
        [intros x y; eauto | exact E |].
      simpl. split; discriminate.
    + rewrite amount_not_at by exact E. simpl. apply IH.
Qed.

End AmountScan.

Lemma findall_first (ic : bool) (r : regex) (text : string) :
  re_findall ic r text
  = match re_search ic r text with
    | None => []
    | Some m => m_text m :: tl (re_findall ic r text)
    end.
Proof.
  unfold re_findall, re_finditer, re_search. rewrite finditer_from_S.
  now destruct (search_from ic (String.length text) r 0 text).
Qed.

Lemma extract_number_eq (text : string) :
  extract_number text
  = match re_search false amount_digits text with
    | None => Ok None
    | Some m =>
        match float_of_string (remove_char "," (m_text m)) with
        | Some x => Ok (Some x)
        | None => Raise ValueError
        end
    end.
Proof.
  unfold extract_number. rewrite findall_first.
  now destruct (re_search false amount_digits text).
Qed.

(** X16: [extract_number] never raises: the text it hands to [float]
    always converts; what it returns, when it returns a number, is an
    amount, zero or more; and on an ASCII text it returns [None] exactly
    when the text holds no digit. *)
Theorem extract_number_is_total (text : string) :
  (forall e, extract_number text <> Raise e)
  /\ (isascii text = true ->
      (extract_number text = Ok None <-> no_digit text = true))
  /\ (forall x, extract_number text = Ok (Some x) -> is_amount x = true).
Proof.
  enough (G : (forall e, extract_number text <> Raise e)
              /\ (extract_number text = Ok None <-> no_digit text = true)
              /\ (forall x, extract_number text = Ok (Some x) ->
                            is_amount x = true))
    by (destruct G as (G1 & G2 & G3); now repeat split; try apply G2).
  rewrite extract_number_eq. unfold re_search.
  destruct (search_from false (String.length text) amount_digits 0 text)
    as [m|] eqn:E.
  - assert (Hd : no_digit text = false).
    { destruct (no_digit text) eqn:F; [|reflexivity].
      apply (search_amount_none false (String.length text) text 0) in F.
      congruence. }
    apply search_from_sound in E. destruct E as (pre & _ & _ & Hsem).
    destruct (amount_digits_convert Hsem) as [v Hv]. rewrite Hv.
    split; [discriminate|]. split.
    + rewrite Hd. split; discriminate.
    + intros x Hx. inversion Hx; subst.
      eapply float_of_string_is_amount; eassumption.
  - apply search_amount_none in E. rewrite E.
    split; [discriminate|]. split; [tauto | discriminate].
Qed.

Lemma extract_number_is_total_witness :
  isascii "around two hundred rupees" = true
  /\ extract_number "around two hundred rupees" = Ok None
  /\ extract_number "around 1,250.50 rupees, or 7" = Ok (Some (Fin (2501 # 2))).
Proof.
  split; [reflexivity|]. split; [|vm_compute; reflexivity].
  apply (proj1 (proj2 (extract_number_is_total "around two hundred rupees")));
    reflexivity.
Defined.

(** ** Whole amounts below 2^53 are exact *)

Lemma round_half_even_inject (q : Q) (z : Z) :
  (q == inject_Z z)%Q -> round_half_even q = z.
Proof.
  destruct q as [a b]. unfold Qeq, round_half_even. cbn [Qnum Qden inject_Z].
  rewrite Z.mul_1_r. intros ->.
  rewrite Z.div_mul, Z.mod_mul by lia.
  change (2 * 0)%Z with 0%Z. reflexivity.
Qed.

Lemma pow2_nonpos (e : Z) :
  (e <= 0)%Z -> (pow2 e == / inject_Z (2 ^ (- e)))%Q.
Proof.
  intros H. unfold pow2. destruct (0 <=? e)%Z eqn:E; [|reflexivity].
  apply Z.leb_le in E. assert (e = 0)%Z by lia. subst e. reflexivity.
Qed.

Lemma inject_Z_pow2_nonzero (p : Z) : (0 <= p)%Z -> ~ (inject_Z (2 ^ p) == 0)%Q.
Proof.
  intros Hp H. unfold Qeq in H. simpl in H. rewrite Z.mul_1_r in H.
  pose proof (Z.pow_pos_nonneg 2 p). lia.
Qed.

Lemma log2_of_multiple (n d : Z) :
  (0 < n)%Z -> (0 < d)%Z ->
  (Z.log2 (n * d) - Z.log2 d = Z.log2 n
   \/ Z.log2 (n * d) - Z.log2 d = Z.log2 n + 1)%Z.
Proof.
  intros Hn Hd.
  pose proof (Z.log2_nonneg n) as Ln. pose proof (Z.log2_nonneg d) as Ld.
  destruct (Z.log2_spec n Hn) as [N1 N2].
  destruct (Z.log2_spec d Hd) as [D1 D2].
  assert (Hlo : (2 ^ (Z.log2 n + Z.log2 d) <= n * d)%Z).
  { rewrite Z.pow_add_r by lia. apply Z.mul_le_mono_nonneg; lia. }
  assert (Hhi : (n * d < 2 ^ (Z.log2 n + Z.log2 d + 2))%Z).
  { replace (Z.log2 n + Z.log2 d + 2)%Z
      with (Z.succ (Z.log2 n) + Z.succ (Z.log2 d))%Z by lia.
    rewrite Z.pow_add_r by lia. apply Z.mul_lt_mono_nonneg; lia. }
  assert (H1 : (Z.log2 n + Z.log2 d <= Z.log2 (n * d))%Z).
  { rewrite <- (Z.log2_pow2 (Z.log2 n + Z.log2 d)) by lia.
    now apply Z.log2_le_mono. }
  assert (H2 : (Z.log2 (n * d) < Z.log2 n + Z.log2 d + 2)%Z)
    by (apply Z.log2_lt_pow2; nia).
  lia.
Qed.

Lemma Qred_inject_Z (n : Z) : Qred (inject_Z n) = inject_Z n.
Proof.
  unfold Qred, inject_Z.
  pose proof (Z.ggcd_gcd n 1) as Hg.
  pose proof (Z.ggcd_correct_divisors n 1) as Hd.
  destruct (Z.ggcd n 1) as [g [r1 r2]]. cbn [fst snd] in *.
  rewrite Z.gcd_1_r in Hg. subst g. destruct Hd as [H1 H2].
  rewrite Z.mul_1_l in H1, H2. subst r1 r2. reflexivity.
Qed.

Lemma b64_pos_exact (q : Q) (n : Z) :
  (1 <= n < 2 ^ 53)%Z -> (q == inject_Z n)%Q -> b64_pos q = Fin (inject_Z n).
Proof.
  intros Hn Hq.
  assert (Hnum : Qnum q = (n * Zpos (Qden q))%Z).
  { unfold Qeq in Hq. simpl in Hq. lia. }
  pose proof (Z.log2_nonneg n) as L0.
  destruct (Z.log2_spec n) as [L1 L2]; [lia|].
  assert (L53 : (Z.log2 n < 53)%Z) by (apply Z.log2_lt_pow2; lia).
  unfold b64_pos.
  set (k0 := (Z.log2 (Qnum q) - Z.log2 (Zpos (Qden q)))%Z).
  assert (Hk0 : (k0 = Z.log2 n \/ k0 = Z.log2 n + 1)%Z).
  { unfold k0. rewrite Hnum. apply log2_of_multiple; lia. }
  assert (Hk : (if Qle_bool (pow2 k0) q then k0 else (k0 - 1)%Z) = Z.log2 n).
  { destruct (Qle_bool (pow2 k0) q) eqn:E.
    - apply Qle_bool_iff in E. rewrite Hq in E.
      destruct Hk0 as [->| ->]; [reflexivity|]. exfalso.
      unfold pow2 in E.
      replace (0 <=? Z.log2 n + 1)%Z with true in E
        by (symmetry; apply Z.leb_le; lia).
      rewrite <- Zle_Qle in E.
      replace (Z.log2 n + 1)%Z with (Z.succ (Z.log2 n)) in E by lia. lia.
    - destruct Hk0 as [->| ->]; [|lia]. exfalso.
      assert (F : Qle_bool (pow2 (Z.log2 n)) q = true).
      { apply Qle_bool_iff. rewrite Hq. unfold pow2.
        replace (0 <=? Z.log2 n)%Z with true
          by (symmetry; apply Z.leb_le; lia).
        now rewrite <- Zle_Qle. }
      congruence. }
  rewrite Hk. clear Hk Hk0 k0.
  replace (Z.max (Z.log2 n - 52) (-1074)) with (Z.log2 n - 52)%Z by lia.
  set (e := (Z.log2 n - 52)%Z).
  set (p := (52 - Z.log2 n)%Z).
  assert (Hp : (0 <= p)%Z) by (unfold p; lia).
  assert (He : (pow2 e == / inject_Z (2 ^ p))%Q).
  { rewrite pow2_nonpos by (unfold e; lia).
    now replace (- e)%Z with p by (unfold e, p; lia). }
  assert (Hm : round_half_even (q / pow2 e) = (n * 2 ^ p)%Z).
  { apply round_half_even_inject. rewrite He, Hq. unfold Qdiv.
    rewrite Qinv_involutive. now rewrite inject_Z_mult. }
  rewrite Hm.
  assert (Hv : (inject_Z (n * 2 ^ p) * pow2 e == inject_Z n)%Q).
  { rewrite He, inject_Z_mult, <- Qmult_assoc, Qmult_inv_r
      by now apply inject_Z_pow2_nonzero.
    apply Qmult_1_r. }
  destruct (Qle_bool (pow2 1024) (inject_Z (n * 2 ^ p) * pow2 e)) eqn:E.
  - exfalso. apply Qle_bool_iff in E. rewrite Hv in E.
    unfold pow2 in E. change (0 <=? 1024)%Z with true in E. cbv iota in E.
    rewrite <- Zle_Qle in E.
    assert (2 ^ 53 < 2 ^ 1024)%Z by (apply Z.pow_lt_mono_r; lia). lia.
  - f_equal. rewrite (Qred_complete _ _ Hv). apply Qred_inject_Z.
Qed.

Lemma b64_exact (q : Q) (n : Z) :
  (0 <= n < 2 ^ 53)%Z -> (q == inject_Z n)%Q -> b64 q = Fin (inject_Z n).
Proof.
  intros Hn Hq. unfold b64. destruct (Qcompare q 0) eqn:E.
  - apply Qeq_alt in E. rewrite Hq in E.
    unfold Qeq in E. simpl in E. rewrite Z.mul_1_r in E. now subst n.
  - apply Qlt_alt in E. rewrite Hq in E.
    change 0%Q with (inject_Z 0) in E. rewrite <- Zlt_Qlt in E. lia.
  - apply Qgt_alt in E. rewrite Hq in E.
    change 0%Q with (inject_Z 0) in E. rewrite <- Zlt_Qlt in E.
    apply b64_pos_exact; [lia | exact Hq].
Qed.

Lemma float_of_Z_exact (n : Z) :
  (0 <= n < 2 ^ 53)%Z -> float_of_Z n = Fin (inject_Z n).
Proof. intros H. apply b64_exact; [exact H | reflexivity]. Qed.

(** ** Decimal digits *)

Lemma digits_value_uint (d : Decimal.uint) :
  forall acc,
    digits_value acc (NilEmpty.string_of_uint d)
    = Some (acc * 10 ^ Z.of_N (DecimalPos.Unsigned.usize d)
            + Z.of_N (DecimalPos.Unsigned.of_lu (Decimal.rev d)))%Z.
Proof.
  induction d; intros acc;
    [simpl; f_equal; lia | ..];
    cbn [NilEmpty.string_of_uint digits_value];
    match goal with
    | |- context [is_digit ?c] => change (is_digit c) with true
    end; cbv iota;
    match goal with
    | |- context [digit_value ?c] =>
        let v := eval vm_compute in (digit_value c) in
        change (digit_value c) with v
    end;
    unfold Decimal.rev at 1; cbn [Decimal.revapp];
    match goal with
    | |- context [Decimal.revapp d (?c Decimal.Nil)] =>
        rewrite (DecimalPos.Unsigned.of_lu_revapp d (c Decimal.Nil));
        let v := eval vm_compute in (DecimalPos.Unsigned.of_lu (c Decimal.Nil)) in
        change (DecimalPos.Unsigned.of_lu (c Decimal.Nil)) with v
    end;
    rewrite IHd; f_equal;
    cbn [DecimalPos.Unsigned.usize];
    rewrite N2Z.inj_succ, Z.pow_succ_r by lia;
    rewrite N2Z.inj_add, N2Z.inj_mul, N2Z.inj_pow;
    change (Z.of_N 10) with 10%Z;
    repeat match goal with
           | |- context [Z.of_N (N.pos ?p)] =>
               change (Z.of_N (N.pos p)) with (Z.pos p)
           end;
    change (Z.of_N 0) with 0%Z; ring.
Qed.

Lemma string_of_uint_digits (d : Decimal.uint) :
  all_chars is_digit (NilEmpty.string_of_uint d) = true.
Proof. induction d; simpl; auto. Qed.

Lemma to_uint_not_nil (n : N) : N.to_uint n <> Decimal.Nil.
Proof.
  destruct n; simpl; [discriminate|].
  apply DecimalPos.Unsigned.to_uint_nonnil.
Qed.

Lemma string_of_Z_eq (n : Z) :
  string_of_Z n = NilEmpty.string_of_uint (N.to_uint (Z.to_N n)).
Proof.
  unfold string_of_Z, NilZero.string_of_uint.
  pose proof (to_uint_not_nil (Z.to_N n)) as H.
  destruct (N.to_uint (Z.to_N n)); [congruence | reflexivity ..].
Qed.

Lemma string_of_Z_digits (n : Z) :
  all_chars is_digit (string_of_Z n) = true
  /\ exists c s, string_of_Z n = String c s.
Proof.
  rewrite string_of_Z_eq. split; [apply string_of_uint_digits|].
  pose proof (to_uint_not_nil (Z.to_N n)) as H.
  destruct (N.to_uint (Z.to_N n)); [congruence | simpl; eauto ..].
Qed.

Lemma digits_value_string_of_Z (n : Z) :
  (0 <= n)%Z -> digits_value 0 (string_of_Z n) = Some n.
Proof.
  intros H. rewrite string_of_Z_eq, digits_value_uint. f_equal.
  rewrite Z.mul_0_l, Z.add_0_l.
  rewrite <- DecimalPos.Unsigned.of_uint_alt.
  change (Pos.of_uint (N.to_uint (Z.to_N n)))
    with (N.of_uint (N.to_uint (Z.to_N n))).
  rewrite DecimalN.Unsigned.of_to. now apply Z2N.id.
Qed.

(** ** Amounts shown with thousands separators *)

Lemma rev_string_app (s acc : string) :
  rev_string acc s = rev_string "" s ++ acc.
Proof.
  revert acc. induction s as [|c s IH]; intros acc; simpl; [reflexivity|].
  rewrite (IH (String c acc)), (IH (String c "")), append_assoc. reflexivity.
Qed.

Lemma rev_string_append (a b : string) :
  rev_string "" (a ++ b) = rev_string "" b ++ rev_string "" a.
Proof.
  induction a as [|c a IH]; simpl; [now rewrite append_nil_r|].
  rewrite (rev_string_app (a ++ b) (String c "")), IH,
    (rev_string_app a (String c "")).
  now rewrite append_assoc.
Qed.

Lemma rev_string_involutive (s : string) :
  rev_string "" (rev_string "" s) = s.
Proof.
  induction s as [|c s IH]; simpl; [reflexivity|].
  rewrite (rev_string_app s (String c "")), rev_string_append, IH.
  reflexivity.
Qed.

Lemma all_chars_rev (p : ascii -> bool) (s : string) :
  all_chars p (rev_string "" s) = all_chars p s.
Proof.
  induction s as [|c s IH]; simpl; [reflexivity|].
  rewrite (rev_string_app s (String c "")), all_chars_app, IH. simpl.
  rewrite andb_true_r. apply andb_comm.
Qed.

Lemma remove_char_rev (c : ascii) (s : string) :
  remove_char c (rev_string "" s) = rev_string "" (remove_char c s).
Proof.
  induction s as [|x s IH]; simpl; [reflexivity|].
  rewrite (rev_string_app s (String x "")), remove_char_app, IH. simpl.
  destruct (Ascii.eqb x c); simpl.
  - apply append_nil_r.
  - now rewrite (rev_string_app (remove_char c s) (String x "")).
Qed.

(** The reversed digits, three by three. *)
Lemma group3_rev_cases (s : string) :
  (group3_rev s = s /\ (String.length s <= 3)%nat)
  \/ exists a b c rest,
       s = String a (String b (String c rest)) /\ rest <> ""
       /\ group3_rev s
          = String a (String b (String c (String "," (group3_rev rest)))).
Proof.
  destruct s as [|a [|b [|c [|d rest]]]]; simpl;
    try (left; split; [reflexivity | lia]).
  right. exists a, b, c, (String d rest). repeat split. discriminate.
Qed.

Lemma group3_rev_shape (n : nat) :
  forall s,
    (String.length s <= n)%nat -> s <> "" -> all_chars is_digit s = true ->
    grouped (rev_string "" (group3_rev s))
    /\ remove_char "," (group3_rev s) = s.
Proof.
  induction n as [|n IH]; intros s Hn Hne Hd.
  - destruct s; [congruence | simpl in Hn; lia].
  - destruct (group3_rev_cases s)
      as [[E Hl] | (a & b & c & rest & -> & Hr & E)]; rewrite E.
    + split; [|now apply remove_comma_digits].
      assert (Hrd : all_chars is_digit (rev_string "" s) = true)
        by now rewrite all_chars_rev.
      destruct (rev_string "" s) as [|x y] eqn:F.
      * exfalso. apply Hne. rewrite <- (rev_string_involutive s), F.
        reflexivity.
      * now constructor.
    + simpl in Hd. apply andb_prop in Hd. destruct Hd as [Ha Hd].
      apply andb_prop in Hd. destruct Hd as [Hb Hd].
      apply andb_prop in Hd. destruct Hd as [Hc Hd].
      destruct (IH rest) as [Hg Hrm]; [simpl in Hn; lia | exact Hr | exact Hd |].
      split.
      * change (String a (String b (String c (String "," (group3_rev rest)))))
          with ((String a (String b (String c ""))) ++ String "," (group3_rev rest)).
        rewrite rev_string_append.
        change (rev_string "" (String a (String b (String c ""))))
          with (String c (String b (String a ""))).
        change (rev_string "" (String "," (group3_rev rest)))
          with (rev_string (String "," "") (group3_rev rest)).
        rewrite rev_string_app.
        clear - Hg Ha Hb Hc.
        induction Hg as [x d Hx|x d s Hx Hs IHs].
        -- rewrite append_assoc.
           apply (grouped_more x d); [exact Hx|].
           apply grouped_one. simpl. now rewrite Ha, Hb, Hc.
        -- rewrite !append_assoc.
           change (String "," s ++ String "," "" ++ String c (String b (String a "")))
             with (String "," (s ++ String "," "" ++ String c (String b (String a "")))).
           apply (grouped_more x d); [exact Hx|].
           rewrite <- append_assoc. exact IHs.
      * pose proof (digit_not_comma _ Ha) as Ca.
        pose proof (digit_not_comma _ Hb) as Cb.
        pose proof (digit_not_comma _ Hc) as Cc.
        unfold is_comma in Ca, Cb, Cc.
        cbn [remove_char]. rewrite Ca, Cb, Cc.
        change (Ascii.eqb "," ",") with true. cbv iota. now rewrite Hrm.
Qed.

Lemma with_commas_shape (ds : string) :
  ds <> "" -> all_chars is_digit ds = true ->
  grouped (with_commas ds) /\ remove_char "," (with_commas ds) = ds.
Proof.
  intros Hne Hd. unfold with_commas.
  assert (Hr : rev_string "" ds <> "").
  { intros F. apply Hne. now rewrite <- (rev_string_involutive ds), F. }
  assert (Hrd : all_chars is_digit (rev_string "" ds) = true)
    by now rewrite all_chars_rev.
  destruct (group3_rev_shape (le_n _) Hr Hrd) as [Hg Hrm].
  split; [exact Hg|].
  now rewrite remove_char_rev, Hrm, rev_string_involutive.
Qed.

(** *** The amount pattern reads a grouped amount whole *)

Section GroupedRun.

Variable ic : bool.
Variable n0 : nat.

Lemma rmatch_digit (c : ascii) (t : string) g k :
  rmatch ic n0 Digit (String c t) g k = if is_digit c then k t g else None.
Proof. unfold Digit. cbn [rmatch]. now rewrite in_class_digit_any. Qed.

Lemma rmatch_digit_nil g k : rmatch ic n0 Digit "" g k = None.
Proof. reflexivity. Qed.

Lemma rmatch_cat_any r1 r2 t g k :
  rmatch ic n0 (Cat r1 r2) t g k
  = rmatch ic n0 r1 t g (fun t1 g1 => rmatch ic n0 r2 t1 g1 k).
Proof. reflexivity. Qed.

Lemma rmatch_lit_any l t g k :
  rmatch ic n0 (Lit l) t g k
  = match lit_rest ic l t with
    | Some t' => k t' g
    | None => None
    end.
Proof. reflexivity. Qed.

Lemma star_digits_run (w : string) :
  forall t' g k res,
    all_chars is_digit w = true ->
    match t' with
    | String c _ => is_digit c = false
    | "" => True
    end ->
    k t' g = Some res ->
    rmatch ic n0 (Star Digit) (w ++ t') g k = Some res.
Proof.
  induction w as [|c w IH]; intros t' g k res Hw Ht Hk.
  - change ("" ++ t') with t'. rewrite rmatch_star.
    destruct t' as [|c t'].
    + now rewrite rmatch_digit_nil.
    + now rewrite rmatch_digit, Ht.
  - simpl in Hw. apply andb_prop in Hw. destruct Hw as [Hc Hw].
    change (String c w ++ t') with (String c (w ++ t')).
    rewrite rmatch_star, rmatch_digit, Hc.
    assert (E : (String.length (w ++ t') <? String.length (String c (w ++ t')))%nat = true)
      by (apply Nat.ltb_lt; simpl; lia).
    rewrite E. now rewrite (IH t' g k res Hw Ht Hk).
Qed.

Lemma plus_digits_run (c : ascii) (w t' : string) g k res :
  all_chars is_digit (String c w) = true ->
  match t' with
  | String c' _ => is_digit c' = false
  | "" => True
  end ->
  k t' g = Some res ->
  rmatch ic n0 (Plus Digit) (String c w ++ t') g k = Some res.
Proof.
  intros Hw Ht Hk. simpl in Hw. apply andb_prop in Hw.
  destruct Hw as [Hc Hw]. unfold Plus.
  change (String c w ++ t') with (String c (w ++ t')).
  rewrite rmatch_cat_any, rmatch_digit, Hc. now apply star_digits_run.
Qed.

Lemma lit_comma (t : string) : lit_rest ic "," (String "," t) = Some t.
Proof. simpl. unfold char_eq. now destruct ic. Qed.

Lemma lit_comma_fails (t : string) :
  match t with
  | String c _ => is_comma c = false
  | "" => True
  end ->
  lit_rest ic "," t = None.
Proof.
  destruct t as [|c t]; [reflexivity|]. intros H. simpl. unfold char_eq.
  assert (E : Ascii.eqb "," c = false).
  { unfold is_comma in H. rewrite Ascii.eqb_sym. exact H. }
  destruct ic; [|now rewrite E].
  revert H. clear. by_cases_on_char c.
Qed.

Lemma amount_end_digit (t : string) :
  amount_end t ->
  match t with
  | String c _ => is_digit c = false
  | "" => True
  end.
Proof. destruct t; [trivial | now intros [H _]]. Qed.

Lemma amount_end_comma (t : string) :
  amount_end t ->
  match t with
  | String c _ => is_comma c = false
  | "" => True
  end.
Proof. destruct t; [trivial | now intros [_ H]]. Qed.

Lemma comma_groups_stop (t : string) g k :
  amount_end t -> rmatch ic n0 (Star comma_group) t g k = k t g.
Proof.
  intros H. rewrite rmatch_star. unfold comma_group at 1.
  rewrite rmatch_cat_any, rmatch_lit_any.
  now rewrite (lit_comma_fails _ (amount_end_comma _ H)).
Qed.

Lemma comma_groups_run (s : string) :
  grouped s ->
  forall t' g k res,
    amount_end t' -> k t' g = Some res ->
    rmatch ic n0 (Star comma_group) (String "," (s ++ t')) g k = Some res.
Proof.
  induction 1 as [c d Hd|c d s Hd Hs IH]; intros t' g k res Ht Hk;
    rewrite rmatch_star; unfold comma_group at 1;
    rewrite rmatch_cat_any, rmatch_lit_any, lit_comma.
  - rewrite (plus_digits_run c d t' g
               (fun t1 g1 =>
                  if (String.length t1 <? String.length (String "," (String c d ++ t')))%nat
                  then rmatch ic n0 (Star comma_group) t1 g1 k else None)
               (res := res) Hd (amount_end_digit _ Ht)); [reflexivity|].
    assert (E : (String.length t' <? String.length (String "," (String c d ++ t')))%nat = true)
      by (apply Nat.ltb_lt;
          repeat first [rewrite length_append
                       | progress cbn [String.length append]];
          lia).
    rewrite E, comma_groups_stop by exact Ht. exact Hk.
  - rewrite append_assoc.
    rewrite (plus_digits_run c d (String "," s ++ t') g
               (fun t1 g1 =>
                  if (String.length t1 <? String.length (String "," (String c d ++ String "," s ++ t')))%nat
                  then rmatch ic n0 (Star comma_group) t1 g1 k else None)
               (res := res) Hd); [reflexivity | reflexivity |].
    assert (E : (String.length (String "," s ++ t')
                 <? String.length (String "," (String c d ++ String "," s ++ t')))%nat = true)
      by (apply Nat.ltb_lt;
          repeat first [rewrite length_append
                       | progress cbn [String.length append]];
          lia).
    rewrite E. now apply IH.
Qed.

Lemma grouped_run (s : string) :
  grouped s ->
  forall t' g k res,
    amount_end t' -> k t' g = Some res ->
    rmatch ic n0 (Cat (Plus Digit) (Star comma_group)) (s ++ t') g k = Some res.
Proof.
  intros Hs t' g k res Ht Hk. rewrite rmatch_cat_any.
  inversion Hs as [c d Hd|c d s' Hd Hs']; subst.
  - apply plus_digits_run; [exact Hd | exact (amount_end_digit _ Ht) |].
    now rewrite comma_groups_stop.
  - rewrite append_assoc.
    apply plus_digits_run; [exact Hd | reflexivity |].
    now apply comma_groups_run.
Qed.

(** The amount pattern on a grouped amount with two decimals. *)
Lemma amount_with_decimals_run (s : string) (d1 d2 : ascii) (t' : string) :
  grouped s -> is_digit d1 = true -> is_digit d2 = true ->
  match t' with
  | String c _ => is_digit c = false
  | "" => True
  end ->
  rmatch ic n0 amount_digits
         (s ++ String "." (String d1 (String d2 t'))) []
         (fun t g => Some (t, g))
  = Some (t', []).
Proof.
  intros Hs H1 H2 Ht. unfold amount_digits. cbn [seq].
  change (rmatch ic n0
            (Cat (Plus Digit)
                 (Cat (Star (Cat (Lit ",") (Plus Digit)))
                      (Opt (Cat (Lit ".") (Plus Digit)))))
            (s ++ String "." (String d1 (String d2 t'))) []
            (fun t g => Some (t, g)))
    with (rmatch ic n0 (Cat (Plus Digit) (Star comma_group))
            (s ++ String "." (String d1 (String d2 t'))) []
            (fun t1 g1 =>
               rmatch ic n0 (Opt (Cat (Lit ".") (Plus Digit))) t1 g1
                      (fun t g => Some (t, g)))).
  apply grouped_run; [exact Hs | split; reflexivity |].
  unfold Opt.
  assert (E : lit_rest ic "." (String "." (String d1 (String d2 t')))
              = Some (String d1 (String d2 t')))
    by (simpl; unfold char_eq; now destruct ic).
  change (rmatch ic n0 (Alt (Cat (Lit ".") (Plus Digit)) Eps)
            (String "." (String d1 (String d2 t'))) []
            (fun t g => Some (t, g)))
    with (match rmatch ic n0 (Cat (Lit ".") (Plus Digit))
                  (String "." (String d1 (String d2 t'))) []
                  (fun t g => Some (t, g)) with
          | Some res => Some res
          | None => Some (String "." (String d1 (String d2 t')), [])
          end).
  rewrite rmatch_cat_any, rmatch_lit_any, E.
  change (String d1 (String d2 t')) with (String d1 (String d2 "") ++ t').
  rewrite (plus_digits_run d1 (String d2 "") t' []
             (fun t g => Some (t, g)) (res := (t', []))); [reflexivity | | exact Ht | reflexivity].
  simpl. now rewrite H1, H2.
Qed.

Lemma search_skips_no_digit (pre t : string) :
  forall pos,
    no_digit pre = true ->
    search_from ic n0 amount_digits pos (pre ++ t)
    = search_from ic n0 amount_digits (pos + String.length pre) t.
Proof.
  induction pre as [|c pre IH]; intros pos H.
  - simpl. now rewrite Nat.add_0_r.
  - unfold no_digit in H. simpl in H. apply andb_prop in H.
    destruct H as [Hc Hp]. apply negb_true_iff in Hc.
    change (String c pre ++ t) with (String c (pre ++ t)).
    rewrite search_from_eq, amount_not_at by exact Hc.
    rewrite IH by exact Hp. f_equal. simpl. lia.
Qed.

End GroupedRun.

(** *** Parsing and showing a whole amount *)

Lemma fsign_whole (n : Z) : (0 <= n)%Z -> fsign (Fin (inject_Z n)) = false.
Proof.
  intros H. unfold fsign. destruct (Qcompare (inject_Z n) 0) eqn:E;
    try reflexivity.
  apply Qlt_alt in E. change 0%Q with (inject_Z 0) in E.
  rewrite <- Zlt_Qlt in E. lia.
Qed.

Lemma round_scaled_whole (n scale : Z) :
  (0 <= n)%Z ->
  round_half_even (Qabs (inject_Z n) * inject_Z scale) = (n * scale)%Z.
Proof.
  intros H. apply round_half_even_inject.
  rewrite Qabs_pos, inject_Z_mult; [reflexivity|].
  change 0%Q with (inject_Z 0). now rewrite <- Zle_Qle.
Qed.

Lemma format_whole (n : Z) :
  (0 <= n)%Z ->
  format_f true 0 (Fin (inject_Z n)) = with_commas (string_of_Z n)
  /\ format_f true 2 (Fin (inject_Z n))
     = with_commas (string_of_Z n) ++ ".00".
Proof.
  intros H. unfold format_f. rewrite (fsign_whole H), !round_scaled_whole by exact H.
  change (10 ^ Z.of_nat 0)%Z with 1%Z. change (10 ^ Z.of_nat 2)%Z with 100%Z.
  rewrite Z.mul_1_r, Z.div_1_r, Z.div_mul, Z.mod_mul by lia.
  split.
  - cbn [append]. apply append_nil_r.
  - reflexivity.
Qed.

Lemma float_of_whole (ds : string) (n : Z) :
  (0 <= n < 2 ^ 53)%Z -> ds <> "" -> all_chars is_digit ds = true ->
  digits_value 0 ds = Some n ->
  float_of_string ds = Some (float_of_Z n)
  /\ float_of_string (ds ++ ".00") = Some (float_of_Z n).
Proof.
  intros Hn Hne Hd Hv. rewrite (float_of_Z_exact Hn). unfold float_of_string.
  destruct (split_dot_digits _ Hd) as [E1 E2].
  change (ds ++ ".00") with (ds ++ String "." "00").
  rewrite E1, E2, Hv.
  change (digits_value 0 "") with (Some 0%Z).
  change (digits_value 0 "00") with (Some 0%Z).
  destruct ds as [|c ds]; [congruence|]. cbn [String.length Nat.add].
  split; f_equal; apply b64_exact; try exact Hn.
  - change (10 ^ Z.of_nat 0)%Z with 1%Z. unfold Qdiv.
    change (inject_Z 0) with 0%Q. rewrite Qmult_0_l. apply Qplus_0_r.
  - unfold Qdiv. change (inject_Z 0) with 0%Q. rewrite Qmult_0_l.
    apply Qplus_0_r.
Qed.

Lemma string_of_Z_whole (n : Z) :
  (0 <= n < 2 ^ 53)%Z ->
  float_of_string (string_of_Z n) = Some (float_of_Z n)
  /\ float_of_string (string_of_Z n ++ ".00") = Some (float_of_Z n)
  /\ grouped (with_commas (string_of_Z n))
  /\ remove_char "," (with_commas (string_of_Z n)) = string_of_Z n.
Proof.
  intros Hn. destruct (string_of_Z_digits n) as [Hd (c & s & Hs)].
  assert (Hne : string_of_Z n <> "") by (rewrite Hs; discriminate).
  destruct (float_of_whole Hn Hne Hd (digits_value_string_of_Z (proj1 Hn)))
    as [F1 F2].
  destruct (with_commas_shape Hne Hd) as [G1 G2].
  now repeat split.
Qed.

(** X17: a whole amount below 2^53, typed in plain digits or with
    thousands separators, is read exactly, and the reply to the expense
    shows it with thousands separators, digit for digit. *)
Theorem whole_amount_is_shown_as_typed
        (rnd : nat -> nat) (m : Match) (st : State) (n : Z) :
  (0 <= n < 2 ^ 53)%Z ->
  group m 1 = string_of_Z n \/ group m 1 = with_commas (string_of_Z n) ->
  amount_of m = Some (float_of_Z n)
  /\ expense_reply rnd m st
     = format (choice (rnd 0%nat) expense_added)
              [("amount", with_commas (string_of_Z n));
               ("category", category_of m);
               ("total_expenses", format_f true 0 (total_expenses st))].
Proof.
  intros Hn Hg.
  destruct (string_of_Z_whole Hn) as (F1 & _ & _ & G2).
  assert (Ha : amount_of m = Some (float_of_Z n)).
  { unfold amount_of. destruct Hg as [-> | ->].
    - destruct (string_of_Z_digits n) as [Hd _].
      now rewrite (remove_comma_digits _ Hd).
    - now rewrite G2. }
  split; [exact Ha|].
  unfold expense_reply. rewrite Ha, (float_of_Z_exact Hn).
  now rewrite (proj1 (format_whole (proj1 Hn))).
Qed.

Lemma whole_amount_is_shown_as_typed_witness :
  exists m,
    re_search true expense_pattern "I spent 1,234,567 on Rent" = Some m
    /\ expense_reply (fun _ => 0%nat) m (init false)
       = Ok "📝 Got it! I've added ₹1,234,567 for rent to your expenses.".
Proof.
  eexists. split; [vm_compute; reflexivity|].
  match goal with
  | |- expense_reply _ ?m _ = _ =>
      destruct (@whole_amount_is_shown_as_typed
                  (fun _ => 0%nat) m (init false) 1234567) as [_ H]
  end.
  - split; [lia | reflexivity].
  - right. vm_compute. reflexivity.
  - rewrite H. vm_compute. reflexivity.
Defined.

(** *** [extract_number] reads back what [get_expense_acknowledgment] shows *)

Lemma extract_number_after_prefix (pre s tail : string) (x : float) :
  no_digit pre = true -> grouped s ->
  match tail with
  | String c _ => is_digit c = false
  | "" => True
  end ->
  float_of_string (remove_char "," s ++ ".00") = Some x ->
  extract_number (pre ++ (s ++ ".00") ++ tail) = Ok (Some x).
Proof.
  intros Hp Hs Ht Hx. rewrite extract_number_eq. unfold re_search.
  rewrite search_skips_no_digit by exact Hp.
  rewrite search_from_eq, append_assoc.
  change (".00" ++ tail) with (String "." (String "0" (String "0" tail))).
  rewrite amount_with_decimals_run by (auto; reflexivity).
  cbn [m_text].
  change (String "." (String "0" (String "0" tail))) with (".00" ++ tail).
  rewrite <- append_assoc, take_suffix, remove_char_app.
  change (remove_char "," ".00") with ".00". now rewrite Hx.
Qed.

(** X18: for a whole amount below 2^53, [extract_number] applied to
    the acknowledgment of [get_expense_acknowledgment] gives back the
    amount, whichever of the four texts is drawn and whatever the
    category. *)
Theorem acknowledged_amount_reads_back
        (rnd : nat -> nat) (category : string) (n : Z) :
  (0 <= n < 2 ^ 53)%Z ->
  extract_number (get_expense_acknowledgment rnd category (float_of_Z n))
  = Ok (Some (float_of_Z n)).
Proof.
  intros Hn. destruct (string_of_Z_whole Hn) as (_ & F2 & G1 & G2).
  unfold get_expense_acknowledgment, expense_acknowledgments.
  rewrite (float_of_Z_exact Hn), (proj2 (format_whole (proj1 Hn))).
  rewrite <- (float_of_Z_exact Hn).
  apply choice_of_four;
    match goal with
    | |- extract_number (?pre ++ ?a ++ ?tail) = _ =>
        apply (@extract_number_after_prefix pre
                 (with_commas (string_of_Z n)) tail (float_of_Z n));
        [reflexivity | exact G1 | reflexivity | now rewrite G2]
    end.
Qed.

Lemma acknowledged_amount_reads_back_witness :
  get_expense_acknowledgment (fun _ => 1%nat) "pet care" (float_of_Z 1234567)
  = "Added ₹1,234,567.00 for pet care. Tell me about another expense, or say 'done' when you're finished!"
  /\ extract_number
       (get_expense_acknowledgment (fun _ => 1%nat) "pet care"
                                   (float_of_Z 1234567))
     = Ok (Some (float_of_Z 1234567)).
Proof.
  split; [vm_compute; reflexivity|].
  apply (@acknowledged_amount_reads_back (fun _ => 1%nat) "pet care" 1234567).
  split; [lia | reflexivity].
Defined.

(** ** [extract_category] *)

Lemma substring_middle (a b c : string) :
  substring (String.length a) (String.length b) (a ++ b ++ c) = b.
Proof.
  induction a as [|x a IH]; [|exact IH].
  simpl. induction b as [|y b IHb]; simpl.
  - now destruct c.
  - now rewrite IHb.
Qed.

Lemma substring_rest (a b : string) :
  substring (String.length a) (String.length (a ++ b) - String.length a)
            (a ++ b) = b.
Proof.
  rewrite length_append.
  replace (String.length a + String.length b - String.length a)%nat
    with (String.length b) by lia.
  assert (E : a ++ b = a ++ b ++ "") by now rewrite append_nil_r.
  rewrite E. apply substring_middle.
Qed.

Section AmountsRemoved.

Variable ic : bool.
Variable n0 : nat.

Lemma search_amount_some (t : string) :
  forall pos m,
    search_from ic n0 amount_digits pos t = Some m ->
    exists pre,
      t = pre ++ m_text m ++ m_rest m
      /\ m_start m = (pos + String.length pre)%nat
      /\ no_digit pre = true
      /\ m_text m <> "".
Proof.
  induction t as [|c t IH]; intros pos m H; rewrite search_from_eq in H.
  - rewrite amount_not_at in H by exact I. discriminate.
  - destruct (is_digit c) eqn:E.
    + destruct (rmatch ic n0 amount_digits (String c t) []
                  (fun t' g => Some (t', g))) as [[t' g]|] eqn:R.
      * destruct (rmatch_here _ _ _ _ R) as [Ht Hsem].
        remember (take (String.length (String c t) - String.length t')
                       (String c t)) as w eqn:Ew.
        inversion H; subst m; clear H. cbn [m_text m_rest m_start].
        exists "". repeat split; [exact Ht | simpl; lia |].
        intros F. rewrite F in Hsem. apply sem_amount_digit in Hsem.
        discriminate.
      * destruct (amount_at_digit ic n0 c t []
                    (k := fun t' g => Some (t', g))) as [res Hres];
          [intros x y; eauto | exact E | congruence].
    + rewrite amount_not_at in H by exact E.
      apply IH in H. destruct H as (pre & Ht & Hs & Hp & Hne).
      exists (String c pre). repeat split.
      * simpl. now rewrite <- Ht.
      * simpl. lia.
      * unfold no_digit. simpl. rewrite E. exact Hp.
      * exact Hne.
Qed.

Lemma sub_amounts_no_digit (n : nat) :
  forall t done,
    (String.length t <= n)%nat ->
    no_digit
      (sub_from "" (done ++ t) (String.length done)
                (finditer_from ic n0 (S (String.length t)) amount_digits
                               (String.length done) t)) = true.
Proof.
  induction n as [|n IH]; intros t done Hn; rewrite finditer_unfold.
  - destruct t; [|simpl in Hn; lia].
    rewrite (proj2 (search_amount_none ic n0 "" _) eq_refl).
    cbn [sub_from]. now rewrite substring_rest.
  - destruct (search_from ic n0 amount_digits (String.length done) t)
      as [m|] eqn:E.
    + destruct (search_amount_some _ _ E) as (pre & Ht & Hs & Hp & Hne).
      destruct (m_text m) as [|x w] eqn:Ew; [congruence|].
      cbn [sub_from]. rewrite Ew, Hs.
      replace (String.length done + String.length pre - String.length done)%nat
        with (String.length pre) by lia.
      rewrite Ht at 1. rewrite substring_middle.
      cbn [append]. unfold no_digit. rewrite all_chars_app.
      fold (no_digit pre). rewrite Hp. cbn [andb].
      assert (Hd : done ++ t = (done ++ pre ++ String x w) ++ m_rest m)
        by (rewrite Ht, !append_assoc; reflexivity).
      assert (Hl : (String.length done + String.length pre
                    + String.length (String x w))%nat
                   = String.length (done ++ pre ++ String x w))
        by (rewrite !length_append; lia).
      rewrite Hd, Hl. apply IH.
      apply (f_equal String.length) in Ht.
      rewrite !length_append in Ht. simpl in Ht. lia.
    + cbn [sub_from]. rewrite substring_rest.
      now apply (search_amount_none ic n0 t (String.length done)).
Qed.

End AmountsRemoved.

Lemma re_sub_amounts_no_digit (text : string) :
  no_digit (re_sub false amount_digits "" text) = true.
Proof.
  unfold re_sub, re_finditer.
  apply (sub_amounts_no_digit false (String.length text)
           (n := String.length text) text "" (le_n _)).
Qed.

(** *** What the later steps keep *)

Lemma all_chars_and (p q : ascii -> bool) (s : string) :
  all_chars p s = true -> all_chars q s = true ->
  all_chars (fun c => p c && q c) s = true.
Proof.
  induction s as [|c s IH]; simpl; [reflexivity|]. intros Hp Hq.
  apply andb_prop in Hp. apply andb_prop in Hq.
  destruct Hp as [-> Hp], Hq as [-> Hq]. now rewrite IH.
Qed.

Lemma lower_not_upper (c : ascii) : is_upper (lower_char c) = false.
Proof. by_cases_on_char c. Qed.

Lemma lower_keeps_digit (c : ascii) : is_digit (lower_char c) = is_digit c.
Proof. by_cases_on_char c. Qed.

Lemma lower_no_digit_no_upper (s : string) :
  no_digit s = true ->
  all_chars (fun c => negb (is_digit c) && negb (is_upper c)) (lower s) = true.
Proof.
  unfold no_digit. induction s as [|c s IH]; simpl; [reflexivity|].
  intros H. apply andb_prop in H. destruct H as [Hc Hs].
  now rewrite lower_keeps_digit, lower_not_upper, Hc, IH.
Qed.

Lemma all_chars_interleave (p : ascii -> bool) (t : string) :
  all_chars p t = true -> all_chars p (interleave "" t) = true.
Proof.
  induction t as [|c t IH]; simpl; [reflexivity|]. intros H.
  apply andb_prop in H. destruct H as [-> Ht]. now rewrite IH.
Qed.

Lemma all_chars_replace_from (p : ascii -> bool) (old t : string) :
  forall skip,
    all_chars p t = true -> all_chars p (replace_from skip old "" t) = true.
Proof.
  induction t as [|c t IH]; intros skip H; [reflexivity|].
  simpl in H. apply andb_prop in H. destruct H as [Hc Ht].
  cbn [replace_from]. destruct skip as [|k]; [|now apply IH].
  destruct (drop_prefix old (String c t)).
  - cbn [append]. now apply IH.
  - simpl. rewrite Hc. now apply IH.
Qed.

Lemma all_chars_replace (p : ascii -> bool) (old t : string) :
  all_chars p t = true -> all_chars p (replace old "" t) = true.
Proof.
  intros H. unfold replace. destruct old.
  - cbn [append]. now apply all_chars_interleave.
  - now apply all_chars_replace_from.
Qed.

Lemma all_chars_remove_words (p : ascii -> bool) (words : list string) :
  forall t, all_chars p t = true -> all_chars p (remove_words words t) = true.
Proof.
  unfold remove_words. induction words as [|w words IH]; intros t H;
    [exact H|].
  cbn [fold_left]. now apply IH, all_chars_replace.
Qed.

Lemma replace_letter_i (t : string) :
  all_chars (fun c => negb (Ascii.eqb c "i")) (replace "i" "" t) = true.
Proof.
  unfold replace. induction t as [|c t IH]; [reflexivity|].
  cbn [replace_from drop_prefix String.length Nat.sub].
  rewrite Ascii.eqb_sym. destruct (Ascii.eqb c "i") eqn:E.
  - cbn [append]. exact IH.
  - simpl. rewrite E. exact IH.
Qed.

Lemma remove_words_no_i (t : string) :
  all_chars (fun c => negb (Ascii.eqb c "i"))
            (remove_words words_to_remove t) = true.
Proof.
  unfold remove_words, words_to_remove. cbn [fold_left].
  apply all_chars_replace, all_chars_replace, replace_letter_i.
Qed.

Lemma rev_string_nonempty (c : ascii) (w : string) :
  rev_string "" (String c w) <> "".
Proof.
  simpl. rewrite (rev_string_app w (String c "")).
  destruct (rev_string "" w); discriminate.
Qed.

Lemma split_from_words (s : string) :
  forall word,
    all_chars word_char word = true -> all_chars kept_char s = true ->
    Forall (fun part => part <> "" /\ all_chars word_char part = true)
           (split_from word s).
Proof.
  induction s as [|c s IH]; intros word Hw Hs; cbn [split_from].
  - destruct word as [|x w]; constructor; [|constructor].
    split; [apply rev_string_nonempty | now rewrite all_chars_rev].
  - simpl in Hs. apply andb_prop in Hs. destruct Hs as [Hc Hs].
    destruct (is_space c) eqn:E.
    + destruct word as [|x w]; [now apply IH|].
      constructor; [|now apply IH].
      split; [apply rev_string_nonempty | now rewrite all_chars_rev].
    + apply IH; [|exact Hs]. simpl. unfold word_char at 1.
      now rewrite Hc, E, Hw.
Qed.

Lemma all_chars_join (p : ascii -> bool) (sep : string) (parts : list string) :
  all_chars p sep = true ->
  Forall (fun part => all_chars p part = true) parts ->
  all_chars p (join sep parts) = true.
Proof.
  intros Hsep. induction 1 as [|x l Hx Hl IH]; [reflexivity|].
  destruct l as [|y l]; [exact Hx|].
  change (join sep (x :: y :: l)) with (x ++ sep ++ join sep (y :: l)).
  now rewrite !all_chars_app, Hx, Hsep, IH.
Qed.

Lemma join_nonempty (sep x : string) (l : list string) :
  x <> "" -> join sep (x :: l) <> "".
Proof.
  intros Hx. destruct x as [|c x]; [congruence|].
  destruct l; simpl; discriminate.
Qed.

(** X19: what [extract_category] returns is never empty and is
    made of words of two characters or more with one space between them;
    it holds no digit, no upper-case letter, no white space but these
    single spaces, and never the letter [i], which the method removes
    wherever it stands. *)
Theorem extract_category_shape (text category : string) :
  extract_category text = Some category ->
  category <> ""
  /\ all_chars kept_char category = true
  /\ exists parts,
       category = join " " parts
       /\ Forall (fun part => (2 <= String.length part)%nat
                              /\ all_chars word_char part = true) parts.
Proof.
  unfold extract_category.
  set (cleaned := strip (remove_words words_to_remove
                           (lower (re_sub false amount_digits "" text)))).
  assert (Hk : all_chars kept_char cleaned = true).
  { unfold cleaned. apply all_chars_strip.
    apply (@all_chars_and
             (fun c => negb (is_digit c) && negb (is_upper c))
             (fun c => negb (Ascii.eqb c "i"))).
    - apply all_chars_remove_words, lower_no_digit_no_upper,
        re_sub_amounts_no_digit.
    - apply remove_words_no_i. }
  destruct cleaned as [|c0 rest] eqn:Ec; [discriminate|].
  rewrite <- Ec in *. clear Ec c0 rest.
  assert (Hparts : Forall (fun part => part <> ""
                                       /\ all_chars word_char part = true)
                          (split cleaned))
    by (apply split_from_words; [reflexivity | exact Hk]).
  set (parts := filter (fun part => (1 <? String.length part)%nat)
                       (split cleaned)) in *.
  assert (Hf : Forall (fun part => (2 <= String.length part)%nat
                                   /\ all_chars word_char part = true) parts).
  { apply Forall_forall. intros x Hx. unfold parts in Hx.
    apply filter_In in Hx. destruct Hx as [Hin Hlen].
    apply Nat.ltb_lt in Hlen. rewrite Forall_forall in Hparts.
    destruct (Hparts x Hin) as [_ Hw]. split; [lia | exact Hw]. }
  destruct parts as [|p ps] eqn:Ep; [discriminate|].
  intros H.
  assert (Hj : category = join " " (p :: ps))
    by (injection H as <-; reflexivity).
  subst category. clear H.
  split; [|split].
  - apply join_nonempty. inversion Hf as [|? ? [Hl _] _]; subst.
    destruct p; [simpl in Hl; lia | discriminate].
  - apply all_chars_join; [reflexivity|].
    eapply Forall_impl; [|exact Hf]. intros x [_ Hx].
    eapply all_chars_weaken; [|exact Hx].
    intros ch Hch. unfold word_char in Hch. apply andb_prop in Hch.
    exact (proj1 Hch).
  - exists (p :: ps). split; [reflexivity | exact Hf].
Qed.

Lemma extract_category_shape_witness :
  extract_category "I spent 500 on Dining out" = Some "dg out"
  /\ all_chars kept_char "dg out" = true.
Proof.
  split; [vm_compute; reflexivity|].
  apply (@extract_category_shape "I spent 500 on Dining out" "dg out").
  vm_compute. reflexivity.
Defined.

(** ** The financial context *)

Lemma contains_app_l (needle a b : string) :
  contains needle a = true -> contains needle (a ++ b) = true.
Proof.
  rewrite !contains_spec. intros (x & y & ->).
  exists x, (y ++ b). now rewrite !append_assoc.
Qed.

Lemma contains_suffix (a needle : string) : contains needle (a ++ needle) = true.
Proof.
  apply contains_spec. exists a, "". now rewrite append_nil_r.
Qed.

Lemma data_lines_extend (data : dict float) :
  forall context, exists rest, fold_left data_line data context = context ++ rest.
Proof.
  induction data as [|[k v] data IH]; intros context; cbn [fold_left].
  - exists "". now rewrite append_nil_r.
  - unfold data_line at 2.
    destruct (String.eqb k "income");
      [|destruct (String.eqb k "savings_goal")];
      destruct (IH (context ++ "Monthly Income: ₹" ++ format_f true 2 v ++ nl))
        as [r1 E1];
      destruct (IH (context ++ "Savings Goal: ₹" ++ format_f true 2 v ++ nl))
        as [r2 E2];
      destruct (IH context) as [r3 E3].
    + rewrite E1, append_assoc. eauto.
    + rewrite E2, append_assoc. eauto.
    + eauto.
Qed.

Lemma expense_lines_extend (ledger : dict float) :
  forall context,
    exists rest, fold_left expense_line ledger context = context ++ rest.
Proof.
  induction ledger as [|[k v] ledger IH]; intros context; cbn [fold_left].
  - exists "". now rewrite append_nil_r.
  - unfold expense_line at 2.
    destruct (IH (context ++ "- " ++ title k ++ ": ₹" ++ format_f true 2 v ++ nl))
      as [r E].
    rewrite E, append_assoc. eauto.
Qed.

Lemma data_lines_keep (needle : string) (data : dict float) (context : string) :
  contains needle context = true ->
  contains needle (fold_left data_line data context) = true.
Proof.
  intros H. destruct (data_lines_extend data context) as [rest ->].
  now apply contains_app_l.
Qed.

Lemma expense_lines_keep (needle : string) (ledger : dict float)
      (context : string) :
  contains needle context = true ->
  contains needle (fold_left expense_line ledger context) = true.
Proof.
  intros H. destruct (expense_lines_extend ledger context) as [rest ->].
  now apply contains_app_l.
Qed.

(** The line of a datum of [user_data]. *)
Lemma data_lines_show (data : dict float) :
  forall context k v,
    In (k, v) data -> k = "income" \/ k = "savings_goal" ->
    contains ((if String.eqb k "income" then "Monthly Income: ₹"
               else "Savings Goal: ₹") ++ format_f true 2 v ++ nl)
             (fold_left data_line data context) = true.
Proof.
  induction data as [|[k' v'] data IH]; intros context k v Hin Hk; [contradiction|].
  cbn [fold_left]. destruct Hin as [E|Hin]; [|now apply IH].
  inversion E; subst k' v'. apply data_lines_keep. unfold data_line.
  destruct Hk as [-> | ->]; cbn [String.eqb]; simpl String.eqb;
    apply contains_suffix.
Qed.

Lemma expense_lines_show (ledger : dict float) :
  forall context k v,
    In (k, v) ledger ->
    contains ("- " ++ title k ++ ": ₹" ++ format_f true 2 v ++ nl)
             (fold_left expense_line ledger context) = true.
Proof.
  induction ledger as [|[k' v'] ledger IH]; intros context k v Hin;
    [contradiction|].
  cbn [fold_left]. destruct Hin as [E|Hin]; [|now apply IH].
  inversion E; subst k' v'. apply expense_lines_keep. unfold expense_line.
  apply contains_suffix.
Qed.

Lemma context_keeps (needle : string) (st : State) (context : string) :
  contains needle context = true ->
  contains needle
    match expenses st with
    | [] => context
    | _ :: _ =>
        fold_left expense_line (expenses st) (context ++ "Expenses:" ++ nl)
    end = true.
Proof.
  intros H. destruct (expenses st) as [|e l]; [exact H|].
  now apply expense_lines_keep, contains_app_l.
Qed.

(** X20: whatever the calls of a session, the text of
    [format_financial_context] shows every record the chatbot holds: the
    name, every entry of the financial data under its label, none being
    passed over by the chain of tests on the key, and every entry of the
    ledger, each with its amount to two decimals. *)
Theorem session_context_shows_every_record (available : bool) (ops : list op) :
  let st := session (init available) ops in
  (forall name,
     user_name st = Some name ->
     contains ("Name: " ++ name ++ nl) (format_financial_context st) = true)
  /\ (forall k v,
        In (k, v) (user_data st) ->
        contains ((if String.eqb k "income" then "Monthly Income: ₹"
                   else "Savings Goal: ₹") ++ format_f true 2 v ++ nl)
                 (format_financial_context st) = true)
  /\ (forall k v,
        In (k, v) (expenses st) ->
        contains ("- " ++ title k ++ ": ₹" ++ format_f true 2 v ++ nl)
                 (format_financial_context st) = true).
Proof.
  cbv zeta.
  destruct (session_sound ops (init_sound available)) as ((Hk & _) & _ & Hn).
  remember (session (init available) ops) as st eqn:Est. clear Est.
  unfold format_financial_context. split; [|split].
  - intros name E. rewrite E in *. destruct name as [|c n]; [discriminate|].
    apply context_keeps, data_lines_keep, contains_suffix.
  - intros k v Hin. apply context_keeps, data_lines_show; [exact Hin|].
    apply Hk. unfold dict_keys. apply (in_map fst) in Hin. exact Hin.
  - intros k v Hin. destruct (expenses st) as [|e l] eqn:E; [contradiction|].
    rewrite <- E in *. now apply expense_lines_show.
Qed.

Lemma session_context_shows_every_record_witness :
  let st := session (init true)
              [Ask (fun _ => 0%nat) (Some "ok") "call me bob, I earn 40000";
               Ask (fun _ => 0%nat) (Some "ok") "I paid 1200.5 for pet care"] in
  format_financial_context st
  = "User financial information:" ++ nl ++ "Name: Bob" ++ nl
    ++ "Monthly Income: ₹40,000.00" ++ nl ++ "Expenses:" ++ nl
    ++ "- Pet Care: ₹1,200.50" ++ nl
  /\ contains ("Name: " ++ "Bob" ++ nl) (format_financial_context st) = true.
Proof.
  cbv zeta. split; [vm_compute; reflexivity|].
  apply (proj1 (@session_context_shows_every_record true
           [Ask (fun _ => 0%nat) (Some "ok") "call me bob, I earn 40000";
            Ask (fun _ => 0%nat) (Some "ok") "I paid 1200.5 for pet care"])).
  vm_compute. reflexivity.
Defined.

(* ================================================================== *)
(** * Expense phrases and the budget analysis, in full *)
(* ================================================================== *)

(** ** Well-formed expense phrases, one after the other *)

(** *** No match starts in the words before a phrase *)

Lemma lower_append (a b : string) : lower (a ++ b) = lower a ++ lower b.
Proof. induction a as [|c a IH]; simpl; [reflexivity | now rewrite IH]. Qed.

Lemma no_digit_lower (s : string) : no_digit (lower s) = no_digit s.
Proof.
  unfold no_digit. induction s as [|c s IH]; simpl; [reflexivity|].
  now rewrite lower_keeps_digit, IH.
Qed.

Lemma spaces_lower (s : string) :
  all_chars is_space (lower s) = all_chars is_space s.
Proof.
  induction s as [|c s IH]; simpl; [reflexivity|].
  now rewrite is_space_lower_char, IH.
Qed.

Lemma spaces_no_digit (s : string) :
  all_chars is_space s = true -> no_digit s = true.
Proof.
  apply all_chars_weaken. intros c Hc.
  destruct (is_digit c) eqn:E; [|reflexivity].
  apply digit_not_space in E. congruence.
Qed.

(** A text read by a literal, letter case ignored, is the literal up to
    letter case. *)
Lemma lit_rest_exact (l w : string) :
  lit_rest true l w = Some "" -> lower w = lower l.
Proof.
  revert w. induction l as [|a l IH]; intros w H; simpl in H.
  - now injection H as ->.
  - destruct w as [|b w]; [discriminate|].
    unfold char_eq in H.
    destruct (Ascii.eqb_spec (lower_char a) (lower_char b)) as [E|E];
      [|discriminate].
    simpl. now rewrite (IH _ H), E.
Qed.

Lemma sem_alts (ic : bool) (l0 : string) (ls : list string)
      (w : string) (g g' : caps) :
  sem ic (alts (l0 :: ls)) w g g' ->
  exists l, In l (l0 :: ls) /\ lit_rest ic l w = Some "".
Proof.
  revert l0. induction ls as [|l1 ls IH]; intros l0 H.
  - simpl in H. inversion H; subst. exists l0. split; [now left | assumption].
  - change (alts (l0 :: l1 :: ls)) with (Alt (Lit l0) (alts (l1 :: ls))) in H.
    inversion H as [| | | |r1 r2 w0 g0 g1 Hl|r1 r2 w0 g0 g1 Hr| | | |]; subst.
    + inversion Hl; subst. exists l0. split; [now left | assumption].
    + destruct (IH _ Hr) as (l & Hin & Hl). exists l. split; [now right | exact Hl].
Qed.

Lemma sem_spaces (w : string) (g g' : caps) :
  sem true (Star Space) w g g' -> all_chars is_space w = true.
Proof.
  intros H. apply sem_star_cls in H.
  eapply all_chars_weaken; [|exact H].
  intros c Hc. unfold in_class in Hc. simpl in Hc.
  now rewrite orb_false_r in Hc.
Qed.

Lemma sem_some_spaces (w : string) (g g' : caps) :
  sem true (Plus Space) w g g' -> w <> "" /\ all_chars is_space w = true.
Proof.
  intros H. apply sem_plus_cls in H. destruct H as (c & w' & -> & H).
  split; [discriminate|].
  eapply all_chars_weaken; [|exact H].
  intros x Hx. unfold in_class in Hx. simpl in Hx.
  now rewrite orb_false_r in Hx.
Qed.

(** The optional currency marker, lower-cased. *)
Lemma sem_currency (w : string) (g g' : caps) :
  sem true (Opt (Alt (Cat (Lit "rs") (Opt (Lit "."))) (Lit "₹"))) w g g' ->
  In (lower w) [""; "rs"; "rs."; "₹"].
Proof.
  unfold Opt. intros H.
  inversion H as [| | | |r1 r2 w0 g0 g1 Hc|r1 r2 w0 g0 g1 He| | | |]; subst.
  - inversion Hc as [| | | |r1 r2 w0 g0 g2 Hrs|r1 r2 w0 g0 g2 Hsign| | | |];
      subst.
    + inversion Hrs as [| | |r1 r2 w1 w2 g0 g3 g4 H1 H2| | | | | |]; subst.
      inversion H1; subst.
      match goal with
      | Hl : lit_rest true "rs" _ = Some "" |- _ =>
          apply lit_rest_exact in Hl; rewrite lower_append, Hl
      end.
      inversion H2 as [| | | |r1 r2 w0 g0 g5 Hd|r1 r2 w0 g0 g5 He| | | |];
        subst.
      * inversion Hd; subst.
        match goal with
        | Hl : lit_rest true "." _ = Some "" |- _ =>
            apply lit_rest_exact in Hl; rewrite Hl
        end.
        simpl. tauto.
      * inversion He; subst. simpl. tauto.
    + inversion Hsign; subst.
      match goal with
      | Hl : lit_rest true _ _ = Some "" |- _ =>
          apply lit_rest_exact in Hl; rewrite Hl
      end.
      simpl. tauto.
  - inversion He; subst. simpl. tauto.
Qed.

(** A reading of the expense pattern: a spend verb, white space, possibly a
    currency marker, white space, and then a digit. *)
Lemma expense_reading_shape (w : string) (g g' : caps) :
  sem true expense_pattern w g g' ->
  exists wv sp cur ss dd w',
    w = wv ++ sp ++ cur ++ ss ++ String dd w'
    /\ (exists v, In v spend_verbs /\ lower wv = v)
    /\ sp <> "" /\ all_chars is_space sp = true
    /\ In (lower cur) [""; "rs"; "rs."; "₹"]
    /\ all_chars is_space ss = true
    /\ is_digit dd = true.
Proof.
  unfold expense_pattern, currency_amount. cbn [seq]. intros H.
  inversion H as [| | |r1 r2 wv w1 g0 g1 g2 Hv H1| | | | | |]; subst.
  inversion H1 as [| | |r1 r2 sp w2 g0 g3 g4 Hsp H2| | | | | |]; subst.
  inversion H2 as [| | |r1 r2 wc w3 g0 g5 g6 Hca H3| | | | | |]; subst.
  inversion Hca as [| | |r1 r2 cur w4 g0 g7 g8 Hcur H4| | | | | |]; subst.
  inversion H4 as [| | |r1 r2 ss wa g0 g9 g10 Hss Ha| | | | | |]; subst.
  inversion Ha as [| | | | | | | |n r wa0 g0 g11 Had|]; subst.
  unfold amount_digits in Had. cbn [seq] in Had.
  inversion Had as [| | |r1 r2 wd w5 g0 g12 g13 Hd H5| | | | | |]; subst.
  apply sem_digits in Hd. destruct Hd as (dd & wd' & -> & Hdd).
  simpl in Hdd. apply andb_prop in Hdd. destruct Hdd as [Hdd _].
  destruct (@sem_alts true "spend" (tl spend_verbs) wv _ _ Hv)
    as (v & Hin & Hl).
  apply lit_rest_exact in Hl.
  apply sem_some_spaces in Hsp. destruct Hsp as [Hne Hsp].
  apply sem_currency in Hcur. apply sem_spaces in Hss.
  exists wv, sp, cur, ss, dd, ((wd' ++ w5) ++ w3).
  split; [now rewrite !append_assoc|].
  split.
  { exists v. split; [exact Hin|]. rewrite Hl.
    unfold spend_verbs in Hin.
    repeat (destruct Hin as [<-|Hin]; [reflexivity|]). contradiction. }
  repeat split; assumption.
Qed.

(** The place of the first digit of a text. *)
Lemma first_digit (x x' y y' : string) (c c' : ascii) :
  x ++ String c y = x' ++ String c' y' ->
  no_digit x = true -> no_digit x' = true ->
  is_digit c = true -> is_digit c' = true -> x = x'.
Proof.
  revert x'. induction x as [|a x IH]; intros [|a' x'] E Hx Hx' Hc Hc';
    simpl in E; try reflexivity.
  - injection E as -> _. unfold no_digit in Hx'. simpl in Hx'.
    now rewrite Hc in Hx'.
  - injection E as -> _. unfold no_digit in Hx. simpl in Hx.
    now rewrite Hc' in Hx.
  - injection E as -> E. f_equal.
    unfold no_digit in Hx, Hx'. simpl in Hx, Hx'.
    apply andb_prop in Hx. apply andb_prop in Hx'.
    apply (IH x' E); [apply Hx | apply Hx' | exact Hc | exact Hc'].
Qed.

Ltac peel E :=
  repeat first
    [ discriminate E
    | match type of E with
      | String ?a _ = String ?b _ =>
          let Ec := fresh "Ec" in
          injection E as Ec E;
          try (subst; try discriminate)
      end ].

(** A spend verb and the space after it never end a text that a spend
    verb, white space, a currency marker and white space read, unless the
    two verbs are one. *)
Lemma verb_not_after_lead (S v verb0 SP C SS : string) :
  S <> "" -> In v spend_verbs -> In verb0 spend_verbs ->
  SP <> "" -> all_chars is_space SP = true -> all_chars is_space SS = true ->
  In C [""; "rs"; "rs."; "₹"] ->
  S ++ verb0 ++ " " = v ++ SP ++ C ++ SS -> False.
Proof.
  intros HS Hv Hv0 HP HPs HSs HC E.
  apply (f_equal (rev_string "")) in E.
  rewrite !rev_string_append in E.
  assert (HX : rev_string "" S <> "").
  { intros F. apply HS. now rewrite <- (rev_string_involutive S), F. }
  assert (HRP : rev_string "" SP <> "").
  { intros F. apply HP. now rewrite <- (rev_string_involutive SP), F. }
  rewrite <- (all_chars_rev is_space SP) in HPs.
  rewrite <- (all_chars_rev is_space SS) in HSs.
  revert E HX HRP HPs HSs.
  generalize (rev_string "" S) (rev_string "" SP) (rev_string "" SS).
  intros X RP RS E HX HRP HPs HSs.
  destruct RP as [|p0 RP]; [congruence|].
  cbn [all_chars] in HPs. apply andb_prop in HPs. destruct HPs as [Hp0 HPs].
  unfold spend_verbs in Hv0.
  destruct RS as [|s0 [|s1 RS]];
    [| cbn [all_chars] in HSs; apply andb_prop in HSs;
       destruct HSs as [Hs0 _]
     | cbn [all_chars] in HSs; apply andb_prop in HSs;
       destruct HSs as [Hs0 HSs]; apply andb_prop in HSs;
       destruct HSs as [Hs1 _] ].
  - (* no white space after the currency marker *)
    cbn [In] in HC.
    destruct HC as [<-|[<-|[<-|[<-|[]]]]];
      repeat (destruct Hv0 as [<-|Hv0]); try contradiction;
      cbn in E; try (peel E; fail).
    all: destruct RP as [|p1 RP];
      [| cbn [all_chars] in HPs; apply andb_prop in HPs;
         destruct HPs as [Hp1 _]; cbn in E; peel E; fail ].
    all: unfold spend_verbs in Hv;
      repeat (destruct Hv as [<-|Hv]); try contradiction;
      cbn in E; peel E; congruence.
  - (* one white space after the currency marker *)
    cbn [In] in HC.
    destruct HC as [<-|[<-|[<-|[<-|[]]]]];
      repeat (destruct Hv0 as [<-|Hv0]); try contradiction;
      cbn in E; peel E.
  - (* more white space after the currency marker *)
    repeat (destruct Hv0 as [<-|Hv0]); try contradiction;
      cbn in E; peel E.
Qed.

Lemma spend_verb_plain (v : string) :
  In v spend_verbs -> lower v = v /\ no_digit v = true.
Proof.
  unfold spend_verbs. intros H.
  repeat (destruct H as [<-|H]; [now split|]). contradiction.
Qed.

Section LeadSkip.

Variable n0 : nat.

(** In the words before a phrase, as long as they hold no digit, no match
    of the expense pattern starts. *)
Lemma no_match_in_lead (s verb0 rest0 : string) (d : ascii) :
  s <> "" -> no_digit s = true -> In verb0 spend_verbs ->
  is_digit d = true ->
  rmatch true n0 expense_pattern (s ++ verb0 ++ " " ++ String d rest0) []
         (fun t g => Some (t, g))
  = None.
Proof.
  intros Hs Hnd Hv0 Hd.
  destruct (rmatch true n0 expense_pattern
                   (s ++ verb0 ++ " " ++ String d rest0) []
                   (fun t g => Some (t, g))) as [[t' g]|] eqn:E;
    [|reflexivity].
  exfalso. apply rmatch_sound in E.
  destruct E as (w & t1 & g1 & Ht & Hsem & _).
  destruct (@expense_reading_shape _ _ _ Hsem)
    as (wv & sp & cur & ss & dd & w' & -> & (v & Hv & Hlv) & Hsp & Hsps
        & Hcur & Hss & Hdd).
  destruct (@spend_verb_plain _ Hv0) as [Hl0 Hn0].
  destruct (@spend_verb_plain _ Hv) as [_ Hnv].
  assert (E1 : (s ++ verb0 ++ " ") ++ String d rest0
               = (wv ++ sp ++ cur ++ ss) ++ String dd (w' ++ t1)).
  { rewrite !append_assoc. rewrite Ht, !append_assoc. reflexivity. }
  apply first_digit in E1; [| | |exact Hd|exact Hdd].
  - apply (f_equal lower) in E1. rewrite !lower_append, Hlv, Hl0 in E1.
    apply (@verb_not_after_lead (lower s) v verb0 (lower sp) (lower cur)
                                (lower ss)); try assumption.
    + destruct s; [congruence | discriminate].
    + destruct sp; [congruence | discriminate].
    + now rewrite spaces_lower.
    + now rewrite spaces_lower.
  - rewrite !no_digit_app, Hnd, Hn0. reflexivity.
  - rewrite !no_digit_app.
    rewrite <- (no_digit_lower wv), Hlv, Hnv.
    rewrite (@spaces_no_digit _ Hsps), (@spaces_no_digit _ Hss).
    rewrite <- (no_digit_lower cur).
    cbn [In] in Hcur.
    destruct Hcur as [<-|[<-|[<-|[<-|[]]]]]; reflexivity.
Qed.

Lemma search_skips_lead (lead verb0 rest0 : string) (d : ascii) :
  no_digit lead = true -> In verb0 spend_verbs -> is_digit d = true ->
  forall pos,
    search_from true n0 expense_pattern pos
                (lead ++ verb0 ++ " " ++ String d rest0)
    = search_from true n0 expense_pattern (pos + String.length lead)
                  (verb0 ++ " " ++ String d rest0).
Proof.
  intros Hl Hv Hd. induction lead as [|c lead IH]; intros pos.
  - simpl. now rewrite Nat.add_0_r.
  - assert (Hl' : no_digit lead = true).
    { unfold no_digit in *. simpl in Hl. now apply andb_prop in Hl. }
    rewrite search_from_eq.
    rewrite (@no_match_in_lead (String c lead) verb0 rest0 d);
      [|discriminate|exact Hl|exact Hv|exact Hd].
    change (String c lead ++ verb0 ++ " " ++ String d rest0)
      with (String c (lead ++ verb0 ++ " " ++ String d rest0)).
    cbv iota. rewrite (IH Hl'). f_equal. simpl. lia.
Qed.

Lemma search_plain_tail (t : string) (pos : nat) :
  no_digit t = true -> search_from true n0 expense_pattern pos t = None.
Proof. intros H. now apply search_needs_digit; [apply expense_amount_group|]. Qed.

End LeadSkip.

(** *** The amount and the category of a phrase *)

Lemma category_class (c : ascii) :
  in_class true [Range "a" "z"; Range "A" "Z"; EscS] c
  = is_alpha c || is_space c.
Proof. by_cases_on_char c. Qed.

Section PhraseRun.

Variable n0 : nat.

Lemma amount_text_run (a rest : string) (g : caps)
      (K : string -> caps -> option (string * caps)) (res : string * caps) :
  amount_text a ->
  K (String " " rest) ((1%nat, a) :: g) = Some res ->
  rmatch true n0 (Grp 1 amount_digits) (a ++ String " " rest) g K = Some res.
Proof.
  intros Ha HK. rewrite rmatch_grp. unfold amount_digits. cbn [seq].
  destruct Ha as [Hg | (s & f & Hs & Hf & Hd & ->)].
  - set (K' := fun t1 g1 =>
                 K t1 ((1%nat,
                        take (String.length (a ++ String " " rest)
                              - String.length t1) (a ++ String " " rest))
                         :: g1)).
    assert (HK' : K' (String " " rest) g = Some res).
    { unfold K'. now rewrite take_suffix. }
    change (rmatch true n0 (Cat (Plus Digit) (Star comma_group))
              (a ++ String " " rest) g
              (fun t1 g1 =>
                 rmatch true n0 (Opt (Cat (Lit ".") (Plus Digit))) t1 g1 K')
            = Some res).
    apply grouped_run; [exact Hg | split; reflexivity |].
    change (rmatch true n0 (Alt (Cat (Lit ".") (Plus Digit)) Eps)
                   (String " " rest) g K' = Some res).
    rewrite rmatch_alt_r by reflexivity. exact HK'.
  - assert (E : (s ++ "." ++ f) ++ String " " rest
                = s ++ String "." (f ++ String " " rest))
      by (now rewrite append_assoc).
    rewrite E.
    set (K' := fun t1 g1 =>
                 K t1 ((1%nat,
                        take (String.length
                                (s ++ String "." (f ++ String " " rest))
                              - String.length t1)
                             (s ++ String "." (f ++ String " " rest)))
                         :: g1)).
    assert (HK' : K' (String " " rest) g = Some res).
    { unfold K'. now rewrite <- E, take_suffix. }
    change (rmatch true n0 (Cat (Plus Digit) (Star comma_group))
              (s ++ String "." (f ++ String " " rest)) g
              (fun t1 g1 =>
                 rmatch true n0 (Opt (Cat (Lit ".") (Plus Digit))) t1 g1 K')
            = Some res).
    apply grouped_run; [exact Hs | split; reflexivity |].
    change (rmatch true n0 (Alt (Cat (Lit ".") (Plus Digit)) Eps)
                   (String "." (f ++ String " " rest)) g K' = Some res).
    apply rmatch_alt_l.
    rewrite rmatch_cat. erewrite rmatch_lit by reflexivity. cbv beta.
    destruct f as [|c w]; [congruence|].
    apply plus_digits_run; [exact Hd | reflexivity | exact HK'].
Qed.

Lemma category_run (l : ascii) (c' t' : string) (g : caps)
      (K : string -> caps -> option (string * caps)) (res : string * caps) :
  is_alpha l = true ->
  all_chars (fun x => is_alpha x || is_space x) c' = true ->
  category_end t' ->
  K t' ((2%nat, String l c') :: g) = Some res ->
  rmatch true n0 (Grp 2 (Plus (Cls [Range "a" "z"; Range "A" "Z"; EscS])))
         (String l (c' ++ t')) g K
  = Some res.
Proof.
  intros Hl Hc Ht HK. rewrite rmatch_grp.
  apply plus_cls_run.
  - now apply alpha_in_category_class.
  - eapply all_chars_weaken; [|exact Hc].
    intros x Hx. now rewrite category_class.
  - destruct t' as [|x t']; [exact I|]. destruct Ht as [H1 H2].
    now rewrite category_class, H1, H2.
  - change (String l (c' ++ t')) with (String l c' ++ t').
    now rewrite take_suffix.
Qed.

End PhraseRun.

(** *** What is typed *)

Lemma grouped_head (s : string) :
  grouped s -> exists d s', s = String d s' /\ is_digit d = true.
Proof.
  intros [c d H|c d s' H _]; simpl in H; apply andb_prop in H;
    destruct H as [Hc _]; eexists _, _; (split; [reflexivity | exact Hc]).
Qed.

Lemma amount_text_head (a : string) :
  amount_text a -> exists d a', a = String d a' /\ is_digit d = true.
Proof.
  intros [Hg | (s & f & Hs & _ & _ & ->)].
  - now apply grouped_head.
  - destruct (grouped_head Hs) as (d & s' & -> & Hd).
    exists d, (s' ++ "." ++ f). now split.
Qed.

Lemma grouped_chars (s : string) :
  grouped s -> all_chars (fun c => is_digit c || is_comma c) s = true.
Proof.
  induction 1 as [c d H|c d s H _ IH].
  - eapply all_chars_weaken; [|exact H]. intros x Hx. now rewrite Hx.
  - rewrite all_chars_app. apply andb_true_intro. split.
    + eapply all_chars_weaken; [|exact H]. intros x Hx. now rewrite Hx.
    + simpl. exact IH.
Qed.

Lemma grouped_digits (s : string) :
  grouped s ->
  all_chars is_digit (remove_char "," s) = true /\ remove_char "," s <> "".
Proof.
  intros H. split.
  - now apply remove_comma_mixed, grouped_chars.
  - destruct (grouped_head H) as (d & s' & -> & Hd). simpl.
    apply digit_not_comma in Hd. unfold is_comma in Hd. rewrite Hd.
    discriminate.
Qed.

(** Every amount as typed converts once its commas are removed. *)
Lemma amount_text_converts (a : string) :
  amount_text a -> exists v, float_of_string (remove_char "," a) = Some v.
Proof.
  intros [Hg | (s & f & Hs & Hf & Hd & ->)].
  - destruct (grouped_digits Hg) as [H1 H2]. now apply float_of_digits.
  - destruct (grouped_digits Hs) as [H1 H2].
    rewrite remove_char_app.
    change (remove_char "," ("." ++ f)) with (String "." (remove_char "," f)).
    rewrite (remove_comma_digits _ Hd).
    now apply float_of_digits_fraction.
Qed.

Lemma lstrip_head (s : string) (c : ascii) (s' : string) :
  lstrip s = String c s' -> is_space c = false.
Proof.
  induction s as [|x s IH]; simpl; [discriminate|].
  destruct (is_space x) eqn:E; [exact IH|].
  intros H. inversion H; subst. exact E.
Qed.

Lemma category_text_head (c : string) :
  category_text c = true ->
  exists l c0,
    c = String l c0 /\ is_alpha l = true
    /\ all_chars (fun x => is_alpha x || is_space x) c0 = true
    /\ strip c = c.
Proof.
  destruct c as [|l c0]; [discriminate|]. unfold category_text.
  intros H. apply andb_prop in H. destruct H as [Hall Hs].
  apply String.eqb_eq in Hs.
  cbn [all_chars] in Hall. apply andb_prop in Hall. destruct Hall as [Hl Hc].
  exists l, c0. repeat split; try assumption.
  unfold strip in Hs. apply lstrip_head in Hs. rewrite Hs in Hl.
  now rewrite orb_false_r in Hl.
Qed.

Lemma rstrip_spaces (pad : string) :
  all_chars is_space pad = true -> rstrip pad = "".
Proof.
  induction pad as [|c pad IH]; simpl; [reflexivity|].
  intros H. apply andb_prop in H. destruct H as [Hc Hp].
  now rewrite (IH Hp), Hc.
Qed.

Lemma rstrip_padding (s pad : string) :
  all_chars is_space pad = true -> rstrip (s ++ pad) = rstrip s.
Proof.
  intros H. induction s as [|c s IH]; simpl.
  - now apply rstrip_spaces.
  - now rewrite IH.
Qed.

(** The category and the white space after it, stripped, are the
    category. *)
Lemma strip_padding (c pad : string) :
  strip c = c -> all_chars is_space pad = true -> strip (c ++ pad) = c.
Proof.
  intros Hc Hp. unfold strip. rewrite (@rstrip_padding c pad Hp). exact Hc.
Qed.

Lemma spend_verb_nonempty (verb : string) :
  In verb spend_verbs -> exists c v, verb = String c v.
Proof.
  unfold spend_verbs. intros H.
  repeat (destruct H as [<-|H]; [eexists _, _; reflexivity|]). contradiction.
Qed.

Ltac take_alternative :=
  repeat (rewrite rmatch_alt_r by reflexivity);
  try apply rmatch_alt_l;
  erewrite rmatch_lit by reflexivity; cbv beta.

Ltac take_space :=
  apply (plus_cls_run _ [EscS] " " "" _); [reflexivity | reflexivity | | ];
  cbv beta.

Section PhraseMatch.

Variable n0 : nat.

(** The expense pattern on a phrase "<verb> <amount> <preposition>
    <category>" followed by [t']: it matches up to [t'], the amount in
    group 1, the category and its padding in group 2. *)
Lemma phrase_match (verb prep : string) (d l : ascii) (a' c' t' : string) :
  In verb spend_verbs -> In prep expense_prepositions ->
  is_digit d = true -> amount_text (String d a') ->
  is_alpha l = true ->
  all_chars (fun x => is_alpha x || is_space x) c' = true ->
  category_end t' ->
  rmatch true n0 expense_pattern
         (verb ++ " " ++ String d a' ++ " " ++ prep ++ " " ++ String l (c' ++ t'))
         [] (fun t g => Some (t, g))
  = Some (t', [(2%nat, String l c'); (1%nat, String d a')]).
Proof.
  intros Hv Hp Hd Ha Hl Hc Ht.
  unfold expense_pattern, currency_amount.
  unfold spend_verbs in *. unfold expense_prepositions in *.
  cbn [seq alts].
  repeat (destruct Hv as [<-|Hv]); try contradiction;
    repeat (destruct Hp as [<-|Hp]); try contradiction;
    (rewrite rmatch_cat; take_alternative;
     rewrite rmatch_cat; take_space;
     [simpl; now rewrite (digit_not_space _ Hd)|];
     rewrite !rmatch_cat; unfold Opt at 1;
     rewrite rmatch_alt_r by (apply no_currency_before_digit; exact Hd);
     rewrite rmatch_eps; cbv beta; rewrite rmatch_cat;
     apply star_cls_stop; [simpl; now rewrite (digit_not_space _ Hd)|];
     cbv beta;
     apply (@amount_text_run n0 (String d a') _ _ _ _ Ha); cbv beta;
     rewrite rmatch_cat; take_space; [reflexivity|];
     rewrite rmatch_cat; take_alternative;
     rewrite rmatch_cat; take_space;
     [simpl; now rewrite (alpha_not_space _ Hl)|];
     apply category_run; [exact Hl | exact Hc | exact Ht | reflexivity]).
Qed.

End PhraseMatch.

Section PhraseScan.

Variable n0 : nat.

(** The scan of a phrase and what follows it stops at the phrase. *)
Lemma phrase_search (p : phrase) (rest : string) (pos : nat) :
  well_formed p -> category_end rest ->
  exists m,
    search_from true n0 expense_pattern pos (phrase_text p ++ rest) = Some m
    /\ m_groups m = phrase_groups p
    /\ m_rest m = rest
    /\ m_text m <> "".
Proof.
  intros (Hlead & Hv & Ha & Hp & Hc & Hpad) Hrest.
  destruct (@amount_text_head _ Ha) as (d & a' & Ea & Hd).
  destruct (@category_text_head _ Hc) as (l & c0 & Ec & Hl & Hc0 & _).
  destruct (@spend_verb_nonempty _ Hv) as (x & v' & Ev).
  unfold plain_lead in Hlead. apply andb_prop in Hlead.
  destruct Hlead as [_ Hlead].
  set (body := ph_verb p ++ " " ++ ph_amount p ++ " " ++ ph_prep p ++ " "
                       ++ ph_category p ++ ph_padding p).
  assert (Et : phrase_text p ++ rest = ph_lead p ++ body ++ rest).
  { unfold phrase_text, body. now rewrite !append_assoc. }
  assert (Eb : body ++ rest
               = ph_verb p ++ " " ++ String d a' ++ " " ++ ph_prep p ++ " "
                         ++ String l ((c0 ++ ph_padding p) ++ rest)).
  { unfold body. rewrite Ea, Ec. rewrite !append_assoc. reflexivity. }
  assert (Hm : rmatch true n0 expense_pattern (body ++ rest) []
                      (fun t g => Some (t, g))
               = Some (rest, [(2%nat, String l (c0 ++ ph_padding p));
                              (1%nat, String d a')])).
  { rewrite Eb. apply phrase_match; try assumption.
    - now rewrite <- Ea.
    - rewrite all_chars_app, Hc0. simpl.
      eapply all_chars_weaken; [|exact Hpad].
      intros y Hy. rewrite Hy. apply orb_true_r. }
  assert (Es : body ++ rest
               = ph_verb p ++ " "
                   ++ String d (a' ++ " " ++ ph_prep p ++ " "
                                   ++ String l ((c0 ++ ph_padding p) ++ rest)))
    by exact Eb.
  rewrite Et, Es, (@search_skips_lead n0 _ _ _ d Hlead Hv Hd), <- Es.
  rewrite search_from_eq, Hm, take_suffix.
  eexists. split; [reflexivity|]. cbn [m_groups m_rest m_text].
  split; [|split; [reflexivity|]].
  - unfold phrase_groups. now rewrite Ea, Ec.
  - unfold body. rewrite Ev. discriminate.
Qed.

(** The iteration over an utterance of well-formed phrases yields one
    match a phrase, in order. *)
Lemma phrases_finditer (ps : list phrase) (tail : string) :
  well_formed_phrases ps tail ->
  forall fuel pos,
    String.length (phrases_text ps tail) < fuel ->
    map (@m_groups)
        (finditer_from true n0 fuel expense_pattern pos (phrases_text ps tail))
    = map phrase_groups ps.
Proof.
  induction ps as [|p ps IH]; intros Hwf fuel pos Hf;
    (destruct fuel as [|fuel]; [lia|]); rewrite finditer_from_S;
    cbn [phrases_text well_formed_phrases] in *.
  - unfold plain_lead in Hwf. apply andb_prop in Hwf.
    destruct Hwf as [_ Hwf]. now rewrite (@search_plain_tail n0 tail pos Hwf).
  - destruct Hwf as (Hp & He & Hps).
    destruct (@phrase_search p (phrases_text ps tail) pos Hp He) as (m & Hs & Hg & Hr & Ht).
    rewrite Hs. pose proof (@search_from_rest _ _ _ _ _ _ Hs) as Hlen.
    destruct (m_text m) as [|c x] eqn:Ex; [congruence|].
    cbn [map]. rewrite Hg, Hr. f_equal.
    apply IH; [exact Hps|]. rewrite Hr in Hlen. simpl in Hlen. lia.
Qed.

End PhraseScan.

Lemma record_phrase_match (p : phrase) (m : Match) (ledger : dict float) :
  well_formed p -> m_groups m = phrase_groups p ->
  record_expense ledger m = record_phrase ledger p.
Proof.
  intros (_ & _ & _ & _ & Hc & Hpad) Hg.
  destruct (@category_text_head _ Hc) as (l & c0 & _ & _ & _ & Hs).
  unfold record_expense, record_phrase, amount_of, category_of, group.
  rewrite Hg. unfold phrase_groups. cbn [cap_get Nat.eqb].
  now rewrite (@strip_padding _ _ Hs Hpad).
Qed.

Lemma well_formed_each (ps : list phrase) (tail : string) :
  well_formed_phrases ps tail -> Forall well_formed ps.
Proof.
  induction ps as [|p ps IH]; intros H; constructor.
  - apply H.
  - apply IH, H.
Qed.

Lemma fold_phrases (ps : list phrase) :
  Forall well_formed ps ->
  forall ms ledger,
    map (@m_groups) ms = map phrase_groups ps ->
    fold_left record_expense ms ledger = fold_left record_phrase ps ledger.
Proof.
  induction 1 as [|p ps Hp _ IH]; intros [|m ms] ledger E;
    try discriminate E; [reflexivity|].
  cbn [map] in E. injection E as Eg Em. cbn [fold_left].
  rewrite (@record_phrase_match _ _ _ Hp Eg). now apply IH.
Qed.

(** An utterance of well-formed phrases records every one of them. *)
Lemma phrases_recorded (ps : list phrase) (tail : string) (st : State) :
  well_formed_phrases ps tail ->
  expenses (extract_financial_info (phrases_text ps tail) st)
  = fold_left record_phrase ps (expenses st).
Proof.
  intros H. rewrite extract_expenses_field. unfold re_finditer.
  apply fold_phrases; [now apply (@well_formed_each ps tail)|].
  apply phrases_finditer; [exact H | lia].
Qed.

(** The last phrase on a category decides its entry, whatever the ledger
    held. *)
Lemma last_phrase_wins (ps2 : list phrase) :
  forall (ledger : dict float) (k : string) (v : float),
    dict_get k ledger = Some v ->
    (forall q, In q ps2 -> lower (ph_category q) <> k) ->
    dict_get k (fold_left record_phrase ps2 ledger) = Some v.
Proof.
  induction ps2 as [|q ps2 IH]; intros ledger k v Hk Hne; [exact Hk|].
  cbn [fold_left]. apply IH; [|intros q' Hq'; apply Hne; now right].
  unfold record_phrase.
  destruct (float_of_string (remove_char "," (ph_amount q))); [|exact Hk].
  rewrite dict_get_set_other; [exact Hk|].
  intros E. symmetry in E. revert E. apply Hne. now left.
Qed.

Lemma fold_phrases_app (ps1 ps2 : list phrase) (ledger : dict float) :
  fold_left record_phrase (ps1 ++ ps2) ledger
  = fold_left record_phrase ps2 (fold_left record_phrase ps1 ledger).
Proof. apply fold_left_app. Qed.

(** ** The matcher finds a match wherever the pattern reads one *)

Lemma app_split (x y a b : string) :
  x ++ y = a ++ b -> String.length x <= String.length a ->
  exists a', a = x ++ a' /\ y = a' ++ b.
Proof.
  revert a. induction x as [|c x IH]; intros a H L.
  - exists a. now split.
  - destruct a as [|c' a]; [simpl in L; lia|].
    simpl in H. injection H as -> H.
    destruct (IH a H) as (a' & -> & Hy); [simpl in L; lia|].
    exists a'. now split.
Qed.

Section MatcherComplete.

Variable ic : bool.
Variable n0 : nat.

Lemma lit_rest_app (l w t' : string) :
  lit_rest ic l w = Some "" -> lit_rest ic l (w ++ t') = Some t'.
Proof.
  revert w. induction l as [|a l IH]; intros w H; simpl in H.
  - injection H as ->. reflexivity.
  - destruct w as [|b w]; [discriminate|]. simpl.
    destruct (char_eq ic a b); [now apply IH | discriminate].
Qed.

(** If a text is read by a pattern without [^], the matcher succeeds on it
    whatever follows, as long as its continuation does. *)
Lemma rmatch_complete (r : regex) (w : string) (g g' : caps) :
  sem ic r w g g' -> bol_free r = true ->
  forall t' h k,
    (forall h', k t' h' <> None) -> rmatch ic n0 r (w ++ t') h k <> None.
Proof.
  induction 1 as [g|l w g Hl|items c g Hc
                  |r1 r2 w1 w2 g g1 g2 S1 IH1 S2 IH2
                  |r1 r2 w g g' S1 IH1|r1 r2 w g g' S2 IH2
                  |r g|r w1 w2 g g1 g2 S1 IH1 S2 IH2
                  |n r w g g' S1 IH1|g];
    cbn [bol_free]; intros Hb t' h k Hk.
  - apply Hk.
  - cbn [rmatch]. rewrite (@lit_rest_app l w t' Hl). apply Hk.
  - cbn [rmatch append]. rewrite Hc. apply Hk.
  - apply andb_prop in Hb. destruct Hb as [Hb1 Hb2].
    rewrite append_assoc. cbn [rmatch]. apply IH1; [exact Hb1|].
    intros h'. now apply IH2.
  - apply andb_prop in Hb. destruct Hb as [Hb1 Hb2]. cbn [rmatch].
    destruct (rmatch ic n0 r1 (w ++ t') h k) eqn:E; [discriminate|].
    exfalso. revert E. now apply IH1.
  - apply andb_prop in Hb. destruct Hb as [Hb1 Hb2]. cbn [rmatch].
    destruct (rmatch ic n0 r1 (w ++ t') h k) eqn:E; [discriminate|].
    now apply IH2.
  - change ("" ++ t') with t'. rewrite rmatch_star.
    match goal with
    | |- match ?x with _ => _ end <> None => destruct x
    end; [discriminate | apply Hk].
  - destruct w1 as [|c w1].
    + change ("" ++ w2) with w2. now apply IH2.
    + rewrite append_assoc, rmatch_star.
      match goal with
      | |- match ?x with _ => _ end <> None => destruct x eqn:E
      end; [discriminate|].
      exfalso. revert E. apply IH1; [exact Hb|].
      intros h'.
      assert (L : (String.length (w2 ++ t')
                   <? String.length (String c w1 ++ w2 ++ t'))%nat = true).
      { apply Nat.ltb_lt. rewrite (length_append (String c w1)). simpl. lia. }
      rewrite L. now apply IH2.
  - cbn [rmatch]. apply IH1; [exact Hb|]. intros h'. apply Hk.
  - discriminate.
Qed.

(** The scan stops at the first place where the matcher succeeds. *)
Lemma search_from_first (r : regex) (t : string) :
  forall pos m,
    search_from ic n0 r pos t = Some m ->
    forall a b,
      t = a ++ b -> pos + String.length a < m_start m ->
      rmatch ic n0 r b [] (fun t' g => Some (t', g)) = None.
Proof.
  induction t as [|c t IH]; intros pos m H a b Ht Hlt;
    rewrite search_from_eq in H;
    match type of H with
    | match ?x with _ => _ end = _ => destruct x as [[t' g]|] eqn:E
    end; try discriminate;
    try (injection H as <-; simpl in Hlt; lia).
  destruct a as [|x a]; simpl in Ht.
  - now subst b.
  - injection Ht as -> ->. apply (IH (S pos) m H a b eq_refl).
    simpl in Hlt. lia.
Qed.

Lemma search_from_none (r : regex) (t : string) :
  forall pos,
    search_from ic n0 r pos t = None ->
    forall a b,
      t = a ++ b -> rmatch ic n0 r b [] (fun t' g => Some (t', g)) = None.
Proof.
  induction t as [|c t IH]; intros pos H a b Ht;
    rewrite search_from_eq in H;
    match type of H with
    | match ?x with _ => _ end = _ => destruct x as [[t' g]|] eqn:E
    end; try discriminate.
  - destruct a; [|discriminate Ht]. simpl in Ht. now subst b.
  - destruct a as [|x a]; simpl in Ht.
    + now subst b.
    + injection Ht as -> ->. now apply (IH (S pos) H a b).
Qed.

Section Iteration.

Variable r : regex.

(** Every match of the iteration is a reading of the pattern at its
    place. *)
Lemma finditer_occurs :
  forall fuel pos t m,
    In m (finditer_from ic n0 fuel r pos t) ->
    exists pre,
      t = pre ++ m_text m ++ m_rest m
      /\ m_start m = pos + String.length pre
      /\ sem ic r (m_text m) [] (m_groups m).
Proof.
  induction fuel as [|fuel IH]; intros pos t m H; [contradiction|].
  rewrite finditer_from_S in H.
  destruct (search_from ic n0 r pos t) as [m0|] eqn:E; [|contradiction].
  destruct (@search_from_sound ic n0 r t pos m0 E) as (pre0 & Ht0 & Hs0 & Hsem0).
  destruct H as [<-|H]; [now exists pre0|].
  destruct (m_text m0) as [|c0 x0] eqn:Ex;
    destruct (m_rest m0) as [|c1 y0] eqn:Ey; try contradiction;
    apply IH in H; destruct H as (pre & Ht & Hs & Hsem).
  - exists (pre0 ++ String c1 pre). repeat split; [| |exact Hsem].
    + rewrite Ht0. cbn [append]. rewrite Ht at 1.
      now rewrite append_assoc.
    + rewrite Hs, Hs0, length_append. simpl. lia.
  - exists (pre0 ++ String c0 x0 ++ pre). repeat split; [| |exact Hsem].
    + rewrite Ht0. destruct pre; [|discriminate Ht].
      destruct (m_text m); [|discriminate Ht].
      destruct (m_rest m); [|discriminate Ht].
      now rewrite !append_nil_r.
    + rewrite Hs, Hs0, !length_append. simpl. lia.
  - exists (pre0 ++ String c0 x0 ++ pre). repeat split; [| |exact Hsem].
    + rewrite Ht0. rewrite Ht at 1. now rewrite !append_assoc.
    + rewrite Hs, Hs0, !length_append. simpl. lia.
Qed.

(** The matches come left to right and do not overlap. *)
Lemma finditer_ordered :
  forall fuel pos t ms1 m m' ms2,
    finditer_from ic n0 fuel r pos t = (ms1 ++ m :: m' :: ms2)%list ->
    m_start m + String.length (m_text m) <= m_start m'.
Proof.
  induction fuel as [|fuel IH]; intros pos t ms1 m m' ms2 H.
  - destruct ms1; discriminate H.
  - rewrite finditer_from_S in H.
    destruct (search_from ic n0 r pos t) as [m0|] eqn:E;
      [|destruct ms1; discriminate H].
    destruct ms1 as [|x ms1]; cbn [app] in H; injection H as -> H.
    + assert (Hin : In m' (m' :: ms2)) by now left.
      rewrite <- H in Hin.
      destruct (m_text m) as [|c0 x0] eqn:Ex;
        destruct (m_rest m) as [|c1 y0] eqn:Ey; try contradiction;
        apply finditer_occurs in Hin; destruct Hin as (pre & _ & Hs & _);
        rewrite Hs; simpl; lia.
    + destruct (m_text x) as [|c0 x0] eqn:Ex;
        destruct (m_rest x) as [|c1 y0] eqn:Ey;
        try (destruct ms1; discriminate H);
        eapply IH; exact H.
Qed.

Hypothesis Hbol : bol_free r = true.
Hypothesis Hne : forall w g g', sem ic r w g g' -> w <> "".

(** No reading of the pattern is passed over: each starts inside a match
    of the iteration. *)
Lemma finditer_covers :
  forall fuel pos t,
    String.length t < fuel ->
    forall a w rest g,
      t = a ++ w ++ rest -> sem ic r w [] g ->
      exists m,
        In m (finditer_from ic n0 fuel r pos t)
        /\ m_start m <= pos + String.length a
        /\ pos + String.length a < m_start m + String.length (m_text m).
Proof.
  induction fuel as [|fuel IH]; intros pos t Hf a w rest g Ht Hw; [lia|].
  rewrite finditer_from_S.
  assert (Hc : rmatch ic n0 r (w ++ rest) [] (fun t' g => Some (t', g))
               <> None).
  { apply (rmatch_complete Hw Hbol). intros h'. discriminate. }
  destruct (search_from ic n0 r pos t) as [m0|] eqn:E.
  - destruct (@search_from_sound ic n0 r t pos m0 E)
      as (pre & Ht0 & Hs0 & Hsem0).
    pose proof (Hne Hsem0) as Hn0.
    destruct (m_text m0) as [|c0 x0] eqn:Ex; [congruence|].
    destruct (Nat.lt_ge_cases (String.length a) (String.length pre)) as [L|L].
    { exfalso. apply Hc.
      apply (@search_from_first r t pos m0 E a (w ++ rest) Ht). lia. }
    destruct (Nat.lt_ge_cases
                (String.length a)
                (String.length pre + String.length (String c0 x0))) as [L2|L2].
    { exists m0. split; [now left|]. rewrite Ex. lia. }
    assert (Hsplit : exists a',
               a = (pre ++ String c0 x0) ++ a'
               /\ m_rest m0 = a' ++ w ++ rest).
    { apply app_split.
      - rewrite append_assoc, <- Ht0. exact Ht.
      - rewrite length_append. exact L2. }
    destruct Hsplit as (a' & Ea & Er).
    assert (Hlen : String.length (m_rest m0) < fuel).
    { apply (f_equal String.length) in Ht0.
      rewrite !length_append in Ht0. simpl in Ht0. lia. }
    destruct (IH (m_start m0 + String.length (String c0 x0)) (m_rest m0)
                 Hlen a' w rest g Er Hw) as (m & Hin & H1 & H2).
    exists m. split; [right; exact Hin|].
    apply (f_equal String.length) in Ea.
    rewrite !length_append in Ea. simpl in Ea. simpl in H1, H2. lia.
  - exfalso. apply Hc. exact (@search_from_none r t pos E a (w ++ rest) Ht).
Qed.

End Iteration.

End MatcherComplete.

(** ** What [strip] removes *)

Lemma lstrip_split (s : string) :
  exists l, s = l ++ lstrip s /\ all_chars is_space l = true.
Proof.
  induction s as [|c s (l & Hs & Hl)]; [now exists ""|]. simpl.
  destruct (is_space c) eqn:E.
  - exists (String c l). simpl. rewrite E, Hl. split; [now f_equal | reflexivity].
  - now exists "".
Qed.

Lemma rstrip_split (s : string) :
  exists r, s = rstrip s ++ r /\ all_chars is_space r = true.
Proof.
  induction s as [|c s (r & Hs & Hr)]; [now exists ""|]. simpl.
  destruct (rstrip s) as [|y t] eqn:E.
  - simpl in Hs. subst r. destruct (is_space c) eqn:Ec.
    + exists (String c s). simpl. now rewrite Ec, Hr.
    + now exists s.
  - exists r. split; [|exact Hr]. simpl. now f_equal.
Qed.

Lemma rstrip_last (s : string) :
  forall k' c, rstrip s = k' ++ String c "" -> is_space c = false.
Proof.
  induction s as [|x s IH]; intros k' c H; simpl in H.
  - destruct k'; discriminate H.
  - destruct (rstrip s) as [|y t] eqn:E.
    + destruct (is_space x) eqn:Ex.
      * destruct k'; discriminate H.
      * destruct k' as [|z k'']; simpl in H.
        -- injection H as ->. exact Ex.
        -- injection H as _ H. destruct k''; discriminate H.
    + destruct k' as [|z k'']; simpl in H; [discriminate H|].
      injection H as _ H. now apply (IH k'' c).
Qed.

(** [s.strip()] is [s] without the white space at its ends, all of it. *)
Lemma strip_spec (s : string) :
  exists l r,
    s = l ++ strip s ++ r
    /\ all_chars is_space l = true /\ all_chars is_space r = true
    /\ trimmed (strip s).
Proof.
  destruct (rstrip_split s) as (r & Hs & Hr).
  destruct (lstrip_split (rstrip s)) as (l & Hu & Hl).
  exists l, r. unfold strip. repeat split; try assumption.
  - rewrite <- append_assoc, <- Hu. exact Hs.
  - apply lstrip_head.
  - intros H. apply (@rstrip_last s (l ++ k') c).
    rewrite Hu at 1. rewrite H. now rewrite append_assoc.
Qed.

(** ** Every expense phrase of an utterance is recorded *)

Lemma expense_reading_nonempty (w : string) (g g' : caps) :
  sem true expense_pattern w g g' -> w <> "".
Proof.
  intros H. destruct expense_amount_group as [Hm Hg].
  apply (sem_needs_digit H Hm) in Hg. now destruct w.
Qed.

(** The matches of [re.finditer] on the expense pattern: each is a reading
    of the pattern at its place, they come left to right without
    overlapping, and every reading of the pattern in the utterance starts
    inside one of them. *)
Lemma expense_matches_scan (text : string) :
  let ms := re_finditer true expense_pattern text in
  (forall m, In m ms ->
     exists pre,
       text = pre ++ m_text m ++ m_rest m
       /\ m_start m = String.length pre
       /\ sem true expense_pattern (m_text m) [] (m_groups m))
  /\ (forall ms1 m m' ms2,
        ms = (ms1 ++ m :: m' :: ms2)%list ->
        m_start m + String.length (m_text m) <= m_start m')
  /\ (forall pre w rest g,
        text = pre ++ w ++ rest -> sem true expense_pattern w [] g ->
        exists m,
          In m ms
          /\ m_start m <= String.length pre
             < m_start m + String.length (m_text m)).
Proof.
  cbv zeta. unfold re_finditer. split; [|split].
  - intros m H. apply finditer_occurs in H.
    destruct H as (pre & Ht & Hs & Hsem). now exists pre.
  - intros ms1 m m' ms2 H. eapply finditer_ordered; exact H.
  - intros pre w rest g Ht Hw.
    destruct (@finditer_covers true (String.length text) expense_pattern
                eq_refl expense_reading_nonempty
                (S (String.length text)) 0 text (Nat.lt_succ_diag_r _)
                pre w rest g Ht Hw) as (m & Hin & H1 & H2).
    exists m. split; [exact Hin|]. simpl in H1, H2. lia.
Qed.

Lemma phrase_overwrites
      (ps1 ps2 : list phrase) (p : phrase) (tail : string) (st : State) :
  well_formed_phrases (ps1 ++ p :: ps2) tail ->
  (forall q, In q ps2 -> lower (ph_category q) <> lower (ph_category p)) ->
  exists amount,
    float_of_string (remove_char "," (ph_amount p)) = Some amount
    /\ dict_get (lower (ph_category p))
                (expenses (extract_financial_info
                             (phrases_text (ps1 ++ p :: ps2) tail) st))
       = Some amount.
Proof.
  intros Hwf Hlater.
  assert (Hp : well_formed p).
  { apply well_formed_each in Hwf. rewrite Forall_forall in Hwf.
    apply Hwf, in_or_app. right. now left. }
  destruct Hp as (_ & _ & Ha & _).
  destruct (amount_text_converts Ha) as [v Hv].
  exists v. split; [exact Hv|].
  rewrite (@phrases_recorded _ _ st Hwf), fold_phrases_app. cbn [fold_left].
  apply last_phrase_wins; [|exact Hlater].
  unfold record_phrase at 1. rewrite Hv. apply dict_get_set_same.
Qed.

(** C2. For every utterance, [re.finditer] yields all the non-overlapping
    readings of the expense pattern, left to right, not only the first:
    each match is a reading of the pattern at its place, two successive
    matches do not overlap, and no reading of the pattern anywhere in the
    utterance is passed over (it starts inside a match).  Extraction walks
    over all of them: the amount of every match converts (its group 1
    without the commas, as a float), so every match writes its entry; the
    key is group 2 without the white space at its ends, all of it,
    lower-cased; after the call the ledger holds for a key the amount of
    the last match stated for it, so that a category stated again is
    overwritten, never summed; and the keys no match names keep what they
    held.

    In particular, on an utterance made of well-formed phrases
    "<spend-verb> <amount> <on|for|in> <category>", each after a lead of
    ASCII text without a digit and followed by white space and then by the
    end of the utterance or a character that is neither a letter nor white
    space, the amount written in groups of digits with commas and possibly
    decimals, the category in letters and white space, every phrase is
    recorded, in order: the ledger is the ledger before with, for
    each phrase in turn, the entry of the lower-cased category set to the
    amount; a category stated by several phrases holds the amount of the
    last one, whatever the ledger held.  So does every phrase
    "I <spend-verb> <digits> <on|for|in> <letters>" on its own, and
    stating its category again in a second utterance leaves the second
    amount alone. *)
Theorem expense_extraction_records_every_match :
  (forall (text : string) (st : State),
      let ms := re_finditer true expense_pattern text in
      let ledger := expenses (extract_financial_info text st) in
      (forall m, In m ms ->
         exists pre,
           text = pre ++ m_text m ++ m_rest m
           /\ m_start m = String.length pre
           /\ sem true expense_pattern (m_text m) [] (m_groups m))
      /\ (forall ms1 m m' ms2,
            ms = (ms1 ++ m :: m' :: ms2)%list ->
            m_start m + String.length (m_text m) <= m_start m')
      /\ (forall pre w rest g,
            text = pre ++ w ++ rest -> sem true expense_pattern w [] g ->
            exists m,
              In m ms
              /\ m_start m <= String.length pre
                 < m_start m + String.length (m_text m))
      /\ ledger
         = fold_left (fun d m =>
                        match amount_of m with
                        | Some amount => dict_set (category_of m) amount d
                        | None => d
                        end) ms (expenses st)
      /\ (forall m, In m ms ->
            exists amount,
              float_of_string (remove_char "," (group m 1)) = Some amount
              /\ dict_mem (lower (strip (group m 2))) ledger = true)
      /\ (forall m, In m ms ->
            exists l r,
              group m 2 = l ++ strip (group m 2) ++ r
              /\ all_chars is_space l = true /\ all_chars is_space r = true
              /\ trimmed (strip (group m 2)))
      /\ (forall ms1 m ms2,
            ms = (ms1 ++ m :: ms2)%list ->
            (forall m', In m' ms2 -> category_of m' <> category_of m) ->
            dict_get (category_of m) ledger = amount_of m)
      /\ (forall k, (forall m, In m ms -> category_of m <> k) ->
            dict_get k ledger = dict_get k (expenses st)))
  /\ (forall (ps : list phrase) (tail : string) (st : State),
        well_formed_phrases ps tail ->
        Forall (fun p =>
                  exists amount,
                    float_of_string (remove_char "," (ph_amount p))
                    = Some amount) ps
        /\ expenses (extract_financial_info (phrases_text ps tail) st)
           = fold_left record_phrase ps (expenses st))
  /\ (forall (ps1 ps2 : list phrase) (p : phrase) (tail : string)
             (st : State),
        well_formed_phrases (ps1 ++ p :: ps2) tail ->
        (forall q, In q ps2 ->
                   lower (ph_category q) <> lower (ph_category p)) ->
        exists amount,
          float_of_string (remove_char "," (ph_amount p)) = Some amount
          /\ dict_get (lower (ph_category p))
                      (expenses (extract_financial_info
                                   (phrases_text (ps1 ++ p :: ps2) tail) st))
             = Some amount)
  /\ (forall (verb prep amount category : string) (st : State),
        In verb spend_verbs -> In prep expense_prepositions ->
        amount <> "" -> all_chars is_digit amount = true ->
        category <> "" -> all_chars is_alpha category = true ->
        exists v,
          float_of_string amount = Some v
          /\ expenses
               (extract_financial_info
                  ("I " ++ verb ++ " " ++ amount ++ " " ++ prep ++ " "
                        ++ category) st)
             = dict_set (lower category) v (expenses st))
  /\ (forall (verb1 prep1 amount1 verb2 prep2 amount2 category : string)
             (st : State),
        In verb1 spend_verbs -> In prep1 expense_prepositions ->
        In verb2 spend_verbs -> In prep2 expense_prepositions ->
        amount1 <> "" -> all_chars is_digit amount1 = true ->
        amount2 <> "" -> all_chars is_digit amount2 = true ->
        category <> "" -> all_chars is_alpha category = true ->
        exists v2,
          float_of_string amount2 = Some v2
          /\ expenses
               (extract_financial_info
                  ("I " ++ verb2 ++ " " ++ amount2 ++ " " ++ prep2 ++ " "
                        ++ category)
                  (extract_financial_info
                     ("I " ++ verb1 ++ " " ++ amount1 ++ " " ++ prep1 ++ " "
                           ++ category) st))
             = dict_set (lower category) v2 (expenses st)).
Proof.
  split; [|split; [|split; [|split]]].
  - intros text st ms ledger.
    destruct (expense_matches_scan text) as (Hocc & Hord & Hcov).
    destruct (extraction_records_matches text st) as (Hfold & Hconv & Hlast & Hkeep).
    split; [exact Hocc|]. split; [exact Hord|]. split; [exact Hcov|].
    split; [exact Hfold|]. split; [exact Hconv|].
    split; [intros m _; apply strip_spec|].
    split; [exact Hlast | exact Hkeep].
  - intros ps tail st Hwf. split; [|now apply phrases_recorded].
    apply well_formed_each in Hwf.
    eapply Forall_impl; [|exact Hwf].
    intros p (_ & _ & Ha & _). now apply amount_text_converts.
  - intros ps1 ps2 p tail st. apply phrase_overwrites.
  - intros verb prep amount category st. apply expense_phrase_recorded.
  - intros verb1 prep1 amount1 verb2 prep2 amount2 category st
           Hv1 Hp1 Hv2 Hp2 Hn1 Ha1 Hn2 Ha2 Hnc Hc.
    destruct (@expense_phrase_recorded verb1 prep1 amount1 category st
                Hv1 Hp1 Hn1 Ha1 Hnc Hc) as (v1 & _ & E1).
    destruct (@expense_phrase_recorded
                verb2 prep2 amount2 category
                (extract_financial_info
                   ("I " ++ verb1 ++ " " ++ amount1 ++ " " ++ prep1 ++ " "
                         ++ category) st)
                Hv2 Hp2 Hn2 Ha2 Hnc Hc) as (v2 & F2 & E2).
    exists v2. split; [exact F2|].
    rewrite E2, E1. apply dict_set_overwrites.
Qed.

Lemma expense_extraction_records_every_match_witness :
  let ps := [ {| ph_lead := "I "; ph_verb := "spent"; ph_amount := "500";
                 ph_prep := "on"; ph_category := "food"; ph_padding := "" |};
              {| ph_lead := ". Then I also "; ph_verb := "paid";
                 ph_amount := "1,300.50"; ph_prep := "for";
                 ph_category := "Pet Care"; ph_padding := "  " |};
              {| ph_lead := "! Yesterday I "; ph_verb := "spend";
                 ph_amount := "20"; ph_prep := "on"; ph_category := "FOOD";
                 ph_padding := " " |} ] in
  phrases_text ps "."
  = "I spent 500 on food. Then I also paid 1,300.50 for Pet Care  ! Yesterday I spend 20 on FOOD ."
  /\ well_formed_phrases ps "."
  /\ expenses (extract_financial_info (phrases_text ps ".") (init false))
     = [("food", Fin 20); ("pet care", Fin (2601 # 2))].
Proof.
  cbv zeta. split; [reflexivity|].
  match goal with
  | |- ?W /\ _ = _ =>
      assert (Hwf : W);
      [| split; [exact Hwf|];
         rewrite (proj2 (proj1 (proj2 expense_extraction_records_every_match)
                           _ _ (init false) Hwf));
         vm_compute; reflexivity ]
  end.
  assert (G500 : grouped "500") by (now apply grouped_one).
  assert (G20 : grouped "20") by (now apply grouped_one).
  assert (G1300 : grouped "1,300")
    by (apply (grouped_more "1" "" (s := "300")); [reflexivity|];
        now apply grouped_one).
  cbn [well_formed_phrases phrases_text].
  repeat split; try reflexivity; try (cbn; tauto);
    try (left; assumption).
  right. exists "1,300", "50". repeat split; [exact G1300 | discriminate].
Defined.

(** ** The budget analysis of rent and food, template by template *)

Lemma no_dot_skip (s t : string) :
  all_chars (fun c => negb (is_dot c)) s = true ->
  contains ".0" (s ++ t) = contains ".0" t.
Proof.
  induction s as [|c s IH]; intros H; [reflexivity|].
  simpl in H. apply andb_prop in H. destruct H as [Hc Hs].
  apply negb_true_iff in Hc. unfold is_dot in Hc.
  change (String c s ++ t) with (String c (s ++ t)).
  cbn [contains drop_prefix]. rewrite Ascii.eqb_sym, Hc. now apply IH.
Qed.

Lemma grouped_no_dot (s : string) :
  grouped s -> all_chars (fun c => negb (is_dot c)) s = true.
Proof.
  intros H. apply grouped_chars in H.
  eapply all_chars_weaken; [|exact H].
  intros c Hc. apply orb_prop in Hc. destruct Hc as [Hc|Hc].
  - now rewrite (digit_not_dot _ Hc).
  - unfold is_comma in Hc. apply Ascii.eqb_eq in Hc. now subst c.
Qed.

(** An amount shown without decimals holds no decimal point. *)
Lemma format_no_dot (x : float) :
  all_chars (fun c => negb (is_dot c)) (format_f true 0 x) = true.
Proof.
  destruct x as [q|[]|]; try reflexivity.
  unfold format_f. cbv beta iota zeta.
  rewrite !all_chars_app. apply andb_true_intro. split.
  - now destruct (fsign (Fin q)).
  - rewrite andb_true_r. apply grouped_no_dot.
    match goal with
    | |- grouped (with_commas (string_of_Z ?n)) =>
        destruct (string_of_Z_digits n) as [Hd (c & s & Hs)];
        apply with_commas_shape; [rewrite Hs; discriminate | exact Hd]
    end.
Qed.

Ltac settle_draw :=
  split; intros Hdraw;
  first [ lia
        | vm_compute; reflexivity
        | vm_compute in Hdraw; discriminate Hdraw ].

(** The advice sentence for each of the nine templates: which draws name
    the category, and which the percentage. *)
Lemma rent_food_advice_exact (r : nat) (st : State) :
  exists advice,
    format (choice r advice_templates)
           (rent_food_bindings (shown_savings_goal st)) = Ok advice
    /\ (contains "rent" advice = true <-> r mod 9 < 6)
    /\ (contains "40.0" advice = true <-> r mod 9 < 2)
    /\ (6 <= r mod 9 -> advice = choice r advice_templates).
Proof.
  rewrite choice_nth. change (List.length advice_templates) with 9%nat.
  assert (Hlt : r mod 9 < 9) by (apply Nat.mod_upper_bound; discriminate).
  destruct (r mod 9) as [|[|[|[|[|[|[|[|[|k]]]]]]]]]; try lia.
  5: { exists ("To reach your savings goal of "
               ++ shown_savings_goal st
               ++ ", consider cutting back on rent by about 4,000 per month.").
       split; [reflexivity|]. split; [|split]; [| |lia].
       - split; [lia|]. intros _.
         apply contains_app_r, contains_app_r. vm_compute. reflexivity.
       - split; [|lia]. intros H. exfalso.
         assert (H0 : contains ".0" "40.0" = true) by reflexivity.
         pose proof (contains_trans _ _ _ H0 H) as Hc.
         rewrite (@no_dot_skip "To reach your savings goal of " _ eq_refl) in Hc.
         unfold shown_savings_goal in Hc.
         rewrite (@no_dot_skip _ _ (format_no_dot _)) in Hc.
         vm_compute in Hc. discriminate Hc. }
  all: eexists; split; [reflexivity|];
    split; [settle_draw|split; [settle_draw|]];
    intros Hk; try lia; reflexivity.
Qed.

(** C5, as the code has it.  On a request answered from the
    budget-analysis category (the utterance holds an analysis keyword, an
    income is on record and no category of higher priority applies) with
    an income of 10000 and the ledger rent 4000, food 1000, the reply shows
    the income as 10,000, the total as 5,000 and the remaining amount
    (income minus the sum of the ledger) as 5,000, all with thousands
    separators, followed by an advice sentence.  The advice template is
    drawn among nine and formatted with the category "rent" (the highest
    amount) and the percent "40.0"; the sentence names "rent" exactly when
    one of the first six templates is drawn and "40.0" exactly when one of
    the first two is; the last three templates have no placeholder and give
    a general tip that mentions neither. *)
Theorem budget_analysis_of_rent_and_food
        (rnd : nat -> nat) (text : string) (st : State) :
  dict_get "income" (user_data st) = Some (Fin 10000) ->
  expenses st = [("rent", Fin 4000); ("food", Fin 1000)] ->
  classify text st = BudgetAnalysis ->
  has_keyword analysis_keywords text = true
  /\ fsub (Fin 10000) (sum (dict_values (expenses st))) = Fin 5000
  /\ max_by_value ("rent", Fin 4000) [("food", Fin 1000)] = ("rent", Fin 4000)
  /\ exists advice,
       snd (generate_contextual_response rnd text st)
       = Ok (nth (rnd 1%nat mod 2) rent_food_headers "" ++ advice)
       /\ format (choice (rnd 0%nat) advice_templates)
                 (rent_food_bindings (shown_savings_goal st))
          = Ok advice
       /\ (contains "rent" advice = true <-> rnd 0%nat mod 9 < 6)
       /\ (contains "40.0" advice = true <-> rnd 0%nat mod 9 < 2)
       /\ (6 <= rnd 0%nat mod 9 -> advice = choice (rnd 0%nat) advice_templates).
Proof.
  intros Hincome Hledger Hclass.
  split.
  { rewrite classify_eq in Hclass.
    destruct (rename_attempt bot_aliases text); [discriminate|].
    destruct (asks_bot_name text); [discriminate|].
    destruct (existsb (fun p => matches p text) savings_patterns);
      [discriminate|].
    destruct (dict_mem "income" (user_data st)
              && (List.length (conversation_history st) <? 3)%nat);
      [discriminate|].
    destruct (matches expense_pattern text); [discriminate|].
    destruct (has_keyword analysis_keywords text); [reflexivity|].
    discriminate. }
  split; [rewrite Hledger; vm_compute; reflexivity|].
  split; [vm_compute; reflexivity|].
  destruct (rent_food_advice_exact (rnd 0%nat) st)
    as (advice & Hadvice & Hrest).
  exists advice. split; [|split; [exact Hadvice | exact Hrest]].
  rewrite respond_reply, Hclass.
  unfold analysis_reply, dict_item. rewrite Hincome.
  unfold budget_analysis_reply. rewrite total_expenses_sum, Hledger.
  rewrite rent_food_advice, Hadvice.
  replace (sum (dict_values [("rent", Fin 4000); ("food", Fin 1000)]))
    with (Fin 5000) by (vm_compute; reflexivity).
  replace (fsub (Fin 10000) (Fin 5000)) with (Fin 5000)
    by (vm_compute; reflexivity).
  replace (format_f true 0 (Fin 10000)) with "10,000"
    by (vm_compute; reflexivity).
  replace (format_f true 0 (Fin 5000)) with "5,000"
    by (vm_compute; reflexivity).
  apply rent_food_analysis.
Qed.

Lemma budget_analysis_of_rent_and_food_witness :
  dict_get "income" (user_data rent_food_session) = Some (Fin 10000)
  /\ expenses rent_food_session = [("rent", Fin 4000); ("food", Fin 1000)]
  /\ classify "How is my budget?" rent_food_session = BudgetAnalysis
  /\ exists advice,
       snd (generate_contextual_response
              (fun _ => 1%nat) "How is my budget?" rent_food_session)
       = Ok (nth 1 rent_food_headers "" ++ advice)
       /\ contains "rent" advice = true
       /\ contains "40.0" advice = true.
Proof.
  split; [vm_compute; reflexivity|].
  split; [vm_compute; reflexivity|].
  split; [vm_compute; reflexivity|].
  destruct (budget_analysis_of_rent_and_food
              (fun _ => 1%nat) "How is my budget?" rent_food_session
              eq_refl eq_refl eq_refl)
    as (_ & _ & _ & advice & Hreply & _ & Hrent & Hpercent & _).
  exists advice. split; [exact Hreply|].
  split; [apply Hrent | apply Hpercent]; vm_compute; lia.
Defined.

(** C5 as stated fails in two ways.  When one of the last three advice
    templates is drawn, the reply shows the remaining amount as 5,000 (not
    5000) and its advice sentence is the 50/30/20 tip, which names neither
    "rent" nor "40.0".  And an utterance that holds an analysis keyword,
    with the income on record, is not answered with the analysis when a
    category of higher priority applies: here the savings goal. *)
Lemma budget_advice_without_rent :
  (classify "How is my budget?" rent_food_session = BudgetAnalysis
   /\ dict_get "income" (user_data rent_food_session) = Some (Fin 10000)
   /\ expenses rent_food_session = [("rent", Fin 4000); ("food", Fin 1000)]
   /\ exists reply,
        snd (get_ai_response (fun _ => 6%nat) None "How is my budget?"
                             rent_food_session)
        = Ok reply
        /\ reply
           = nth 0 rent_food_headers ""
             ++ "To improve your financial health, try the 50/30/20 rule: 50% for needs, 30% for wants, and 20% for savings."
        /\ contains "rent" reply = false
        /\ contains "40.0" reply = false
        /\ contains "5000" reply = false)
  /\ (has_keyword analysis_keywords "For my budget I want to save 2000" = true
      /\ dict_get "income" (user_data rent_food_session) = Some (Fin 10000)
      /\ expenses rent_food_session = [("rent", Fin 4000); ("food", Fin 1000)]
      /\ classify "For my budget I want to save 2000" rent_food_session
         = SavingsGoal
      /\ snd (get_ai_response (fun _ => 0%nat) None
                              "For my budget I want to save 2000"
                              rent_food_session)
         = Ok "🎯 Excellent! Your savings goal is set to ₹2,000 per month.").
Proof.
  split.
  - split; [vm_compute; reflexivity|].
    split; [vm_compute; reflexivity|].
    split; [vm_compute; reflexivity|].
    eexists. split; [vm_compute; reflexivity|].
    repeat split; vm_compute; reflexivity.
  - repeat split; vm_compute; reflexivity.
Qed.
